(** * Micro Terminal Manager: a shallow embedding of [micro_terminal.py]

    The development follows the layout of the Python module:

    - [PyStr]: the [str] methods the module relies on ([strip], [split],
      [splitlines], [lower], [startswith], slicing, [in], [join]);
    - [Runtime]: the host the module talks to ([shutil.which],
      [os.environ], [subprocess.run], [subprocess.Popen], [input],
      [print]) as a state-and-exception monad over an abstract world;
    - [MicroTerminal]: the functions of the module, in source order, and
      the notions the properties are stated with;
    - [Tmux], [Script], [Hung]: three concrete hosts, a reference
      multiplexer among them, on which the functions are run;
    - the properties: string methods, session addressing, the lifecycle
      controller operation by operation, the dispatcher and its loop.

    Strings are [string]s of the Standard Library: a character is a code
    point below 256, and the classification of characters (white space,
    line boundaries, case) is the one Python applies on that range.

    An external process is what the host makes of it: it exits with a
    status and two texts, it outlives its time limit, or it does not
    start.  The state records every process that was started.  The
    operator answers a prompt with a line or with the abort signal, and
    the end of the answers is the end of input; the abort signal arrives
    at prompts only.  What [print] writes is recorded by kind and message,
    without colours.  The loop of the manager runs for a given number of
    rounds; more rounds than answers are always enough. *)

From Stdlib Require Import Bool List Arith ZArith Lia Ascii String.
Import ListNotations.

Open Scope string_scope.
Open Scope list_scope.

(* ===================================================================== *)
(** ** Python string methods *)
(* ===================================================================== *)

Module PyStr.

Definition code (c : ascii) : nat := nat_of_ascii c.

(** [str.isspace] on one character: TAB..CR, FS..US, SPACE, NEL, NBSP. *)
Definition isspace (c : ascii) : bool :=
  let n := code c in
  (((9 <=? n) && (n <=? 13)) || ((28 <=? n) && (n <=? 32))
   || (n =? 133) || (n =? 160))%nat.

(** Line boundaries of [str.splitlines]: LF, VT, FF, CR, FS, GS, RS, NEL. *)
Definition islinebreak (c : ascii) : bool :=
  let n := code c in
  (((10 <=? n) && (n <=? 13)) || ((28 <=? n) && (n <=? 30))
   || (n =? 133))%nat.

(** [str.lower] on one character: A..Z and the upper-case letters of the
    Latin-1 block (all of 0xC0..0xDE but the multiplication sign). *)
Definition lower_char (c : ascii) : ascii :=
  let n := code c in
  if (((65 <=? n) && (n <=? 90))
      || ((192 <=? n) && (n <=? 222) && negb (n =? 215)))%nat
  then ascii_of_nat (n + 32) else c.

Fixpoint lower (s : string) : string :=
  match s with
  | EmptyString => EmptyString
  | String c r => String (lower_char c) (lower r)
  end.

Definition is_empty (s : string) : bool :=
  match s with EmptyString => true | String _ _ => false end.

Fixpoint lstrip (s : string) : string :=
  match s with
  | EmptyString => EmptyString
  | String c r => if isspace c then lstrip r else s
  end.

Fixpoint rstrip (s : string) : string :=
  match s with
  | EmptyString => EmptyString
  | String c r =>
      let r' := rstrip r in
      if isspace c && is_empty r' then EmptyString else String c r'
  end.

(** [s.strip()] *)
Definition strip (s : string) : string := rstrip (lstrip s).

(** [s.split()]: maximal runs of non-space characters, in order.  [cur]
    is the word being read. *)
Fixpoint split_from (cur : string) (s : string) : list string :=
  match s with
  | EmptyString => if is_empty cur then [] else [cur]
  | String c r =>
      if isspace c
      then (if is_empty cur then split_from EmptyString r else cur :: split_from EmptyString r)
      else split_from (cur ++ String c EmptyString) r
  end.

Definition split (s : string) : list string := split_from EmptyString s.

(** [s.splitlines()]: a line ends at a line boundary (CR LF counting as
    one) or at the end of the text; no empty last line is produced. *)
Fixpoint splitlines_from (cur : string) (s : string) : list string :=
  match s with
  | EmptyString => if is_empty cur then [] else [cur]
  | String c r =>
      if islinebreak c
      then match r with
           | String d r' =>
               if ((code c =? 13) && (code d =? 10))%nat
               then cur :: splitlines_from EmptyString r'
               else cur :: splitlines_from EmptyString r
           | EmptyString => cur :: splitlines_from EmptyString r
           end
      else splitlines_from (cur ++ String c EmptyString) r
  end.

Definition splitlines (s : string) : list string := splitlines_from EmptyString s.

(** [s.startswith(p)] *)
Definition startswith (s p : string) : bool := String.prefix p s.

(** [s[k:]] *)
Fixpoint slice_from (k : nat) (s : string) : string :=
  match k, s with
  | O, _ => s
  | S k', String _ r => slice_from k' r
  | S _, EmptyString => EmptyString
  end.

(** [needle in hay] *)
Fixpoint contains (needle hay : string) : bool :=
  String.prefix needle hay
  || match hay with
     | EmptyString => false
     | String _ r => contains needle r
     end.

(** [sep.join(xs)] *)
Fixpoint join (sep : string) (xs : list string) : string :=
  match xs with
  | [] => EmptyString
  | [x] => x
  | x :: rest => x ++ sep ++ join sep rest
  end.

(** [x in (a, b, ...)] for strings. *)
Definition mem (x : string) (xs : list string) : bool :=
  existsb (String.eqb x) xs.

(** Truthiness of an optional string: [None] and the empty string are falsy. *)
Definition truthy (o : option string) : bool :=
  match o with
  | Some (String _ _) => true
  | _ => false
  end.

Definition HT : string := String (ascii_of_nat 9) EmptyString.
Definition LF : string := String (ascii_of_nat 10) EmptyString.
Definition CR : string := String (ascii_of_nat 13) EmptyString.
Definition SQ : string := String (ascii_of_nat 39) EmptyString.
Definition DQ : string := String (ascii_of_nat 34) EmptyString.

End PyStr.

(* ===================================================================== *)
(** ** The host: tools, processes, operator input *)
(* ===================================================================== *)

Module Runtime.

(** [shlex.quote]: a string of safe characters is left as it is, any other
    is wrapped in single quotes, its own single quotes spliced out. *)
Definition is_safe_char (c : ascii) : bool :=
  let n := PyStr.code c in
  (((48 <=? n) && (n <=? 57)) || ((65 <=? n) && (n <=? 90))
   || ((97 <=? n) && (n <=? 122))
   || existsb (Nat.eqb n) [95; 64; 37; 43; 61; 58; 44; 46; 47; 45])%nat.

Fixpoint all_safe (s : string) : bool :=
  match s with
  | EmptyString => true
  | String c r => is_safe_char c && all_safe r
  end.

Fixpoint escape_quotes (s : string) : string :=
  match s with
  | EmptyString => EmptyString
  | String c r =>
      if (PyStr.code c =? 39)%nat
      then PyStr.SQ ++ PyStr.DQ ++ PyStr.SQ ++ PyStr.DQ ++ PyStr.SQ
           ++ escape_quotes r
      else String c (escape_quotes r)
  end.

Definition shlex_quote (s : string) : string :=
  if PyStr.is_empty s then PyStr.SQ ++ PyStr.SQ
  else if all_safe s then s
  else PyStr.SQ ++ escape_quotes s ++ PyStr.SQ.

(** The result of a child process that ran to its end. *)
Record Completed : Type := mkCompleted {
  returncode : Z;
  stdout : string;
  stderr : string
}.

(** A process that could not be started: [FileNotFoundError], or any other
    subclass of [Exception] ([PermissionError], [OSError], ...), with the
    text [str] gives for it. *)
Inductive Fault : Type :=
| FileNotFound (text : string)
| OtherFault (text : string).

(** What [subprocess.run] meets: the process exits, outlives its time
    limit, or does not start. *)
Inductive Outcome : Type :=
| Exited (r : Completed)
| TimedOut
| Failed (f : Fault).

(** What [subprocess.Popen] meets. *)
Inductive Launch : Type :=
| Launched
| NotLaunched (f : Fault).

(** One answer of the operator at a prompt: a line, or the abort signal.
    The end of the list of answers is the end of input. *)
Inductive InputEvent : Type :=
| Line (text : string)
| Interrupt.

(** External processes started so far, in order. *)
Inductive Call : Type :=
| Run (argv : list string) (timeout : Z)
| Popen (argv : list string).

Inductive PromptKind : Type :=
| PromptCommand
| PromptOpen (term_name : string)
| PromptDestroy (term_name : string).

(** What is written on the terminal; colours are left out. *)
Inductive Output : Type :=
| Banner
| ActiveList (names : list string)
| NoActive
| Menu
| Blank
| UsageNew
| UsageNewTarget
| UsageOpen
| UsageSend
| UsageDestroy
| Report (ok : bool) (msg : string)
| Cancelled
| UnknownCommand (cmd : string)
| Prompt (p : PromptKind).

(** The host as the module sees it, over a world [W] that the external
    tools read and change. *)
Record Host (W : Type) : Type := mkHost {
  lookup : W -> string -> option string;            (* shutil.which *)
  environ : W -> string -> option string;           (* os.environ.get *)
  run_process : W -> list string -> Z -> Outcome * W;
  launch : W -> list string -> Launch * W;
  str_called_process_error : list string -> Z -> string;
  str_timeout_expired : list string -> Z -> string
}.

Arguments lookup {W} _ _ _.
Arguments environ {W} _ _ _.
Arguments run_process {W} _ _ _ _.
Arguments launch {W} _ _ _.
Arguments str_called_process_error {W} _ _ _.
Arguments str_timeout_expired {W} _ _ _.

Inductive exn : Type :=
| CalledProcessError (cmd : list string) (rc : Z) (err : string)
| TimeoutExpired (cmd : list string) (timeout : Z)
| LaunchError (f : Fault)
| IndexError
| EOFError
| KeyboardInterrupt.

(** [KeyboardInterrupt] derives from [BaseException] only. *)
Definition is_Exception (e : exn) : bool :=
  match e with
  | KeyboardInterrupt => false
  | _ => true
  end.

Record State (W : Type) : Type := mkState {
  world : W;
  stdin : list InputEvent;
  calls : list Call;
  screen : list Output
}.

Arguments mkState {W} _ _ _ _.
Arguments world {W} _.
Arguments stdin {W} _.
Arguments calls {W} _.
Arguments screen {W} _.

Inductive Result (A : Type) : Type :=
| Ret (a : A)
| Raise (e : exn).

Arguments Ret {A} _.
Arguments Raise {A} _.

Definition M (W A : Type) : Type := State W -> Result A * State W.

Section Monad.
Context {W : Type}.

Definition ret {A} (a : A) : M W A := fun st => (Ret a, st).

Definition raise {A} (e : exn) : M W A := fun st => (Raise e, st).

Definition bind {A B} (c : M W A) (k : A -> M W B) : M W B :=
  fun st =>
    match c st with
    | (Ret a, st') => k a st'
    | (Raise e, st') => (Raise e, st')
    end.

(** An [except] clause: the handler when the clause takes the exception. *)
Definition clause (A : Type) : Type := exn -> option (M W A).

Fixpoint first_match {A} (cs : list (clause A)) (e : exn) : option (M W A) :=
  match cs with
  | [] => None
  | c :: rest =>
      match c e with
      | Some h => Some h
      | None => first_match rest e
      end
  end.

(** [try: c  except ...: ...]: clauses are tried in order, an exception
    none of them takes goes on. *)
Definition try_ {A} (c : M W A) (cs : list (clause A)) : M W A :=
  fun st =>
    match c st with
    | (Ret a, st') => (Ret a, st')
    | (Raise e, st') =>
        match first_match cs e with
        | Some h => h st'
        | None => (Raise e, st')
        end
    end.

Definition except_CalledProcessError {A}
    (h : list string -> Z -> string -> M W A) : clause A :=
  fun e =>
    match e with
    | CalledProcessError cmd rc err => Some (h cmd rc err)
    | _ => None
    end.

Definition except_FileNotFoundError {A} (h : M W A) : clause A :=
  fun e =>
    match e with
    | LaunchError (FileNotFound _) => Some h
    | _ => None
    end.

Definition except_Exception {A} (h : exn -> M W A) : clause A :=
  fun e => if is_Exception e then Some (h e) else None.

Definition except_interrupt {A} (h : M W A) : clause A :=
  fun e =>
    match e with
    | KeyboardInterrupt | EOFError => Some h
    | _ => None
    end.

Variable H : Host W.

(** [str(e)] *)
Definition str_exn (e : exn) : string :=
  match e with
  | CalledProcessError cmd rc _ => str_called_process_error H cmd rc
  | TimeoutExpired cmd t => str_timeout_expired H cmd t
  | LaunchError (FileNotFound text) => text
  | LaunchError (OtherFault text) => text
  | IndexError => "list index out of range"
  | EOFError => "EOF when reading a line"
  | KeyboardInterrupt => EmptyString
  end.

(** [shutil.which(name)] *)
Definition which (name : string) : M W (option string) :=
  fun st => (Ret (lookup H (world st) name), st).

(** [os.environ.get(name, default)] *)
Definition environ_get (name default : string) : M W string :=
  fun st =>
    (Ret (match environ H (world st) name with
          | Some v => v
          | None => default
          end), st).

(** [subprocess.run(argv, check=check, timeout=timeout)] *)
Definition subprocess_run (argv : list string) (check : bool) (timeout : Z)
  : M W Completed :=
  fun st =>
    let (o, w') := run_process H (world st) argv timeout in
    let st' := mkState w' (stdin st) (calls st ++ [Run argv timeout])
                       (screen st) in
    match o with
    | Exited r =>
        if check && negb (returncode r =? 0)%Z
        then (Raise (CalledProcessError argv (returncode r) (stderr r)), st')
        else (Ret r, st')
    | TimedOut => (Raise (TimeoutExpired argv timeout), st')
    | Failed f => (Raise (LaunchError f), st')
    end.

(** [subprocess.Popen(argv, ...)]: the child is started and left alone. *)
Definition subprocess_Popen (argv : list string) : M W unit :=
  fun st =>
    let (o, w') := launch H (world st) argv in
    let st' := mkState w' (stdin st) (calls st ++ [Popen argv]) (screen st) in
    match o with
    | Launched => (Ret tt, st')
    | NotLaunched f => (Raise (LaunchError f), st')
    end.

(** [print(...)] *)
Definition print (o : Output) : M W unit :=
  fun st =>
    (Ret tt, mkState (world st) (stdin st) (calls st) (screen st ++ [o])).

(** [input(prompt)] *)
Definition input (p : PromptKind) : M W string :=
  fun st =>
    let st' := mkState (world st) (tl (stdin st)) (calls st)
                       (screen st ++ [Prompt p]) in
    match stdin st with
    | [] => (Raise EOFError, st')
    | Interrupt :: _ => (Raise KeyboardInterrupt, st')
    | Line text :: _ => (Ret text, st')
    end.

(** [xs[i]] *)
Definition item (xs : list string) (i : nat) : M W string :=
  match nth_error xs i with
  | Some x => ret x
  | None => raise IndexError
  end.

(** What the process [argv] meets when started in state [st], and the
    state it leaves. *)
Definition outcome_of (st : State W) (argv : list string) (timeout : Z)
  : Outcome :=
  fst (run_process H (world st) argv timeout).

Definition ran (st : State W) (argv : list string) (timeout : Z) : State W :=
  mkState (snd (run_process H (world st) argv timeout)) (stdin st)
          (calls st ++ [Run argv timeout]) (screen st).

(** The next answer of the operator is the abort signal or the end of
    input. *)
Definition interrupted (st : State W) : bool :=
  match stdin st with
  | [] => true
  | Interrupt :: _ => true
  | Line _ :: _ => false
  end.

End Monad.

Declare Scope py_scope.
Delimit Scope py_scope with py.
Notation "x <- c ;; k" := (bind c (fun x => k))
  (at level 61, c at next level, right associativity) : py_scope.
Notation "c ;;; k" := (bind c (fun _ => k))
  (at level 61, right associativity) : py_scope.

End Runtime.

(* ===================================================================== *)
(** ** The module [micro_terminal] *)
(* ===================================================================== *)

Module MicroTerminal.
Import PyStr Runtime.
Local Open Scope string_scope.
Local Open Scope py_scope.

(** Prefix of the tmux session names of micro terminals. *)
Definition MICRO_TERM_PREFIX : string := "aitx-micro-".

Definition VM_TYPES : list string := ["local"; "docker"; "ssh"].

(** [f"{MICRO_TERM_PREFIX}{name}"] *)
Definition toIdentifier (name : string) : string := MICRO_TERM_PREFIX ++ name.

(** The test and the slice of the comprehension of [list_micro_terminals]:
    [s[len(MICRO_TERM_PREFIX):]] when [s.startswith(MICRO_TERM_PREFIX)]. *)
Definition stripNamespace (s : string) : option string :=
  if startswith s MICRO_TERM_PREFIX
  then Some (slice_from (String.length MICRO_TERM_PREFIX) s)
  else None.

(** An identifier that carries the prefix. *)
Definition tagged (id : string) : bool := startswith id MICRO_TERM_PREFIX.

(** [[s[len(MICRO_TERM_PREFIX):] for s in xs
      if s.startswith(MICRO_TERM_PREFIX)]] *)
Fixpoint comprehension (xs : list string) : list string :=
  match xs with
  | [] => []
  | s :: rest =>
      if startswith s MICRO_TERM_PREFIX
      then slice_from (String.length MICRO_TERM_PREFIX) s :: comprehension rest
      else comprehension rest
  end.

(** ["session not found" in err.lower() or "no server running" in
    err.lower()], the test of [destroy] and of [send]. *)
Definition says_no_session (err : string) : bool :=
  contains "session not found" (lower err)
  || contains "no server running" (lower err).

(** The same test in words: one of the two texts occurs in the diagnostic,
    whatever the case of its letters. *)
Definition occurs_ignoring_case (text err : string) : Prop :=
  exists a u b, err = a ++ u ++ b /\ lower u = text.

Definition names_missing_session (err : string) : Prop :=
  occurs_ignoring_case "session not found" err
  \/ occurs_ignoring_case "no server running" err.

Section Controller.
Context {W : Type} (H : Host W).

Definition _get_tmux_path : M W (option string) := which H "tmux".

Definition _get_docker_path : M W (option string) := which H "docker".

Definition _get_ssh_path : M W (option string) := which H "ssh".

Definition _session_exists (tmux_path session_name : string) : M W bool :=
  try_
    (result <- subprocess_run H
                 [tmux_path; "has-session"; "-t"; session_name] false 3 ;;
     ret (returncode result =? 0)%Z)
    [except_Exception (fun _ => ret false)].

Definition list_micro_terminals : M W (list string) :=
  tmux <- _get_tmux_path ;;
  match tmux with
  | None | Some EmptyString => ret []
  | Some tmux =>
      try_
        (result <- subprocess_run H
                     [tmux; "list-sessions"; "-F"; "#{session_name}"]
                     false 5 ;;
         if negb (returncode result =? 0)%Z
         then ret []
         else ret (comprehension (splitlines (strip (stdout result)))))
        [except_Exception (fun _ => ret [])]
  end.

(** [e.stderr.strip() if e.stderr else str(e)] *)
Definition diagnostic (cmd : list string) (rc : Z) (err : string) : string :=
  if negb (is_empty err) then strip err
  else str_exn H (CalledProcessError cmd rc err).

Definition create_micro_terminal
    (name vm_type : string) (vm_target : option string)
  : M W (bool * option string * string) :=
  tmux <- _get_tmux_path ;;
  match tmux with
  | None | Some EmptyString =>
      ret (false, None, "tmux is not installed or not found in PATH.")
  | Some tmux =>
      if negb (mem vm_type VM_TYPES)
      then ret (false, None,
                "Unknown vm_type '" ++ vm_type ++ "'. Choose from: "
                ++ join ", " VM_TYPES ++ ".")
      else
        let session_name := MICRO_TERM_PREFIX ++ name in
        (* the [try] block that ends the function *)
        let new_session (start_cmd : string) :=
          try_
            (subprocess_run H
               [tmux; "new-session"; "-d"; "-s"; session_name; start_cmd]
               true 10 ;;;
             ret (true, Some session_name,
                  "Micro terminal '" ++ name ++ "' created successfully."))
            [except_CalledProcessError (fun cmd rc err =>
               ret (false, None,
                    "Failed to create micro terminal: "
                    ++ diagnostic cmd rc err));
             except_Exception (fun e =>
               ret (false, None,
                    "Unexpected error creating micro terminal: "
                    ++ str_exn H e))] in
        live <- _session_exists tmux session_name ;;
        if live
        then ret (false, Some session_name,
                  "Micro terminal '" ++ name ++ "' already exists.")
        else if (vm_type =? "docker")%string then
          match vm_target with
          | None | Some EmptyString =>
              ret (false, None,
                   "docker vm_type requires a container name/ID (vm_target).")
          | Some target =>
              docker <- _get_docker_path ;;
              match docker with
              | None | Some EmptyString =>
                  ret (false, None,
                       "Docker is not installed or not found in PATH.")
              | Some docker =>
                  new_session
                    (docker ++ " exec -it " ++ target ++ " "
                     ++ "/bin/sh -c 'command -v bash >/dev/null 2>&1 && exec bash || exec sh'")
              end
          end
        else if (vm_type =? "ssh")%string then
          match vm_target with
          | None | Some EmptyString =>
              ret (false, None,
                   "ssh vm_type requires a user@host target (vm_target).")
          | Some target =>
              ssh <- _get_ssh_path ;;
              match ssh with
              | None | Some EmptyString =>
                  ret (false, None,
                       "SSH client is not installed or not found in PATH.")
              | Some ssh => new_session (ssh ++ " " ++ target)
              end
          end
        else
          shell <- environ_get H "SHELL" "/bin/bash" ;;
          new_session shell
  end.

Definition destroy_micro_terminal (name : string) : M W (bool * string) :=
  tmux <- _get_tmux_path ;;
  match tmux with
  | None | Some EmptyString =>
      ret (false, "tmux is not installed or not found in PATH.")
  | Some tmux =>
      let session_name := MICRO_TERM_PREFIX ++ name in
      try_
        (subprocess_run H [tmux; "kill-session"; "-t"; session_name] true 5 ;;;
         ret (true, "Micro terminal '" ++ name ++ "' destroyed."))
        [except_CalledProcessError (fun cmd rc err =>
           let err := diagnostic cmd rc err in
           if says_no_session err
           then ret (false, "Micro terminal '" ++ name ++ "' not found.")
           else ret (false, "Failed to destroy micro terminal: " ++ err));
         except_Exception (fun e =>
           ret (false,
                "Unexpected error destroying micro terminal: " ++ str_exn H e))]
  end.

Definition send_to_micro_terminal (name command : string)
  : M W (bool * string) :=
  tmux <- _get_tmux_path ;;
  match tmux with
  | None | Some EmptyString =>
      ret (false, "tmux is not installed or not found in PATH.")
  | Some tmux =>
      let session_name := MICRO_TERM_PREFIX ++ name in
      try_
        (subprocess_run H
           [tmux; "send-keys"; "-t"; session_name ++ ":0.0"; command; "C-m"]
           true 5 ;;;
         ret (true, "Command sent to micro terminal '" ++ name ++ "'."))
        [except_CalledProcessError (fun cmd rc err =>
           let err := diagnostic cmd rc err in
           if says_no_session err
           then ret (false,
                     "Micro terminal '" ++ name
                     ++ "' not found or has been closed.")
           else ret (false, "Failed to send command: " ++ err));
         except_Exception (fun e =>
           ret (false, "Unexpected error sending command: " ++ str_exn H e))]
  end.

Definition attach_micro_terminal
    (name : string) (visual_terminal_path : option string)
  : M W (bool * string) :=
  tmux <- _get_tmux_path ;;
  match tmux with
  | None | Some EmptyString =>
      ret (false, "tmux is not installed or not found in PATH.")
  | Some tmux =>
      match visual_terminal_path with
      | None | Some EmptyString =>
          ret (false, "No visual terminal application path provided.")
      | Some terminal =>
          let session_name := MICRO_TERM_PREFIX ++ name in
          live <- _session_exists tmux session_name ;;
          if negb live
          then ret (false, "Micro terminal '" ++ name ++ "' not found.")
          else
            let tmux_cmd :=
              shlex_quote tmux ++ " attach-session -t "
              ++ shlex_quote session_name in
            let term_args :=
              [terminal; "-T"; "Micro Terminal: " ++ name;
               "-e"; "bash -c " ++ DQ ++ tmux_cmd ++ DQ] in
            try_
              (subprocess_Popen H term_args ;;;
               ret (true,
                    "Opened micro terminal '" ++ name ++ "' in a new window."))
              [except_FileNotFoundError
                 (ret (false,
                       "Visual terminal '" ++ terminal ++ "' not found."));
               except_Exception (fun e =>
                 ret (false,
                      "Failed to open micro terminal window: "
                      ++ str_exn H e))]
      end
  end.

End Controller.

Section Dispatcher.
Context {W : Type} (H : Host W).

(** The body of the loop of [run_micro_terminal_manager] from the test of
    the line that was read on.  [Some v] is [return v]; [None] goes to the
    next round, by [continue] or by reaching the end of the body.  Where
    the source leaves a [try] by [continue] or [return], the [try] yields
    [None] and the test that follows does the jump. *)
Definition dispatch (visual_terminal_path : option string)
    (user_input : string) : M W (option string) :=
  if is_empty user_input then ret None
  else
    let parts := split user_input in
    head <- item parts 0 ;;
    let cmd := lower head in
    if mem cmd ["quit"; "exit"] then ret (Some "quit")
    else if (cmd =? "back")%string then ret (Some "back")
    else if (cmd =? "list")%string then ret None
    else if (cmd =? "new")%string then
      if (List.length parts <? 2)%nat
      then print UsageNew ;;; ret None
      else
        term_name <- item parts 1 ;;
        backend <-
          (if (4 <=? List.length parts)%nat
           then
             kind <- item parts 2 ;;
             target <- item parts 3 ;;
             ret (Some (lower kind, Some target))
           else if (List.length parts =? 3)%nat
           then print UsageNewTarget ;;; ret None
           else ret (Some ("local", None))) ;;
        match backend with
        | None => ret None
        | Some (vm_type, vm_target) =>
            created <- create_micro_terminal H term_name vm_type vm_target ;;
            let '(success, _session, msg) := created in
            if success : bool
            then
              print (Report true msg) ;;;
              asked <-
                try_
                  (answer <- input (PromptOpen term_name) ;;
                   ret (Some (lower (strip answer))))
                  [except_interrupt (print Blank ;;; ret None)] ;;
              match asked with
              | None => ret None
              | Some open_choice =>
                  if mem open_choice ["y"; "yes"]
                  then
                    opened <- attach_micro_terminal H term_name
                                visual_terminal_path ;;
                    print (Report (fst opened) (snd opened)) ;;; ret None
                  else ret None
              end
            else print (Report false msg) ;;; ret None
        end
    else if (cmd =? "open")%string then
      if (List.length parts <? 2)%nat
      then print UsageOpen ;;; ret None
      else
        term_name <- item parts 1 ;;
        opened <- attach_micro_terminal H term_name visual_terminal_path ;;
        print (Report (fst opened) (snd opened)) ;;; ret None
    else if (cmd =? "send")%string then
      if (List.length parts <? 3)%nat
      then print UsageSend ;;; ret None
      else
        term_name <- item parts 1 ;;
        let command := join " " (skipn 2 parts) in
        sent <- send_to_micro_terminal H term_name command ;;
        print (Report (fst sent) (snd sent)) ;;; ret None
    else if (cmd =? "destroy")%string then
      if (List.length parts <? 2)%nat
      then print UsageDestroy ;;; ret None
      else
        term_name <- item parts 1 ;;
        asked <-
          try_
            (answer <- input (PromptDestroy term_name) ;;
             ret (Some (lower (strip answer))))
            [except_interrupt (print Blank ;;; ret None)] ;;
        match asked with
        | None => ret None
        | Some confirm =>
            if mem confirm ["y"; "yes"]
            then
              destroyed <- destroy_micro_terminal H term_name ;;
              print (Report (fst destroyed) (snd destroyed)) ;;; ret None
            else print Cancelled ;;; ret None
        end
    else print (UnknownCommand cmd) ;;; ret None.

(** One round of the loop: the list of terminals, the menu, the prompt. *)
Definition loop_body (visual_terminal_path : option string)
  : M W (option string) :=
  active <- list_micro_terminals H ;;
  match active with
  | [] => print NoActive
  | _ :: _ => print (ActiveList active)
  end ;;;
  print Menu ;;;
  asked <-
    try_
      (answer <- input PromptCommand ;;
       ret (Some (strip answer)))
      [except_interrupt (print Blank ;;; ret None)] ;;
  match asked with
  | None => ret (Some "quit")
  | Some user_input => dispatch visual_terminal_path user_input
  end.

(** [while True: ...], for at most [fuel] rounds; [None] when the rounds
    are used up before the loop returns. *)
Fixpoint loop (fuel : nat) (visual_terminal_path : option string)
  : M W (option string) :=
  match fuel with
  | O => ret None
  | S fuel' =>
      r <- loop_body visual_terminal_path ;;
      match r with
      | Some v => ret (Some v)
      | None => loop fuel' visual_terminal_path
      end
  end.

Definition run_micro_terminal_manager (fuel : nat)
    (visual_terminal_path : option string) (ai_model : option unit)
  : M W (option string) :=
  print Banner ;;;
  loop fuel visual_terminal_path.

End Dispatcher.

(** *** What the properties are stated with *)

(** The command lines handed to the multiplexer. *)
Definition has_session_argv (tmux id : string) : list string :=
  [tmux; "has-session"; "-t"; id].

Definition list_sessions_argv (tmux : string) : list string :=
  [tmux; "list-sessions"; "-F"; "#{session_name}"].

Definition new_session_argv (tmux id start_cmd : string) : list string :=
  [tmux; "new-session"; "-d"; "-s"; id; start_cmd].

Definition kill_session_argv (tmux id : string) : list string :=
  [tmux; "kill-session"; "-t"; id].

Definition send_keys_argv (tmux id command : string) : list string :=
  [tmux; "send-keys"; "-t"; id ++ ":0.0"; command; "C-m"].

(** Python values, to speak of the shape of what a function returns: a
    plain value, a list or a tuple of plain values. *)
Inductive pyatom : Type :=
| PyNone
| PyBool (b : bool)
| PyStr (s : string).

Inductive pyval : Type :=
| PyAtom (a : pyatom)
| PyList (xs : list pyatom)
| PyTuple (xs : list pyatom).

Definition py_optstr (o : option string) : pyatom :=
  match o with
  | Some s => PyStr s
  | None => PyNone
  end.

(** [(success, session_name, message)] of [create_micro_terminal] *)
Definition py_triple (r : bool * option string * string) : pyval :=
  let '(ok, sid, msg) := r in PyTuple [PyBool ok; py_optstr sid; PyStr msg].

(** [(success, message)] of [destroy], [send] and [attach] *)
Definition py_pair (r : bool * string) : pyval :=
  PyTuple [PyBool (fst r); PyStr (snd r)].

(** the list of names of [list_micro_terminals] *)
Definition py_names (xs : list string) : pyval := PyList (map PyStr xs).

(** the boolean of [_session_exists] *)
Definition py_bool (b : bool) : pyval := PyAtom (PyBool b).

(** A tuple that starts with a boolean and ends with a string. *)
Definition flag_and_message (v : pyval) : bool :=
  match v with
  | PyTuple (PyBool _ :: rest) =>
      match last rest PyNone with
      | PyStr _ => true
      | _ => false
      end
  | _ => false
  end.

(** A string that [split] returns as one word: not empty, no white space. *)
Fixpoint no_space (s : string) : bool :=
  match s with
  | EmptyString => true
  | String c r => negb (isspace c) && no_space r
  end.

Definition is_word (s : string) : bool := negb (is_empty s) && no_space s.

Fixpoint all_space (s : string) : bool :=
  match s with
  | EmptyString => true
  | String c r => isspace c && all_space r
  end.

(** A session name as the server prints it on a line of its own: not
    empty, no line boundary inside, no white space at either end. *)
Fixpoint no_linebreak (s : string) : bool :=
  match s with
  | EmptyString => true
  | String c r => negb (islinebreak c) && no_linebreak r
  end.

Fixpoint last_char (s : string) : option ascii :=
  match s with
  | EmptyString => None
  | String c EmptyString => Some c
  | String _ r => last_char r
  end.

Definition trimmed (s : string) : bool :=
  match s with
  | EmptyString => false
  | String c _ => negb (isspace c)
  end
  && match last_char s with
     | Some c => negb (isspace c)
     | None => false
     end
  && no_linebreak s.

(** What list-sessions prints for the format of the session name: each
    identifier on a line, each line ended by a line feed. *)
Fixpoint listing (ids : list string) : string :=
  match ids with
  | [] => EmptyString
  | id :: rest => id ++ LF ++ listing rest
  end.

(** No character of [s] but a single space between two words is white
    space. *)
Fixpoint single_spaced_from (after_word : bool) (s : string) : bool :=
  match s with
  | EmptyString => after_word
  | String c r =>
      if isspace c
      then after_word && (code c =? 32)%nat && single_spaced_from false r
      else single_spaced_from true r
  end.

Definition single_spaced (s : string) : bool :=
  is_empty s || single_spaced_from false s.

Section Observations.
Context {W : Type} (H : Host W).

(** The path of a tool, when the search finds one. *)
Definition located (st : State W) (name : string) : option string :=
  match lookup H (world st) name with
  | Some (String c r) => Some (String c r)
  | _ => None
  end.

(** The liveness query as a caller of the controller issues it: find the
    multiplexer, ask it. *)
Definition session_live (st : State W) (id : string) : bool :=
  match located st "tmux" with
  | Some tmux =>
      match fst (_session_exists H tmux id st) with
      | Ret b => b
      | Raise _ => false
      end
  | None => false
  end.

(** The command a new session starts with, or the message of the failure
    that keeps [create_micro_terminal] from starting one: the three
    branches on [vm_type], read in state [st]. *)
Definition start_command (st : State W) (vm_type : string)
    (vm_target : option string) : string + string :=
  if (vm_type =? "docker")%string then
    match vm_target with
    | None | Some EmptyString =>
        inr "docker vm_type requires a container name/ID (vm_target)."
    | Some target =>
        match located st "docker" with
        | None => inr "Docker is not installed or not found in PATH."
        | Some docker =>
            inl (docker ++ " exec -it " ++ target ++ " "
                 ++ "/bin/sh -c 'command -v bash >/dev/null 2>&1 && exec bash || exec sh'")
        end
    end
  else if (vm_type =? "ssh")%string then
    match vm_target with
    | None | Some EmptyString =>
        inr "ssh vm_type requires a user@host target (vm_target)."
    | Some target =>
        match located st "ssh" with
        | None => inr "SSH client is not installed or not found in PATH."
        | Some ssh => inl (ssh ++ " " ++ target)
        end
    end
  else
    inl (match environ H (world st) "SHELL" with
         | Some v => v
         | None => "/bin/bash"
         end).

(** What [create_micro_terminal] returns once new-session has been
    started in state [st]. *)
Definition new_session_result (st : State W) (argv : list string)
    (name : string) : bool * option string * string :=
  match outcome_of H st argv 10 with
  | Exited r =>
      if (returncode r =? 0)%Z
      then (true, Some (toIdentifier name),
            "Micro terminal '" ++ name ++ "' created successfully.")
      else (false, None,
            "Failed to create micro terminal: "
            ++ diagnostic H argv (returncode r) (stderr r))
  | TimedOut =>
      (false, None,
       "Unexpected error creating micro terminal: "
       ++ str_exn H (TimeoutExpired argv 10))
  | Failed f =>
      (false, None,
       "Unexpected error creating micro terminal: "
       ++ str_exn H (LaunchError f))
  end.

(** The back end that the words after [new <name>] ask for. *)
Definition backend_of (more : list string) : string * option string :=
  match more with
  | kind :: target :: _ => (lower kind, Some target)
  | _ => ("local", None)
  end.

(** The state in which the line read at the command prompt is handled:
    the sessions have been listed, list and menu are on the screen, the
    answer has been taken from the input. *)
Definition at_prompt (st : State W) : State W :=
  let listed := list_micro_terminals H st in
  mkState (world (snd listed)) (tl (stdin (snd listed))) (calls (snd listed))
          (screen (snd listed)
           ++ [match fst listed with
               | Ret ((_ :: _) as active) => ActiveList active
               | _ => NoActive
               end; Menu; Prompt PromptCommand])%list.

(** An operation that returns and leaves the input alone. *)
Definition quiet {A} (c : M W A) (st : State W) : Prop :=
  exists r, fst (c st) = Ret r /\ stdin (snd (c st)) = stdin st.

(** A step of the dispatcher that returns, with at most [n] answers left
    to read, and with "quit" or "back" when it leaves the loop. *)
Definition settles (n : nat) (c : M W (option string)) (st : State W)
  : Prop :=
  exists r st',
    c st = (Ret r, st')
    /\ List.length (stdin st') <= n
    /\ forall v, r = Some v -> v = "quit" \/ v = "back".

(** The command line of the window that [attach_micro_terminal] opens. *)
Definition attach_argv (tmux terminal name : string) : list string :=
  [terminal; "-T"; "Micro Terminal: " ++ name; "-e";
   "bash -c " ++ DQ
   ++ (shlex_quote tmux ++ " attach-session -t "
       ++ shlex_quote (toIdentifier name))
   ++ DQ].

(** The state after the window [argv] has been asked for. *)
Definition opened (st : State W) (argv : list string) : State W :=
  mkState (snd (launch H (world st) argv)) (stdin st)
          (calls st ++ [Popen argv])%list (screen st).

(** The state after [o] has been printed. *)
Definition printed (o : Output) (st : State W) : State W :=
  mkState (world st) (stdin st) (calls st) (screen st ++ [o])%list.

(** The state after one answer has been read at the prompt [p]. *)
Definition answered (p : PromptKind) (st : State W) : State W :=
  mkState (world st) (tl (stdin st)) (calls st)
          (screen st ++ [Prompt p])%list.

(** The answers that [open_choice in ("y", "yes")] and
    [confirm in ("y", "yes")] take for a yes, as typed. *)
Definition is_yes (answer : string) : bool :=
  mem (lower (strip answer)) ["y"; "yes"].

(** The verbs of the dispatcher. *)
Definition verbs : list string :=
  ["quit"; "exit"; "back"; "list"; "new"; "open"; "send"; "destroy"].

(** From [st] to [st'] at most [k] processes were started, and nothing
    else happened: no answer was read, nothing was printed. *)
Definition only_runs (k : nat) (st st' : State W) : Prop :=
  stdin st' = stdin st
  /\ screen st' = screen st
  /\ exists started,
       calls st' = (calls st ++ started)%list
       /\ List.length started <= k.

(** A host on which the search path does not change while processes run
    and the server has a session once new-session has ended with status
    0. *)
Record keeps_sessions : Prop := {
  path_stable :
    forall w argv timeout,
      lookup H (snd (run_process H w argv timeout)) "tmux"
      = lookup H w "tmux";
  session_kept :
    forall w tmux id start_cmd r,
      fst (run_process H w (new_session_argv tmux id start_cmd) 10)
      = Exited r ->
      returncode r = 0%Z ->
      exists r',
        fst (run_process H
               (snd (run_process H w (new_session_argv tmux id start_cmd) 10))
               (has_session_argv tmux id) 3) = Exited r'
        /\ returncode r' = 0%Z
}.

(** Every process started with subcommand [sub] outlives its time limit
    or does not start. *)
Definition never_answers (sub : string) : Prop :=
  forall w argv timeout r,
    nth_error argv 1 = Some sub ->
    fst (run_process H w argv timeout) <> Exited r.

(** No window can be opened. *)
Definition never_launches : Prop :=
  forall w argv, fst (launch H w argv) <> Launched.

End Observations.

End MicroTerminal.

(* ===================================================================== *)
(** ** Two concrete hosts *)
(* ===================================================================== *)

(** A reference multiplexer: the server keeps the names of its sessions,
    oldest first, and answers the five subcommands the module uses.  It
    stands for the external tool where a property is tried on a concrete
    world; the properties themselves are stated for every host. *)
Module Tmux.
Import PyStr Runtime.
Local Open Scope string_scope.

Record World : Type := mkWorld {
  path : list (string * string);     (* executables: name, location *)
  shell : option string;             (* the variable SHELL *)
  sessions : list string
}.

Fixpoint assoc (k : string) (kvs : list (string * string)) : option string :=
  match kvs with
  | [] => None
  | (k', v) :: rest => if (k =? k')%string then Some v else assoc k rest
  end.

Definition done (out : string) : Completed := mkCompleted 0 out EmptyString.

Definition refused (err : string) : Completed := mkCompleted 1 EmptyString err.

Definition missing (w : World) (s : string) : Completed :=
  match sessions w with
  | [] => refused "no server running on /tmp/tmux-1000/default"
  | _ :: _ => refused ("can't find session: " ++ s)
  end.

Fixpoint remove (s : string) (xs : list string) : list string :=
  match xs with
  | [] => []
  | x :: rest => if (s =? x)%string then rest else x :: remove s rest
  end.

Definition serve (w : World) (sub : string) (args : list string)
  : Completed * World :=
  if (sub =? "has-session")%string then
    match args with
    | [_; s] => (if mem s (sessions w) then done EmptyString else missing w s, w)
    | _ => (refused "usage: has-session [-t target-session]", w)
    end
  else if (sub =? "list-sessions")%string then
    match sessions w with
    | [] => (missing w EmptyString, w)
    | _ :: _ =>
        (done (String.concat EmptyString
                 (map (fun s => s ++ LF) (sessions w))), w)
    end
  else if (sub =? "new-session")%string then
    match args with
    | [_; _; s; _] =>
        if mem s (sessions w)
        then (refused ("duplicate session: " ++ s), w)
        else (done EmptyString,
              mkWorld (path w) (shell w) (sessions w ++ [s])%list)
    | _ => (refused "usage: new-session [-d] [-s session-name] [command]", w)
    end
  else if (sub =? "kill-session")%string then
    match args with
    | [_; s] =>
        if mem s (sessions w)
        then (done EmptyString,
              mkWorld (path w) (shell w) (remove s (sessions w)))
        else (missing w s, w)
    | _ => (refused "usage: kill-session [-t target-session]", w)
    end
  else if (sub =? "send-keys")%string then
    match args with
    | [_; pane; _; _] =>
        if existsb (fun s => (pane =? s ++ ":0.0")%string) (sessions w)
        then (done EmptyString, w)
        else (missing w pane, w)
    | _ => (refused "usage: send-keys [-t target-pane] key ...", w)
    end
  else (refused ("unknown command: " ++ sub), w).

Definition no_such_file (name : string) : Fault :=
  FileNotFound ("[Errno 2] No such file or directory: '" ++ name ++ "'").

Definition on_path (w : World) (location : string) : bool :=
  existsb (fun kv => (location =? snd kv)%string) (path w).

Definition run (w : World) (argv : list string) (timeout : Z)
  : Outcome * World :=
  match argv with
  | tool :: sub :: args =>
      if on_path w tool
      then
        match assoc "tmux" (path w) with
        | Some tmux =>
            if (tool =? tmux)%string
            then let (r, w') := serve w sub args in (Exited r, w')
            else (Exited (refused "not a multiplexer"), w)
        | None => (Exited (refused "not a multiplexer"), w)
        end
      else (Failed (no_such_file tool), w)
  | _ => (Failed (OtherFault "nothing to run"), w)
  end.

Definition start (w : World) (argv : list string) : Launch * World :=
  match argv with
  | tool :: _ =>
      if on_path w tool then (Launched, w)
      else (NotLaunched (no_such_file tool), w)
  | [] => (NotLaunched (OtherFault "nothing to run"), w)
  end.

Definition show_argv (argv : list string) : string :=
  "[" ++ join ", " (map (fun a => SQ ++ a ++ SQ) argv) ++ "]".

Definition host : Host World :=
  mkHost World
    (fun w name => assoc name (path w))
    (fun w name => if (name =? "SHELL")%string then shell w else None)
    run
    start
    (fun argv rc => "Command '" ++ show_argv argv ++ "' failed.")
    (fun argv t => "Command '" ++ show_argv argv ++ "' timed out.").

(** A machine with tmux and a windowed terminal, no container runtime. *)
Definition workstation (ss : list string) : World :=
  mkWorld [("tmux", "/usr/bin/tmux"); ("ssh", "/usr/bin/ssh");
           ("xfce4-terminal", "/usr/bin/xfce4-terminal")]
          (Some "/bin/zsh") ss.

(** A machine with tmux and docker, without ssh and without SHELL. *)
Definition container_host (ss : list string) : World :=
  mkWorld [("tmux", "/usr/bin/tmux"); ("docker", "/usr/bin/docker")]
          None ss.

(** The same machine without tmux. *)
Definition bare : World :=
  mkWorld [("ssh", "/usr/bin/ssh")] None [].

Definition boot (w : World) (answers : list InputEvent) : State World :=
  mkState w answers [] [].

(** The windowed terminal of the workstation. *)
Definition terminal : option string := Some "/usr/bin/xfce4-terminal".

End Tmux.

(** A host that plays back a list of outcomes, one for each process that
    is started, and finds the tools it is told to find. *)
Module Script.
Import PyStr Runtime.
Local Open Scope string_scope.

Record World : Type := mkWorld {
  tools : list string;
  outcomes : list Outcome
}.

Definition run (w : World) (argv : list string) (timeout : Z)
  : Outcome * World :=
  match outcomes w with
  | [] => (TimedOut, w)
  | o :: rest => (o, mkWorld (tools w) rest)
  end.

Definition start (w : World) (argv : list string) : Launch * World :=
  match outcomes w with
  | Failed f :: rest => (NotLaunched f, mkWorld (tools w) rest)
  | _ :: rest => (Launched, mkWorld (tools w) rest)
  | [] => (Launched, w)
  end.

Definition host : Host World :=
  mkHost World
    (fun w name => if mem name (tools w) then Some ("/usr/bin/" ++ name)
                   else None)
    (fun w name => None)
    run
    start
    (fun argv rc => "Command failed.")
    (fun argv t => "Command timed out.").

Definition boot (ts : list string) (os : list Outcome)
    (answers : list InputEvent) : State World :=
  mkState (mkWorld ts os) answers [] [].

End Script.

(** A host on which every tool is found and no process ever answers. *)
Module Hung.
Import PyStr Runtime.
Local Open Scope string_scope.

Definition host : Host unit :=
  mkHost unit
    (fun _ name => Some ("/usr/bin/" ++ name))
    (fun _ name => None)
    (fun w argv timeout => (TimedOut, w))
    (fun w argv => (NotLaunched (OtherFault "cannot fork"), w))
    (fun argv rc => "Command failed.")
    (fun argv t => "Command timed out.").

Definition boot (answers : list InputEvent) : State unit :=
  mkState tt answers [] [].

End Hung.

(* ===================================================================== *)
(** ** Facts about the string methods *)
(* ===================================================================== *)

Import PyStr Runtime MicroTerminal.

Section StringFacts.
Local Open Scope string_scope.

Lemma prefix_append (p s : string) : String.prefix p (p ++ s) = true.
Proof.
  induction p as [|c p IH]; simpl.
  - destruct s; reflexivity.
  - destruct (ascii_dec c c) as [_|ne]; [exact IH | now elim ne].
Qed.

Lemma prefix_split (p s : string) :
  String.prefix p s = true -> exists r, s = p ++ r.
Proof.
  revert s; induction p as [|c p IH]; intros s Hp.
  - now exists s.
  - destruct s as [|d s]; simpl in Hp; [discriminate|].
    destruct (ascii_dec c d) as [->|]; [|discriminate].
    destruct (IH _ Hp) as [r ->]. now exists r.
Qed.

Lemma slice_from_append (p s : string) :
  slice_from (String.length p) (p ++ s) = s.
Proof. induction p as [|c p IH]; simpl; [now destruct s | exact IH]. Qed.

Lemma append_cancel (p a b : string) : p ++ a = p ++ b -> a = b.
Proof.
  induction p as [|c p IH]; simpl; intros E; [exact E|].
  injection E as E. now apply IH.
Qed.

Lemma append_assoc (a b c : string) : (a ++ b) ++ c = a ++ (b ++ c).
Proof. induction a as [|x a IH]; simpl; [reflexivity | now rewrite IH]. Qed.

Lemma append_empty (a : string) : a ++ EmptyString = a.
Proof. induction a as [|x a IH]; simpl; [reflexivity | now rewrite IH]. Qed.

Lemma contains_here (needle hay : string) :
  String.prefix needle hay = true -> contains needle hay = true.
Proof.
  intros E. destruct hay as [|c r].
  - change (String.prefix needle EmptyString || false = true).
    now rewrite E.
  - change (String.prefix needle (String c r) || contains needle r = true).
    now rewrite E.
Qed.

Lemma contains_later (needle : string) (c : ascii) (hay : string) :
  contains needle hay = true -> contains needle (String c hay) = true.
Proof.
  intros E. change (contains needle (String c hay))
    with (String.prefix needle (String c hay) || contains needle hay).
  rewrite E. apply orb_true_r.
Qed.

Lemma contains_cases (needle hay : string) :
  contains needle hay = true ->
  String.prefix needle hay = true
  \/ exists c r, hay = String c r /\ contains needle r = true.
Proof.
  destruct hay as [|c r]; intros E.
  - left. change (String.prefix needle EmptyString || false = true) in E.
    now rewrite orb_false_r in E.
  - change (String.prefix needle (String c r) || contains needle r = true)
      in E.
    apply orb_true_iff in E as [E|E]; [now left | right; now exists c, r].
Qed.

(** [contains] is the test for a substring. *)
Lemma contains_iff (needle hay : string) :
  contains needle hay = true <-> exists a b, hay = a ++ needle ++ b.
Proof.
  split.
  - induction hay as [|c hay IH]; intros E;
      apply contains_cases in E as [E|(c' & r & E & E')].
    + apply prefix_split in E as [r E]. now exists EmptyString, r.
    + discriminate.
    + apply prefix_split in E as [r E]. now exists EmptyString, r.
    + injection E as -> ->.
      destruct (IH E') as (a & b & ->). now exists (String c' a), b.
  - intros (a & b & ->). induction a as [|c a IH].
    + change (contains needle (needle ++ b) = true).
      apply contains_here, prefix_append.
    + change (contains needle (String c (a ++ needle ++ b)) = true).
      apply contains_later, IH.
Qed.

Lemma lower_append (a b : string) : lower (a ++ b) = lower a ++ lower b.
Proof. induction a as [|c a IH]; simpl; [reflexivity | now rewrite IH]. Qed.

Lemma lower_append_inv (s x y : string) :
  lower s = x ++ y ->
  exists s1 s2, s = s1 ++ s2 /\ lower s1 = x /\ lower s2 = y.
Proof.
  revert s; induction x as [|c x IH]; intros s E.
  - now exists EmptyString, s.
  - destruct s as [|d s]; [discriminate|]. simpl in E.
    injection E as Ec E. destruct (IH _ E) as (s1 & s2 & -> & <- & <-).
    exists (String d s1), s2. simpl. now rewrite Ec.
Qed.

Lemma contains_lower_iff (text err : string) :
  contains text (lower err) = true <-> occurs_ignoring_case text err.
Proof.
  rewrite contains_iff. split.
  - intros (a' & b' & E).
    apply lower_append_inv in E as (a & ub & -> & <- & E).
    apply lower_append_inv in E as (u & b & -> & <- & <-).
    now exists a, u, b.
  - intros (a & u & b & -> & <-).
    exists (lower a), (lower b). now rewrite !lower_append.
Qed.

Lemma says_no_session_iff (err : string) :
  says_no_session err = true <-> names_missing_session err.
Proof.
  unfold says_no_session, names_missing_session.
  now rewrite orb_true_iff, !contains_lower_iff.
Qed.

(** The methods on a few texts. *)

Example strip_example : strip ("  new  a " ++ LF) = "new  a".
Proof. reflexivity. Qed.

Example split_example :
  split ("send a  echo" ++ HT ++ " hi") = ["send"; "a"; "echo"; "hi"].
Proof. reflexivity. Qed.

Example splitlines_example :
  splitlines ("a" ++ LF ++ LF ++ "b" ++ CR ++ LF ++ "c" ++ LF)
  = ["a"; EmptyString; "b"; "c"].
Proof. reflexivity. Qed.

Example lower_example : lower "No Server Running" = "no server running".
Proof. reflexivity. Qed.

Example join_example :
  join ", " VM_TYPES = "local, docker, ssh".
Proof. reflexivity. Qed.

Example shlex_quote_example :
  shlex_quote "aitx-micro-a" = "aitx-micro-a"
  /\ shlex_quote "aitx-micro-a b" = "'aitx-micro-a b'".
Proof. split; reflexivity. Qed.

(** *** Words *)

Lemma no_space_append (a b : string) :
  no_space (a ++ b) = no_space a && no_space b.
Proof.
  induction a as [|c a IH]; simpl; [reflexivity|].
  now rewrite IH, andb_assoc.
Qed.

Lemma is_empty_append (a : string) (c : ascii) :
  is_empty (a ++ String c EmptyString) = false.
Proof. now destruct a. Qed.

Lemma split_from_words (cur s : string) :
  no_space cur = true -> Forall (fun w => is_word w = true) (split_from cur s).
Proof.
  revert cur; induction s as [|c s IH]; intros cur N; cbn [split_from].
  - destruct cur as [|d cur]; constructor; [|constructor].
    unfold is_word. now rewrite N.
  - destruct (isspace c) eqn:S.
    + destruct cur as [|d cur]; cbn [is_empty].
      * now apply IH.
      * constructor; [unfold is_word; now rewrite N | now apply IH].
    + apply IH. rewrite no_space_append, N. simpl. now rewrite S.
Qed.

(** Every item [split] returns is a word. *)
Lemma split_words (s : string) :
  Forall (fun w => is_word w = true) (split s).
Proof. now apply split_from_words. Qed.

Lemma split_from_word (tok cur rest : string) :
  no_space tok = true ->
  split_from cur (tok ++ rest) = split_from (cur ++ tok) rest.
Proof.
  revert cur; induction tok as [|c tok IH]; intros cur N.
  - now rewrite append_empty.
  - simpl in N. apply andb_true_iff in N as [S N].
    apply negb_true_iff in S. cbn [append split_from]. rewrite S.
    rewrite (IH _ N), append_assoc. reflexivity.
Qed.

Lemma split_word_then_space (tok rest : string) :
  is_word tok = true ->
  split (tok ++ " " ++ rest) = tok :: split rest.
Proof.
  unfold is_word, split. intros N. apply andb_true_iff in N as [E N].
  rewrite (split_from_word _ _ _ N). cbn [append split_from].
  change (isspace " ") with true. cbv iota.
  destruct tok; [discriminate | reflexivity].
Qed.

Lemma split_word (tok : string) : is_word tok = true -> split tok = [tok].
Proof.
  unfold is_word, split. intros N. apply andb_true_iff in N as [E N].
  rewrite <- (append_empty tok) at 1.
  rewrite (split_from_word _ _ _ N). cbn [append split_from].
  destruct tok; [discriminate | reflexivity].
Qed.

(** Joining words with one space and splitting again gives the words. *)
Lemma split_join (toks : list string) :
  Forall (fun w => is_word w = true) toks ->
  split (join " " toks) = toks.
Proof.
  induction 1 as [|t toks T F IH]; [reflexivity|].
  destruct toks as [|u toks].
  - now apply split_word.
  - change (join " " (t :: u :: toks)) with (t ++ " " ++ join " " (u :: toks)).
    now rewrite (split_word_then_space _ _ T), IH.
Qed.

Lemma single_spaced_from_word (tok rest : string) (b : bool) :
  is_word tok = true ->
  single_spaced_from b (tok ++ rest) = single_spaced_from true rest.
Proof.
  unfold is_word. intros N. apply andb_true_iff in N as [E N].
  destruct tok as [|c tok]; [discriminate|]. clear E.
  revert c b N; induction tok as [|d tok IH]; intros c b N;
    simpl in N; apply andb_true_iff in N as [S N];
    apply negb_true_iff in S; cbn [append single_spaced_from]; rewrite S.
  - reflexivity.
  - now apply IH.
Qed.

(** Words joined with one space hold no other white space. *)
Lemma single_spaced_join (toks : list string) :
  Forall (fun w => is_word w = true) toks ->
  single_spaced (join " " toks) = true.
Proof.
  unfold single_spaced. intros F.
  destruct toks as [|t toks]; [reflexivity|]. apply orb_true_iff. right.
  revert t F; induction toks as [|u toks IH]; intros t F;
    inversion F as [|? ? T F']; subst.
  - cbn [join]. rewrite <- (append_empty t).
    now rewrite (single_spaced_from_word _ _ _ T).
  - change (join " " (t :: u :: toks)) with (t ++ " " ++ join " " (u :: toks)).
    rewrite (single_spaced_from_word _ _ _ T).
    cbn [append single_spaced_from]. change (isspace " ") with true.
    cbv iota. cbn [andb]. change (code " " =? 32)%nat with true.
    now apply IH.
Qed.

Lemma split_from_spaces (sep rest : string) :
  all_space sep = true ->
  split_from EmptyString (sep ++ rest) = split_from EmptyString rest.
Proof.
  induction sep as [|c sep IH]; intros A; [reflexivity|].
  simpl in A. apply andb_true_iff in A as [S A].
  cbn [append split_from is_empty]. rewrite S. now apply IH.
Qed.

(** A word, white space, and the rest. *)
Lemma split_word_then_spaces (tok sep rest : string) :
  is_word tok = true -> all_space sep = true -> is_empty sep = false ->
  split (tok ++ sep ++ rest) = tok :: split rest.
Proof.
  unfold is_word, split. intros N A E. apply andb_true_iff in N as [T N].
  rewrite (split_from_word _ _ _ N).
  destruct sep as [|c sep]; [discriminate|].
  simpl in A. apply andb_true_iff in A as [S A].
  cbn [append split_from]. rewrite S.
  destruct tok; [discriminate|]. cbn [is_empty].
  now rewrite (split_from_spaces _ _ A).
Qed.

Lemma split_from_lstrip (s : string) :
  split_from EmptyString (lstrip s) = split_from EmptyString s.
Proof.
  induction s as [|c s IH]; [reflexivity|].
  cbn [lstrip]. destruct (isspace c) eqn:S; [|reflexivity].
  cbn [split_from is_empty]. now rewrite S.
Qed.

Lemma split_from_rstrip (cur s : string) :
  split_from cur (rstrip s) = split_from cur s.
Proof.
  revert cur; induction s as [|c s IH]; intros cur; [reflexivity|].
  cbn [rstrip]. destruct (isspace c) eqn:S; cbn [andb].
  - destruct (is_empty (rstrip s)) eqn:R.
    + cbn [split_from]. rewrite S, <- (IH EmptyString).
      destruct (rstrip s); [|discriminate].
      now destruct cur.
    + cbn [split_from]. now rewrite S, !IH.
  - cbn [split_from]. now rewrite S, IH.
Qed.

(** [split] does not see what [strip] removes. *)
Lemma split_strip (s : string) : split (strip s) = split s.
Proof.
  unfold split, strip. now rewrite split_from_rstrip, split_from_lstrip.
Qed.

End StringFacts.

(* ===================================================================== *)
(** ** Session addressing *)
(* ===================================================================== *)

Section Addressing.
Local Open Scope string_scope.

Lemma stripNamespace_toIdentifier (n : string) :
  stripNamespace (toIdentifier n) = Some n.
Proof.
  unfold stripNamespace, toIdentifier, startswith.
  now rewrite prefix_append, slice_from_append.
Qed.

Lemma toIdentifier_inj (n1 n2 : string) :
  toIdentifier n1 = toIdentifier n2 -> n1 = n2.
Proof. apply append_cancel. Qed.

Lemma stripNamespace_some (s n : string) :
  stripNamespace s = Some n <-> s = toIdentifier n.
Proof.
  split.
  - unfold stripNamespace, startswith.
    destruct (String.prefix MICRO_TERM_PREFIX s) eqn:E; [|discriminate].
    apply prefix_split in E as [r ->]. rewrite slice_from_append.
    now intros [= ->].
  - intros ->. apply stripNamespace_toIdentifier.
Qed.

(** C2. Prefixing a name with the namespace tag and stripping the tag
    again gives the name back, and two names that do not contain the tag
    and have the same identifier are the same name. *)
Theorem namespace_roundtrip_and_injective (n n' : string) :
  stripNamespace (toIdentifier n) = Some n
  /\ (contains MICRO_TERM_PREFIX n = false ->
      contains MICRO_TERM_PREFIX n' = false ->
      toIdentifier n = toIdentifier n' -> n = n').
Proof.
  split.
  - apply stripNamespace_toIdentifier.
  - intros _ _. apply toIdentifier_inj.
Qed.

Lemma namespace_roundtrip_and_injective_witness :
  stripNamespace (toIdentifier "build") = Some "build"
  /\ "build" = "build".
Proof.
  destruct (namespace_roundtrip_and_injective "build" "build") as [R I].
  split; [exact R | apply I; reflexivity].
Defined.

End Addressing.

(* ===================================================================== *)
(** ** The lifecycle controller, operation by operation *)
(* ===================================================================== *)

Ltac step_monad :=
  unfold bind, ret, raise, try_, which, environ_get, print; simpl.

Section ControllerFacts.
Context {W : Type} (H : Host W).
Local Open Scope string_scope.

Lemma subprocess_run_eq (st : State W) argv check timeout :
  subprocess_run H argv check timeout st =
  (match outcome_of H st argv timeout with
   | Exited r =>
       if check && negb (returncode r =? 0)%Z
       then Raise (CalledProcessError argv (returncode r) (stderr r))
       else Ret r
   | TimedOut => Raise (TimeoutExpired argv timeout)
   | Failed f => Raise (LaunchError f)
   end, ran H st argv timeout).
Proof.
  unfold subprocess_run, outcome_of, ran.
  destruct (run_process H (world st) argv timeout) as [o w']; simpl.
  destruct o as [r| |f]; [destruct (check && _)| |]; reflexivity.
Qed.

(** The liveness query never raises: it answers [true] on exit status 0
    and [false] on everything else. *)
Lemma session_exists_eq (tmux id : string) (st : State W) :
  _session_exists H tmux id st =
  (Ret (match outcome_of H st (has_session_argv tmux id) 3 with
        | Exited r => (returncode r =? 0)%Z
        | _ => false
        end),
   ran H st (has_session_argv tmux id) 3).
Proof.
  unfold _session_exists, has_session_argv. step_monad.
  rewrite subprocess_run_eq.
  destruct (outcome_of H st _ 3) as [r| |[t|t]]; reflexivity.
Qed.

(** C5. The liveness query never raises.  It returns [true] exactly when
    the has-session process ends with exit status 0; a timeout and a
    process that does not start both give [false]. *)
Theorem session_exists_false_on_failure (tmux id : string) (st : State W) :
  exists b,
    fst (_session_exists H tmux id st) = Ret b
    /\ (b = true <->
        exists r, outcome_of H st (has_session_argv tmux id) 3 = Exited r
                  /\ returncode r = 0%Z)
    /\ (outcome_of H st (has_session_argv tmux id) 3 = TimedOut -> b = false)
    /\ (forall f, outcome_of H st (has_session_argv tmux id) 3 = Failed f ->
                  b = false).
Proof.
  rewrite session_exists_eq. eexists. split; [reflexivity|].
  destruct (outcome_of H st _ 3) as [r| |f]; repeat split;
    try discriminate; try reflexivity.
  - intros E. exists r. split; [reflexivity | now apply Z.eqb_eq].
  - intros (r' & [= <-] & E). now apply Z.eqb_eq.
  - now intros (r' & E & _).
  - now intros (r' & E & _).
Qed.

End ControllerFacts.

Lemma session_exists_false_on_failure_witness :
  fst (_session_exists Script.host "/usr/bin/tmux" "aitx-micro-a"
         (Script.boot ["tmux"] [TimedOut] [])) = Ret false.
Proof.
  destruct (session_exists_false_on_failure Script.host "/usr/bin/tmux"
              "aitx-micro-a" (Script.boot ["tmux"] [TimedOut] []))
    as (b & E & _ & T & _).
  rewrite E. f_equal. apply T. reflexivity.
Defined.

Section MonadFacts.
Context {W : Type}.

Lemma bind_run {A B} (c : M W A) (k : A -> M W B) (st : State W) :
  bind c k st =
  match c st with
  | (Ret a, st') => k a st'
  | (Raise e, st') => (Raise e, st')
  end.
Proof. reflexivity. Qed.

Lemma try_run {A} (c : M W A) (cs : list (clause A)) (st : State W) :
  try_ c cs st =
  match c st with
  | (Ret a, st') => (Ret a, st')
  | (Raise e, st') =>
      match first_match cs e with
      | Some h => h st'
      | None => (Raise e, st')
      end
  end.
Proof. reflexivity. Qed.

End MonadFacts.

Section CreateFacts.
Context {W : Type} (H : Host W).
Local Open Scope string_scope.

Lemma located_some (st : State W) (name tmux : string) :
  located H st name = Some tmux ->
  lookup H (world st) name = Some tmux /\ tmux <> EmptyString.
Proof.
  unfold located. destruct (lookup H (world st) name) as [[|c r]|];
    try discriminate.
  intros [= <-]. split; [reflexivity | discriminate].
Qed.

Lemma located_none (st : State W) (name : string) :
  located H st name = None ->
  lookup H (world st) name = None
  \/ lookup H (world st) name = Some EmptyString.
Proof.
  unfold located. destruct (lookup H (world st) name) as [[|c r]|];
    try discriminate; auto.
Qed.

Lemma session_live_eq (st : State W) (tmux id : string) :
  located H st "tmux" = Some tmux ->
  session_live H st id =
  match outcome_of H st (has_session_argv tmux id) 3 with
  | Exited r => (returncode r =? 0)%Z
  | _ => false
  end.
Proof.
  intros L. unfold session_live. rewrite L, session_exists_eq. reflexivity.
Qed.

Lemma session_live_none (st : State W) (id : string) :
  located H st "tmux" = None -> session_live H st id = false.
Proof. intros L. unfold session_live. now rewrite L. Qed.

(** The four ways through [create_micro_terminal]. *)

Lemma create_no_tmux (name vm_type : string) (vm_target : option string)
    (st : State W) :
  located H st "tmux" = None ->
  create_micro_terminal H name vm_type vm_target st =
  (Ret (false, None, "tmux is not installed or not found in PATH."), st).
Proof.
  intros L. unfold create_micro_terminal, _get_tmux_path, bind, which.
  destruct (located_none _ _ L) as [-> | ->]; reflexivity.
Qed.

Lemma create_unknown_type (name vm_type tmux : string)
    (vm_target : option string) (st : State W) :
  located H st "tmux" = Some tmux ->
  mem vm_type VM_TYPES = false ->
  create_micro_terminal H name vm_type vm_target st =
  (Ret (false, None,
        "Unknown vm_type '" ++ vm_type ++ "'. Choose from: "
        ++ join ", " VM_TYPES ++ "."), st).
Proof.
  intros L K. apply located_some in L as [L ne].
  unfold create_micro_terminal, _get_tmux_path, bind, which.
  rewrite L. destruct tmux; [now elim ne|]. rewrite K. reflexivity.
Qed.

Lemma create_live (name vm_type tmux : string)
    (vm_target : option string) (st : State W) :
  located H st "tmux" = Some tmux ->
  mem vm_type VM_TYPES = true ->
  session_live H st (toIdentifier name) = true ->
  create_micro_terminal H name vm_type vm_target st =
  (Ret (false, Some (toIdentifier name),
        "Micro terminal '" ++ name ++ "' already exists."),
   ran H st (has_session_argv tmux (toIdentifier name)) 3).
Proof.
  intros L K V. rewrite (session_live_eq _ _ _ L) in V.
  apply located_some in L as [L ne].
  unfold create_micro_terminal, _get_tmux_path.
  rewrite bind_run. unfold which at 1. rewrite L.
  destruct tmux; [now elim ne|]. rewrite K.
  cbv beta iota zeta. cbn [negb].
  rewrite bind_run, session_exists_eq.
  unfold toIdentifier in V. rewrite V. reflexivity.
Qed.

Lemma new_session_eq (tmux id name start_cmd : string) (st : State W) :
  id = toIdentifier name ->
  try_
    (bind (subprocess_run H (new_session_argv tmux id start_cmd) true 10)
       (fun _ =>
          ret (true, Some id,
               "Micro terminal '" ++ name ++ "' created successfully.")))
    [except_CalledProcessError (fun cmd rc err =>
       ret (false, None,
            "Failed to create micro terminal: " ++ diagnostic H cmd rc err));
     except_Exception (fun e =>
       ret (false, None,
            "Unexpected error creating micro terminal: " ++ str_exn H e))]
    st
  = (Ret (new_session_result H st (new_session_argv tmux id start_cmd) name),
     ran H st (new_session_argv tmux id start_cmd) 10).
Proof.
  intros ->. rewrite try_run, bind_run, subprocess_run_eq.
  unfold new_session_result.
  destruct (outcome_of H st _ 10) as [r| |[t|t]]; try reflexivity.
  cbn [andb]. destruct (returncode r =? 0)%Z; reflexivity.
Qed.

Lemma create_absent (name vm_type tmux : string)
    (vm_target : option string) (st : State W) :
  located H st "tmux" = Some tmux ->
  mem vm_type VM_TYPES = true ->
  session_live H st (toIdentifier name) = false ->
  create_micro_terminal H name vm_type vm_target st =
  let st1 := ran H st (has_session_argv tmux (toIdentifier name)) 3 in
  match start_command H st1 vm_type vm_target with
  | inr msg => (Ret (false, None, msg), st1)
  | inl start_cmd =>
      let argv := new_session_argv tmux (toIdentifier name) start_cmd in
      (Ret (new_session_result H st1 argv name), ran H st1 argv 10)
  end.
Proof.
  intros L K V. rewrite (session_live_eq _ _ _ L) in V.
  apply located_some in L as [L ne].
  unfold create_micro_terminal, _get_tmux_path.
  rewrite bind_run. unfold which at 1. rewrite L.
  destruct tmux as [|a tmux]; [now elim ne|]. rewrite K.
  cbv beta iota zeta. cbn [negb].
  rewrite bind_run, session_exists_eq.
  unfold toIdentifier in V. rewrite V.
  unfold start_command, toIdentifier.
  set (st1 := ran H st _ 3).
  destruct (vm_type =? "docker") eqn:D; [|destruct (vm_type =? "ssh") eqn:S].
  - destruct vm_target as [[|c target]|]; try reflexivity.
    unfold _get_docker_path. rewrite bind_run. unfold which at 1, located.
    destruct (lookup H (world st1) "docker") as [[|d docker]|];
      try reflexivity.
    apply new_session_eq. reflexivity.
  - destruct vm_target as [[|c target]|]; try reflexivity.
    unfold _get_ssh_path. rewrite bind_run. unfold which at 1, located.
    destruct (lookup H (world st1) "ssh") as [[|d ssh]|];
      try reflexivity.
    apply new_session_eq. reflexivity.
  - rewrite bind_run. unfold environ_get at 1.
    apply new_session_eq. reflexivity.
Qed.

Ltac differ :=
  let E := fresh "E" in intros E; cbn in E; discriminate E.

Lemma mem_In (x : string) (xs : list string) :
  mem x xs = true <-> In x xs.
Proof.
  unfold mem. rewrite existsb_exists. split.
  - intros (y & I & E). apply String.eqb_eq in E. now subst.
  - intros I. exists x. split; [exact I | apply String.eqb_refl].
Qed.

(** C9. [create_micro_terminal] returns the session identifier in the
    second position when it succeeds and when it fails because the
    session already exists; on every other failure the second position
    is [None].  It never raises. *)
Theorem create_session_slot (name vm_type : string)
    (vm_target : option string) (st : State W) :
  match fst (create_micro_terminal H name vm_type vm_target st) with
  | Ret (true, sid, _) => sid = Some (toIdentifier name)
  | Ret (false, sid, msg) =>
      (sid = Some (toIdentifier name)
       /\ msg = "Micro terminal '" ++ name ++ "' already exists.")
      \/ (sid = None
          /\ msg <> "Micro terminal '" ++ name ++ "' already exists.")
  | Raise _ => False
  end.
Proof.
  destruct (located H st "tmux") as [tmux|] eqn:L;
    [destruct (mem vm_type VM_TYPES) eqn:K;
     [destruct (session_live H st (toIdentifier name)) eqn:V|]|].
  - rewrite (create_live _ _ _ _ _ L K V). left. now split.
  - rewrite (create_absent _ _ _ _ _ L K V). cbv zeta.
    set (st1 := ran H st _ 3).
    destruct (start_command H st1 vm_type vm_target) as [cmd|msg] eqn:B.
    + cbn [fst]. unfold new_session_result.
      destruct (outcome_of H st1 _ 10) as [r| |f];
        [destruct (returncode r =? 0)%Z|..];
        first [reflexivity | right; split; [reflexivity | differ]].
    + cbn [fst]. right. split; [reflexivity|].
      unfold start_command in B.
      repeat match type of B with
             | context [if ?c then _ else _] => destruct c
             | context [match ?x with _ => _ end] => destruct x
             end; try discriminate; injection B as <-; differ.
  - rewrite (create_unknown_type _ _ _ _ _ L K).
    right. split; [reflexivity | differ].
  - rewrite (create_no_tmux _ _ _ _ L).
    right. split; [reflexivity | differ].
Qed.

(** A failure that names a session comes from the liveness query. *)
Lemma create_names_session_only_if_live (name vm_type : string)
    (vm_target : option string) (st : State W) (sid msg : string) :
  fst (create_micro_terminal H name vm_type vm_target st)
  = Ret (false, Some sid, msg) ->
  session_live H st (toIdentifier name) = true.
Proof.
  destruct (located H st "tmux") as [tmux|] eqn:L;
    [destruct (mem vm_type VM_TYPES) eqn:K;
     [destruct (session_live H st (toIdentifier name)) eqn:V|]|].
  - reflexivity.
  - rewrite (create_absent _ _ _ _ _ L K V). cbv zeta.
    set (st1 := ran H st _ 3).
    destruct (start_command H st1 vm_type vm_target) as [cmd|m].
    + cbn [fst]. unfold new_session_result.
      destruct (outcome_of H st1 _ 10) as [r| |f];
        [destruct (returncode r =? 0)%Z|..]; discriminate.
    + discriminate.
  - rewrite (create_unknown_type _ _ _ _ _ L K). discriminate.
  - rewrite (create_no_tmux _ _ _ _ L). discriminate.
Qed.

(** What a successful [create] of a local terminal went through. *)
Lemma create_local_success (name : string) (st st2 : State W)
    (sid : option string) (msg : string) :
  create_micro_terminal H name "local" None st = (Ret (true, sid, msg), st2) ->
  exists tmux shell r,
    located H st "tmux" = Some tmux
    /\ let st1 := ran H st (has_session_argv tmux (toIdentifier name)) 3 in
       let argv := new_session_argv tmux (toIdentifier name) shell in
       outcome_of H st1 argv 10 = Exited r
       /\ returncode r = 0%Z
       /\ st2 = ran H st1 argv 10.
Proof.
  destruct (located H st "tmux") as [tmux|] eqn:L;
    [destruct (session_live H st (toIdentifier name)) eqn:V|].
  - rewrite (create_live _ "local" _ _ _ L eq_refl V). discriminate.
  - rewrite (create_absent _ "local" _ _ _ L eq_refl V). cbv zeta.
    set (st1 := ran H st _ 3).
    change (start_command H st1 "local" None)
      with (@inl string string
              (match environ H (world st1) "SHELL" with
               | Some v => v | None => "/bin/bash" end)).
    cbv iota. set (shell := match environ H (world st1) "SHELL" with
                            | Some v => v | None => "/bin/bash" end).
    unfold new_session_result. intros E.
    exists tmux, shell.
    destruct (outcome_of H st1 _ 10) as [r| |f] eqn:O;
      [destruct (returncode r =? 0)%Z eqn:Z0|..]; try discriminate.
    exists r. split; [reflexivity|]. cbv zeta.
    split; [exact O|]. split; [now apply Z.eqb_eq | now injection E].
  - rewrite (create_no_tmux _ _ _ _ L). discriminate.
Qed.

(** C1. When the liveness query finds the session of a name,
    [create_micro_terminal] fails with the identifier and the message
    that the terminal already exists, for each of the three kinds of
    back end.  On a host that keeps its sessions, a second [create] of a
    local terminal after a successful one fails this way.  No other path
    gives that failure. *)
Theorem create_refuses_live_session (name vm_type : string)
    (vm_target : option string) (st : State W) :
  (In vm_type VM_TYPES ->
   session_live H st (toIdentifier name) = true ->
   fst (create_micro_terminal H name vm_type vm_target st)
   = Ret (false, Some (toIdentifier name),
          "Micro terminal '" ++ name ++ "' already exists."))
  /\ (keeps_sessions H ->
      forall sid msg st1,
        create_micro_terminal H name "local" None st
        = (Ret (true, sid, msg), st1) ->
        fst (create_micro_terminal H name "local" None st1)
        = Ret (false, Some (toIdentifier name),
               "Micro terminal '" ++ name ++ "' already exists."))
  /\ (fst (create_micro_terminal H name vm_type vm_target st)
      = Ret (false, Some (toIdentifier name),
             "Micro terminal '" ++ name ++ "' already exists.") ->
      session_live H st (toIdentifier name) = true).
Proof.
  split; [|split].
  - intros K V. apply mem_In in K.
    destruct (located H st "tmux") as [tmux|] eqn:L.
    + now rewrite (create_live _ _ _ _ _ L K V).
    + now rewrite (session_live_none _ _ L) in V.
  - intros [stable kept] sid msg st2 E.
    apply create_local_success in E
      as (tmux & shell & r & L & O & Z0 & ->).
    set (id := toIdentifier name) in *.
    set (st1 := ran H st (has_session_argv tmux id) 3) in *.
    set (argv := new_session_argv tmux id shell) in *.
    assert (L2 : located H (ran H st1 argv 10) "tmux" = Some tmux).
    { unfold located in *. cbn [ran world]. rewrite stable.
      unfold st1. cbn [ran world]. now rewrite stable. }
    assert (V : session_live H (ran H st1 argv 10) id = true).
    { rewrite (session_live_eq _ _ _ L2).
      destruct (kept (world st1) tmux id shell r O Z0) as (r' & E1 & E2).
      unfold outcome_of. subst argv. cbn [ran world].
      now rewrite E1, E2. }
    now rewrite (create_live _ "local" _ _ _ L2 eq_refl V).
  - apply create_names_session_only_if_live.
Qed.

(** C3, as the code has it.  With the multiplexer found and the session
    not live, [create_micro_terminal] for a container without a target
    fails with the message that a target is required, after one external
    process: the liveness query.  The container runtime is not looked
    for and no session is started. *)
Theorem create_docker_without_target (name tmux : string)
    (vm_target : option string) (st : State W) :
  located H st "tmux" = Some tmux ->
  session_live H st (toIdentifier name) = false ->
  truthy vm_target = false ->
  fst (create_micro_terminal H name "docker" vm_target st)
  = Ret (false, None,
         "docker vm_type requires a container name/ID (vm_target).")
  /\ calls (snd (create_micro_terminal H name "docker" vm_target st))
     = (calls st ++ [Run (has_session_argv tmux (toIdentifier name)) 3])%list.
Proof.
  intros L V T.
  rewrite (create_absent _ "docker" _ _ _ L eq_refl V). cbv zeta.
  destruct vm_target as [[|c r]|]; try discriminate; split; reflexivity.
Qed.

End CreateFacts.

(* ===================================================================== *)
(** ** The reference multiplexer keeps its sessions *)
(* ===================================================================== *)

Section TmuxFacts.
Local Open Scope string_scope.

Lemma mem_last (x : string) (xs : list string) :
  mem x (xs ++ [x])%list = true.
Proof.
  apply mem_In, in_or_app. right. now left.
Qed.

Lemma serve_path (w : Tmux.World) (sub : string) (args : list string) :
  Tmux.path (snd (Tmux.serve w sub args)) = Tmux.path w.
Proof.
  unfold Tmux.serve.
  repeat match goal with
         | |- context [if ?c then _ else _] => destruct c
         | |- context [match ?x with _ => _ end] => destruct x
         end; reflexivity.
Qed.

Lemma run_path (w : Tmux.World) (argv : list string) (timeout : Z) :
  Tmux.path (snd (Tmux.run w argv timeout)) = Tmux.path w.
Proof.
  unfold Tmux.run.
  destruct argv as [|tool [|sub args]]; try reflexivity.
  destruct (Tmux.on_path w tool); [|reflexivity].
  destruct (Tmux.assoc "tmux" (Tmux.path w)) as [tmux|]; [|reflexivity].
  destruct (tool =? tmux); [|reflexivity].
  pose proof (serve_path w sub args) as P.
  destruct (Tmux.serve w sub args) as [r w']. exact P.
Qed.

Lemma tmux_keeps_sessions : keeps_sessions Tmux.host.
Proof.
  split.
  - intros w argv timeout. cbn [lookup Tmux.host].
    now rewrite run_path.
  - intros w tmux id start_cmd r. cbn [run_process Tmux.host].
    unfold new_session_argv, has_session_argv, Tmux.run.
    destruct (Tmux.on_path w tmux) eqn:P; [|discriminate].
    destruct (Tmux.assoc "tmux" (Tmux.path w)) as [t|] eqn:A;
      [destruct (tmux =? t) eqn:T|].
    + cbn [Tmux.serve String.eqb Ascii.eqb Bool.eqb].
      destruct (mem id (Tmux.sessions w)) eqn:M; cbn [fst snd].
      * intros [= <-]. discriminate.
      * intros _ _. unfold Tmux.on_path in *. cbn [Tmux.path].
        rewrite P, A, T. cbn [Tmux.serve String.eqb Ascii.eqb Bool.eqb].
        cbn [Tmux.sessions fst]. rewrite mem_last.
        eexists. split; reflexivity.
    + cbn [fst]. intros [= <-]. discriminate.
    + cbn [fst]. intros [= <-]. discriminate.
Qed.

End TmuxFacts.

Section CreateOnTheReferenceHost.
Local Open Scope string_scope.

Lemma create_refuses_live_session_witness :
  let st := Tmux.boot (Tmux.workstation []) [] in
  let st1 := snd (create_micro_terminal Tmux.host "a" "local" None st) in
  fst (create_micro_terminal Tmux.host "a" "local" None st)
  = Ret (true, Some "aitx-micro-a",
         "Micro terminal 'a' created successfully.")
  /\ fst (create_micro_terminal Tmux.host "a" "local" None st1)
     = Ret (false, Some "aitx-micro-a", "Micro terminal 'a' already exists.")
  /\ fst (create_micro_terminal Tmux.host "a" "ssh" (Some "ops@build") st1)
     = Ret (false, Some "aitx-micro-a", "Micro terminal 'a' already exists.")
  /\ session_live Tmux.host st1 "aitx-micro-a" = true.
Proof.
  cbv zeta. split; [reflexivity|]. split; [|split].
  - apply (proj1 (proj2 (create_refuses_live_session Tmux.host "a" "local"
                           None (Tmux.boot (Tmux.workstation []) [])))
             tmux_keeps_sessions (Some "aitx-micro-a")
             "Micro terminal 'a' created successfully.").
    reflexivity.
  - apply (proj1 (create_refuses_live_session Tmux.host "a" "ssh"
                    (Some "ops@build") _)).
    + right. right. left. reflexivity.
    + reflexivity.
  - apply (proj2 (proj2 (create_refuses_live_session Tmux.host "a" "local"
                           None _))).
    reflexivity.
Defined.

(** C3 does not hold as the specification words it: on a machine with tmux and no
    session, [create("x", "docker", "")] is refused for its missing
    target only after the has-session process has run. *)
Lemma docker_target_check_follows_liveness_query :
  let st := Tmux.boot (Tmux.workstation []) [] in
  let r := create_micro_terminal Tmux.host "x" "docker" (Some EmptyString) st in
  fst r = Ret (false, None,
               "docker vm_type requires a container name/ID (vm_target).")
  /\ calls st = []
  /\ calls (snd r)
     = [Run ["/usr/bin/tmux"; "has-session"; "-t"; "aitx-micro-x"] 3].
Proof. cbv zeta. repeat split. Qed.

(** The same call answers otherwise when tmux is missing or the session
    is there. *)
Example docker_target_check_other_answers :
  fst (create_micro_terminal Tmux.host "x" "docker" (Some EmptyString)
         (Tmux.boot Tmux.bare []))
  = Ret (false, None, "tmux is not installed or not found in PATH.")
  /\ fst (create_micro_terminal Tmux.host "x" "docker" (Some EmptyString)
            (Tmux.boot (Tmux.workstation ["aitx-micro-x"]) []))
     = Ret (false, Some "aitx-micro-x", "Micro terminal 'x' already exists.").
Proof. split; reflexivity. Qed.

Lemma create_docker_without_target_witness :
  let st := Tmux.boot (Tmux.workstation ["main"]) [] in
  fst (create_micro_terminal Tmux.host "x" "docker" (Some EmptyString) st)
  = Ret (false, None,
         "docker vm_type requires a container name/ID (vm_target).")
  /\ calls (snd (create_micro_terminal Tmux.host "x" "docker"
                   (Some EmptyString) st))
     = [Run ["/usr/bin/tmux"; "has-session"; "-t"; "aitx-micro-x"] 3].
Proof.
  cbv zeta.
  apply (create_docker_without_target Tmux.host "x" "/usr/bin/tmux"
           (Some EmptyString) (Tmux.boot (Tmux.workstation ["main"]) []));
    reflexivity.
Defined.

End CreateOnTheReferenceHost.

(* ===================================================================== *)
(** ** Destroying a session, sending keys to it *)
(* ===================================================================== *)

Section DestroySendFacts.
Context {W : Type} (H : Host W).
Local Open Scope string_scope.

Lemma destroy_no_tmux (name : string) (st : State W) :
  located H st "tmux" = None ->
  destroy_micro_terminal H name st =
  (Ret (false, "tmux is not installed or not found in PATH."), st).
Proof.
  intros L. unfold destroy_micro_terminal, _get_tmux_path, bind, which.
  destruct (located_none _ _ _ L) as [-> | ->]; reflexivity.
Qed.

Lemma destroy_eq (name tmux : string) (st : State W) :
  located H st "tmux" = Some tmux ->
  let argv := kill_session_argv tmux (toIdentifier name) in
  destroy_micro_terminal H name st =
  (Ret (match outcome_of H st argv 5 with
        | Exited r =>
            if (returncode r =? 0)%Z
            then (true, "Micro terminal '" ++ name ++ "' destroyed.")
            else
              let err := diagnostic H argv (returncode r) (stderr r) in
              if says_no_session err
              then (false, "Micro terminal '" ++ name ++ "' not found.")
              else (false, "Failed to destroy micro terminal: " ++ err)
        | TimedOut =>
            (false, "Unexpected error destroying micro terminal: "
                    ++ str_exn H (TimeoutExpired argv 5))
        | Failed f =>
            (false, "Unexpected error destroying micro terminal: "
                    ++ str_exn H (LaunchError f))
        end),
   ran H st argv 5).
Proof.
  intros L. apply located_some in L as [L ne]. cbv zeta.
  unfold destroy_micro_terminal, _get_tmux_path.
  rewrite bind_run. unfold which at 1. rewrite L.
  destruct tmux as [|a tmux]; [now elim ne|]. cbv beta iota zeta.
  rewrite try_run, bind_run, subprocess_run_eq.
  unfold kill_session_argv, toIdentifier.
  destruct (outcome_of H st _ 5) as [r| |[t|t]]; try reflexivity.
  cbn [andb]. destruct (returncode r =? 0)%Z; [reflexivity|].
  cbn [negb first_match except_CalledProcessError]. cbv beta iota zeta.
  destruct (says_no_session _); reflexivity.
Qed.

Lemma send_no_tmux (name command : string) (st : State W) :
  located H st "tmux" = None ->
  send_to_micro_terminal H name command st =
  (Ret (false, "tmux is not installed or not found in PATH."), st).
Proof.
  intros L. unfold send_to_micro_terminal, _get_tmux_path, bind, which.
  destruct (located_none _ _ _ L) as [-> | ->]; reflexivity.
Qed.

Lemma send_eq (name command tmux : string) (st : State W) :
  located H st "tmux" = Some tmux ->
  let argv := send_keys_argv tmux (toIdentifier name) command in
  send_to_micro_terminal H name command st =
  (Ret (match outcome_of H st argv 5 with
        | Exited r =>
            if (returncode r =? 0)%Z
            then (true, "Command sent to micro terminal '" ++ name ++ "'.")
            else
              let err := diagnostic H argv (returncode r) (stderr r) in
              if says_no_session err
              then (false, "Micro terminal '" ++ name
                           ++ "' not found or has been closed.")
              else (false, "Failed to send command: " ++ err)
        | TimedOut =>
            (false, "Unexpected error sending command: "
                    ++ str_exn H (TimeoutExpired argv 5))
        | Failed f =>
            (false, "Unexpected error sending command: "
                    ++ str_exn H (LaunchError f))
        end),
   ran H st argv 5).
Proof.
  intros L. apply located_some in L as [L ne]. cbv zeta.
  unfold send_to_micro_terminal, _get_tmux_path.
  rewrite bind_run. unfold which at 1. rewrite L.
  destruct tmux as [|a tmux]; [now elim ne|]. cbv beta iota zeta.
  rewrite try_run, bind_run, subprocess_run_eq.
  unfold send_keys_argv, toIdentifier.
  destruct (outcome_of H st _ 5) as [r| |[t|t]]; try reflexivity.
  cbn [andb]. destruct (returncode r =? 0)%Z; [reflexivity|].
  cbn [negb first_match except_CalledProcessError]. cbv beta iota zeta.
  destruct (says_no_session _); reflexivity.
Qed.

(** C6. When kill-session or send-keys ends with a status other than 0,
    [destroy_micro_terminal] and [send_to_micro_terminal] answer that the
    terminal was not found exactly when the diagnostic holds "session not
    found" or "no server running" in any case of letters; otherwise they
    answer with a failure that carries the diagnostic. *)
Theorem failure_classified_by_diagnostic (name command tmux : string)
    (st : State W) :
  located H st "tmux" = Some tmux ->
  (forall r,
     let argv := kill_session_argv tmux (toIdentifier name) in
     let err := diagnostic H argv (returncode r) (stderr r) in
     outcome_of H st argv 5 = Exited r ->
     returncode r <> 0%Z ->
     (fst (destroy_micro_terminal H name st)
      = Ret (false, "Micro terminal '" ++ name ++ "' not found.")
      <-> names_missing_session err)
     /\ (~ names_missing_session err ->
         fst (destroy_micro_terminal H name st)
         = Ret (false, "Failed to destroy micro terminal: " ++ err)))
  /\ (forall r,
        let argv := send_keys_argv tmux (toIdentifier name) command in
        let err := diagnostic H argv (returncode r) (stderr r) in
        outcome_of H st argv 5 = Exited r ->
        returncode r <> 0%Z ->
        (fst (send_to_micro_terminal H name command st)
         = Ret (false, "Micro terminal '" ++ name
                       ++ "' not found or has been closed.")
         <-> names_missing_session err)
        /\ (~ names_missing_session err ->
            fst (send_to_micro_terminal H name command st)
            = Ret (false, "Failed to send command: " ++ err))).
Proof.
  intros L. split; intros r argv err O NZ; subst argv.
  - rewrite (destroy_eq _ _ _ L). cbv zeta. cbn [fst]. rewrite O.
    apply Z.eqb_neq in NZ. rewrite NZ. fold err.
    rewrite <- says_no_session_iff.
    destruct (says_no_session err); split; easy.
  - rewrite (send_eq _ _ _ _ L). cbv zeta. cbn [fst]. rewrite O.
    apply Z.eqb_neq in NZ. rewrite NZ. fold err.
    rewrite <- says_no_session_iff.
    destruct (says_no_session err); split; easy.
Qed.

End DestroySendFacts.

Section DestroySendOnTheReferenceHost.
Local Open Scope string_scope.

Lemma failure_classified_by_diagnostic_witness :
  fst (destroy_micro_terminal Tmux.host "ghost"
         (Tmux.boot (Tmux.workstation []) []))
  = Ret (false, "Micro terminal 'ghost' not found.")
  /\ fst (send_to_micro_terminal Tmux.host "ghost" "ls"
            (Tmux.boot (Tmux.workstation ["main"]) []))
     = Ret (false,
            "Failed to send command: can't find session: aitx-micro-ghost:0.0").
Proof.
  split.
  - destruct (failure_classified_by_diagnostic Tmux.host "ghost" "ls"
                "/usr/bin/tmux" (Tmux.boot (Tmux.workstation []) [])
                eq_refl) as [D _].
    apply (D (Tmux.refused "no server running on /tmp/tmux-1000/default")
             eq_refl); [discriminate|].
    right. exists EmptyString, "no server running",
      " on /tmp/tmux-1000/default". split; reflexivity.
  - destruct (failure_classified_by_diagnostic Tmux.host "ghost" "ls"
                "/usr/bin/tmux" (Tmux.boot (Tmux.workstation ["main"]) [])
                eq_refl) as [_ S].
    apply (S (Tmux.refused "can't find session: aitx-micro-ghost:0.0")
             eq_refl); [discriminate|].
    rewrite <- says_no_session_iff. vm_compute. discriminate.
Defined.

End DestroySendOnTheReferenceHost.

(* ===================================================================== *)
(** ** Listing the sessions *)
(* ===================================================================== *)

Section ListFacts.
Context {W : Type} (H : Host W).
Local Open Scope string_scope.

Lemma comprehension_filter (ids : list string) :
  map toIdentifier (comprehension ids) = filter tagged ids.
Proof.
  induction ids as [|id ids IH]; [reflexivity|].
  cbn [comprehension filter]. unfold tagged at 1, startswith.
  destruct (String.prefix MICRO_TERM_PREFIX id) eqn:P; [|exact IH].
  cbn [map]. rewrite IH. f_equal.
  apply prefix_split in P as [r ->]. unfold toIdentifier.
  now rewrite slice_from_append.
Qed.

Lemma comprehension_in (ids : list string) (n : string) :
  In n (comprehension ids) <-> In (toIdentifier n) ids.
Proof.
  split; intros I.
  - apply (in_map toIdentifier) in I. rewrite comprehension_filter in I.
    now apply filter_In in I.
  - assert (F : In (toIdentifier n) (filter tagged ids)).
    { apply filter_In. split; [exact I | apply prefix_append]. }
    rewrite <- comprehension_filter in F.
    apply in_map_iff in F as (m & E & F).
    now apply toIdentifier_inj in E as ->.
Qed.

Lemma comprehension_strip (ids : list string) :
  map Some (comprehension ids)
  = filter (fun o => match o with Some _ => true | None => false end)
           (map stripNamespace ids).
Proof.
  induction ids as [|id ids IH]; [reflexivity|].
  cbn [comprehension map filter]. unfold stripNamespace at 1 2.
  destruct (startswith id MICRO_TERM_PREFIX); cbv iota; cbn [map];
    now rewrite IH.
Qed.

Lemma list_no_tmux (st : State W) :
  located H st "tmux" = None ->
  list_micro_terminals H st = (Ret [], st).
Proof.
  intros L. unfold list_micro_terminals, _get_tmux_path, bind, which.
  destruct (located_none _ _ _ L) as [-> | ->]; reflexivity.
Qed.

Lemma list_eq (tmux : string) (st : State W) :
  located H st "tmux" = Some tmux ->
  list_micro_terminals H st =
  (Ret (match outcome_of H st (list_sessions_argv tmux) 5 with
        | Exited r =>
            if (returncode r =? 0)%Z
            then comprehension (splitlines (strip (stdout r)))
            else []
        | _ => []
        end),
   ran H st (list_sessions_argv tmux) 5).
Proof.
  intros L. apply located_some in L as [L ne].
  unfold list_micro_terminals, _get_tmux_path.
  rewrite bind_run. unfold which at 1. rewrite L.
  destruct tmux as [|a tmux]; [now elim ne|]. cbv beta iota zeta.
  rewrite try_run, bind_run, subprocess_run_eq.
  unfold list_sessions_argv.
  destruct (outcome_of H st _ 5) as [r| |[t|t]]; try reflexivity.
  cbn [andb]. destruct (returncode r =? 0)%Z; reflexivity.
Qed.

(** X20. [list_micro_terminals] never raises.  It returns the empty
    list when tmux is not found, when the query times out or does not
    start, and when it ends with a status other than 0.  Otherwise it
    strips the output, cuts it into lines, and returns the lines that
    start with the prefix, in their order and with the prefix cut off. *)
Theorem list_keeps_tagged_lines (st : State W) :
  (located H st "tmux" = None ->
   fst (list_micro_terminals H st) = Ret [])
  /\ (forall tmux,
        located H st "tmux" = Some tmux ->
        let query := outcome_of H st (list_sessions_argv tmux) 5 in
        (query = TimedOut -> fst (list_micro_terminals H st) = Ret [])
        /\ (forall f, query = Failed f ->
                      fst (list_micro_terminals H st) = Ret [])
        /\ (forall r, query = Exited r -> returncode r <> 0%Z ->
                      fst (list_micro_terminals H st) = Ret [])
        /\ (forall r, query = Exited r -> returncode r = 0%Z ->
              let lines := splitlines (strip (stdout r)) in
              exists names,
                fst (list_micro_terminals H st) = Ret names
                /\ map toIdentifier names = filter tagged lines
                /\ map Some names
                   = filter (fun o => match o with
                                      | Some _ => true
                                      | None => false
                                      end) (map stripNamespace lines)
                /\ (forall n, In n names <-> In (toIdentifier n) lines))).
Proof.
  split.
  - intros L. now rewrite (list_no_tmux _ L).
  - intros tmux L query. subst query. rewrite (list_eq _ _ L). cbn [fst].
    repeat split.
    + now intros ->.
    + now intros f ->.
    + intros r -> NZ. apply Z.eqb_neq in NZ. now rewrite NZ.
    + intros r -> Z0. rewrite Z0. cbn [Z.eqb].
      set (lines := splitlines (strip (stdout r))).
      exists (comprehension lines). split; [reflexivity|].
      split; [apply comprehension_filter|].
      split; [apply comprehension_strip | apply comprehension_in].
Qed.

End ListFacts.

Lemma list_keeps_tagged_lines_witness :
  let st := Tmux.boot
              (Tmux.workstation ["main"; "aitx-micro-a"; "aitx-micro-b c"])
              [] in
  fst (list_micro_terminals Tmux.host (Tmux.boot Tmux.bare [])) = Ret []
  /\ exists names,
       fst (list_micro_terminals Tmux.host st) = Ret names
       /\ map toIdentifier names = ["aitx-micro-a"; "aitx-micro-b c"].
Proof.
  cbv zeta. split.
  - apply (proj1 (list_keeps_tagged_lines Tmux.host
                    (Tmux.boot Tmux.bare []))).
    reflexivity.
  - destruct (proj2 (list_keeps_tagged_lines Tmux.host
                       (Tmux.boot
                          (Tmux.workstation
                             ["main"; "aitx-micro-a"; "aitx-micro-b c"]) []))
                "/usr/bin/tmux" eq_refl) as (_ & _ & _ & A).
    destruct (A (Tmux.done
                   ("main" ++ LF ++ "aitx-micro-a" ++ LF
                    ++ "aitx-micro-b c" ++ LF))%string eq_refl eq_refl)
      as (names & E & F & _).
    exists names. split; [exact E | exact F].
Defined.

(* ===================================================================== *)
(** ** No operation of the controller raises *)
(* ===================================================================== *)

Section NeverRaises.
Context {W : Type} (H : Host W).
Local Open Scope string_scope.

Lemma create_returns (name vm_type : string) (vm_target : option string)
    (st : State W) :
  exists r,
    fst (create_micro_terminal H name vm_type vm_target st) = Ret r
    /\ (never_answers H "new-session" -> fst (fst r) = false).
Proof.
  destruct (located H st "tmux") as [tmux|] eqn:L;
    [destruct (mem vm_type VM_TYPES) eqn:K;
     [destruct (session_live H st (toIdentifier name)) eqn:V|]|].
  - rewrite (create_live _ _ _ _ _ _ L K V). eexists. now split.
  - rewrite (create_absent _ _ _ _ _ _ L K V). cbv zeta.
    set (st1 := ran H st _ 3).
    destruct (start_command H st1 vm_type vm_target) as [cmd|msg].
    + eexists. split; [reflexivity|]. intros N. unfold new_session_result.
      destruct (outcome_of H st1 _ 10) as [r| |f] eqn:O; try reflexivity.
      now apply N in O.
    + eexists. now split.
  - rewrite (create_unknown_type _ _ _ _ _ _ L K). eexists. now split.
  - rewrite (create_no_tmux _ _ _ _ _ L). eexists. now split.
Qed.

Lemma destroy_returns (name : string) (st : State W) :
  exists r,
    fst (destroy_micro_terminal H name st) = Ret r
    /\ (never_answers H "kill-session" -> fst r = false).
Proof.
  destruct (located H st "tmux") as [tmux|] eqn:L.
  - rewrite (destroy_eq _ _ _ _ L). cbv zeta.
    eexists. split; [reflexivity|]. intros N.
    destruct (outcome_of H st _ 5) as [r| |f] eqn:O; try reflexivity.
    now apply N in O.
  - rewrite (destroy_no_tmux _ _ _ L). eexists. now split.
Qed.

Lemma send_returns (name command : string) (st : State W) :
  exists r,
    fst (send_to_micro_terminal H name command st) = Ret r
    /\ (never_answers H "send-keys" -> fst r = false).
Proof.
  destruct (located H st "tmux") as [tmux|] eqn:L.
  - rewrite (send_eq _ _ _ _ _ L). cbv zeta.
    eexists. split; [reflexivity|]. intros N.
    destruct (outcome_of H st _ 5) as [r| |f] eqn:O; try reflexivity.
    now apply N in O.
  - rewrite (send_no_tmux _ _ _ _ L). eexists. now split.
Qed.

Lemma attach_returns (name : string) (visual_terminal_path : option string)
    (st : State W) :
  exists r,
    fst (attach_micro_terminal H name visual_terminal_path st) = Ret r
    /\ (never_launches H -> fst r = false)
    /\ (never_answers H "has-session" -> fst r = false).
Proof.
  unfold attach_micro_terminal, _get_tmux_path.
  rewrite bind_run. unfold which at 1.
  destruct (lookup H (world st) "tmux") as [[|a tmux]|];
    try (eexists; now split).
  destruct visual_terminal_path as [[|c terminal]|];
    try (eexists; now split).
  cbv beta iota zeta. rewrite bind_run, session_exists_eq.
  destruct (outcome_of H st _ 3) as [r| |f] eqn:O;
    try (eexists; now split).
  destruct (returncode r =? 0)%Z; [|eexists; now split].
  cbn [negb]. cbv iota. rewrite try_run, bind_run.
  unfold subprocess_Popen.
  destruct (launch H _ _) as [[|[t|t]] w'] eqn:P;
    eexists; (split; [reflexivity|]); split; intros N; try reflexivity.
  - exfalso. apply (f_equal fst) in P. exact (N _ _ P).
  - now apply N in O.
Qed.

Lemma list_returns (st : State W) :
  exists names,
    fst (list_micro_terminals H st) = Ret names
    /\ (never_answers H "list-sessions" -> names = []).
Proof.
  destruct (located H st "tmux") as [tmux|] eqn:L.
  - rewrite (list_eq _ _ _ L). eexists. split; [reflexivity|]. intros N.
    destruct (outcome_of H st _ 5) as [r| |f] eqn:O; try reflexivity.
    now apply N in O.
  - rewrite (list_no_tmux _ _ L). eexists. now split.
Qed.

Lemma exists_returns (tmux id : string) (st : State W) :
  exists b,
    fst (_session_exists H tmux id st) = Ret b
    /\ (never_answers H "has-session" -> b = false).
Proof.
  rewrite session_exists_eq. eexists. split; [reflexivity|]. intros N.
  destruct (outcome_of H st _ 3) as [r| |f] eqn:O; try reflexivity.
  now apply N in O.
Qed.

(** C7, as the code has it.  No operation of the controller raises,
    whatever the external processes do.  [create], [destroy], [send] and
    [attach] return a tuple that starts with the success flag and ends
    with a message; [_session_exists] returns a boolean alone and
    [list_micro_terminals] a list of names alone.  When the process an
    operation depends on never answers (it times out or does not start),
    the operation returns its failure value: a [False] flag, [False], or
    the empty list. *)
Theorem controller_never_raises (name command vm_type tmux id : string)
    (vm_target visual_terminal_path : option string) (st : State W) :
  (exists r,
     fst (create_micro_terminal H name vm_type vm_target st) = Ret r
     /\ flag_and_message (py_triple r) = true
     /\ (never_answers H "new-session" -> fst (fst r) = false))
  /\ (exists r,
        fst (destroy_micro_terminal H name st) = Ret r
        /\ flag_and_message (py_pair r) = true
        /\ (never_answers H "kill-session" -> fst r = false))
  /\ (exists r,
        fst (send_to_micro_terminal H name command st) = Ret r
        /\ flag_and_message (py_pair r) = true
        /\ (never_answers H "send-keys" -> fst r = false))
  /\ (exists r,
        fst (attach_micro_terminal H name visual_terminal_path st) = Ret r
        /\ flag_and_message (py_pair r) = true
        /\ (never_launches H -> fst r = false)
        /\ (never_answers H "has-session" -> fst r = false))
  /\ (exists b,
        fst (_session_exists H tmux id st) = Ret b
        /\ flag_and_message (py_bool b) = false
        /\ (never_answers H "has-session" -> b = false))
  /\ (exists names,
        fst (list_micro_terminals H st) = Ret names
        /\ flag_and_message (py_names names) = false
        /\ (never_answers H "list-sessions" -> names = [])).
Proof.
  repeat apply conj.
  - destruct (create_returns name vm_type vm_target st)
      as ([[ok sid] msg] & E & N).
    exists (ok, sid, msg). now repeat split.
  - destruct (destroy_returns name st) as ([ok msg] & E & N).
    exists (ok, msg). now repeat split.
  - destruct (send_returns name command st) as ([ok msg] & E & N).
    exists (ok, msg). now repeat split.
  - destruct (attach_returns name visual_terminal_path st)
      as ([ok msg] & E & N & N').
    exists (ok, msg). now repeat split.
  - destruct (exists_returns tmux id st) as (b & E & N).
    exists b. now repeat split.
  - destruct (list_returns st) as (names & E & N).
    exists names. now repeat split.
Qed.

End NeverRaises.

Section NeverRaisesOnConcreteHosts.
Local Open Scope string_scope.

(** C7 does not hold as the specification words it for two of the six operations:
    what [list_micro_terminals] and [_session_exists] return holds no
    message. *)
Lemma list_and_exists_return_no_message :
  let st := Tmux.boot (Tmux.workstation ["aitx-micro-a"]) [] in
  fst (list_micro_terminals Tmux.host st) = Ret ["a"]
  /\ flag_and_message (py_names ["a"]) = false
  /\ fst (_session_exists Tmux.host "/usr/bin/tmux" "aitx-micro-a" st)
     = Ret true
  /\ flag_and_message (py_bool true) = false.
Proof. cbv zeta. repeat split. Qed.

Lemma hung_never_answers (sub : string) : never_answers Hung.host sub.
Proof. intros w argv timeout r _. discriminate. Qed.

Lemma hung_never_launches : never_launches Hung.host.
Proof. intros w argv. discriminate. Qed.

Lemma controller_never_raises_witness :
  let st := Hung.boot [] in
  (exists r, fst (create_micro_terminal Hung.host "a" "local" None st) = Ret r
             /\ fst (fst r) = false)
  /\ (exists r, fst (destroy_micro_terminal Hung.host "a" st) = Ret r
                /\ fst r = false)
  /\ (exists r, fst (send_to_micro_terminal Hung.host "a" "ls" st) = Ret r
                /\ fst r = false)
  /\ (exists r, fst (attach_micro_terminal Hung.host "a"
                       (Some "/usr/bin/xterm") st) = Ret r
                /\ fst r = false)
  /\ fst (_session_exists Hung.host "/usr/bin/tmux" "aitx-micro-a" st)
     = Ret false
  /\ fst (list_micro_terminals Hung.host st) = Ret [].
Proof.
  cbv zeta.
  destruct (controller_never_raises Hung.host "a" "ls" "local"
              "/usr/bin/tmux" "aitx-micro-a" None (Some "/usr/bin/xterm")
              (Hung.boot []))
    as ((c & Ec & _ & Nc) & (d & Ed & _ & Nd) & (s & Es & _ & Ns)
        & (a & Ea & _ & Na & _) & (b & Eb & _ & Nb) & (l & El & _ & Nl)).
  repeat apply conj.
  - exists c. split; [exact Ec | apply Nc, hung_never_answers].
  - exists d. split; [exact Ed | apply Nd, hung_never_answers].
  - exists s. split; [exact Es | apply Ns, hung_never_answers].
  - exists a. split; [exact Ea | apply Na, hung_never_launches].
  - rewrite Eb. f_equal. apply Nb, hung_never_answers.
  - rewrite El. f_equal. apply Nl, hung_never_answers.
Defined.

End NeverRaisesOnConcreteHosts.

(* ===================================================================== *)
(** ** The dispatcher *)
(* ===================================================================== *)

Ltac literal_tests :=
  cbn [mem existsb String.eqb Ascii.eqb Bool.eqb orb
       List.length Nat.ltb Nat.leb Nat.eqb].

Ltac take_item :=
  rewrite bind_run; unfold item at 1; cbn [nth_error]; unfold ret at 1.

Section DispatcherFacts.
Context {W : Type} (H : Host W).
Local Open Scope string_scope.

Lemma list_stdin (st : State W) :
  stdin (snd (list_micro_terminals H st)) = stdin st.
Proof.
  destruct (located H st "tmux") as [tmux|] eqn:L.
  - now rewrite (list_eq _ _ _ L).
  - now rewrite (list_no_tmux _ _ L).
Qed.

Lemma create_stdin (name vm_type : string) (vm_target : option string)
    (st : State W) :
  stdin (snd (create_micro_terminal H name vm_type vm_target st)) = stdin st.
Proof.
  destruct (located H st "tmux") as [tmux|] eqn:L;
    [destruct (mem vm_type VM_TYPES) eqn:K;
     [destruct (session_live H st (toIdentifier name)) eqn:V|]|].
  - now rewrite (create_live _ _ _ _ _ _ L K V).
  - rewrite (create_absent _ _ _ _ _ _ L K V). cbv zeta.
    now destruct (start_command H _ vm_type vm_target).
  - now rewrite (create_unknown_type _ _ _ _ _ _ L K).
  - now rewrite (create_no_tmux _ _ _ _ _ L).
Qed.

(** Reading at a prompt when the operator aborts or the input is over. *)
Lemma ask_interrupted (p : PromptKind) (f : string -> string)
    (st : State W) :
  interrupted st = true ->
  try_ (bind (input p) (fun answer => ret (Some (f answer))))
       [except_interrupt (bind (print Blank) (fun _ => ret None))] st
  = (Ret None,
     mkState (world st) (tl (stdin st)) (calls st)
             (screen st ++ [Prompt p; Blank])%list).
Proof.
  unfold interrupted. intros I. rewrite try_run, bind_run. unfold input.
  destruct (stdin st) as [|[text|] rest]; try discriminate;
    cbn; now rewrite <- app_assoc.
Qed.

Lemma ask_line (p : PromptKind) (f : string -> string) (st : State W)
    (line : string) (rest : list InputEvent) :
  stdin st = Line line :: rest ->
  try_ (bind (input p) (fun answer => ret (Some (f answer))))
       [except_interrupt (bind (print Blank) (fun _ => ret None))] st
  = (Ret (Some (f line)),
     mkState (world st) rest (calls st) (screen st ++ [Prompt p])%list).
Proof.
  intros I. rewrite try_run, bind_run. unfold input. now rewrite I.
Qed.

Lemma loop_body_interrupted (visual_terminal_path : option string)
    (st : State W) :
  interrupted st = true ->
  fst (loop_body H visual_terminal_path st) = Ret (Some "quit").
Proof.
  intros I. unfold loop_body. rewrite bind_run.
  destruct (list_returns H st) as (names & E & _).
  pose proof (list_stdin st) as S.
  destruct (list_micro_terminals H st) as [r st1]. cbn [fst snd] in *.
  subst r. rewrite bind_run.
  assert (I1 : forall o, interrupted (snd (print o st1)) = true).
  { intros o. unfold interrupted, print. cbn. now rewrite S. }
  destruct names as [|n names].
  - unfold print at 1. rewrite bind_run. unfold print at 1.
    rewrite bind_run, ask_interrupted; [reflexivity|].
    unfold interrupted in *. cbn. now rewrite S.
  - unfold print at 1. rewrite bind_run. unfold print at 1.
    rewrite bind_run, ask_interrupted; [reflexivity|].
    unfold interrupted in *. cbn. now rewrite S.
Qed.

Lemma loop_body_line (visual_terminal_path : option string)
    (st : State W) (line : string) (rest : list InputEvent) :
  stdin st = Line line :: rest ->
  loop_body H visual_terminal_path st
  = dispatch H visual_terminal_path (strip line) (at_prompt H st)
  /\ stdin (at_prompt H st) = rest.
Proof.
  intros I. unfold loop_body, at_prompt. rewrite bind_run.
  destruct (list_returns H st) as (names & E & _).
  pose proof (list_stdin st) as S. rewrite I in S.
  destruct (list_micro_terminals H st) as [r st1]. cbn [fst snd] in *.
  subst r. rewrite bind_run. rewrite S. cbn [tl].
  destruct names as [|n names];
    unfold print at 1; rewrite bind_run; unfold print at 1;
    rewrite bind_run; erewrite ask_line by (cbn; exact S);
    cbn [screen world calls stdin]; rewrite <- !app_assoc; now split.
Qed.

Lemma loop_continues (fuel : nat) (visual_terminal_path : option string)
    (st : State W) :
  fst (loop_body H visual_terminal_path st) = Ret None ->
  loop H (S fuel) visual_terminal_path st
  = loop H fuel visual_terminal_path
      (snd (loop_body H visual_terminal_path st)).
Proof.
  intros E. cbn [loop]. rewrite bind_run.
  destruct (loop_body H visual_terminal_path st) as [r st1].
  cbn [fst snd] in *. now subst r.
Qed.

Lemma loop_returns (fuel : nat) (visual_terminal_path : option string)
    (st : State W) (v : string) :
  fst (loop_body H visual_terminal_path st) = Ret (Some v) ->
  fst (loop H (S fuel) visual_terminal_path st) = Ret (Some v).
Proof.
  intros E. cbn [loop]. rewrite bind_run.
  destruct (loop_body H visual_terminal_path st) as [r st1].
  cbn [fst snd] in *. now subst r.
Qed.

Lemma dispatch_send (visual_terminal_path : option string)
    (user_input verb name c : string) (cs : list string) (st : State W) :
  split user_input = verb :: name :: c :: cs ->
  lower verb = "send" ->
  dispatch H visual_terminal_path user_input st =
  bind (send_to_micro_terminal H name (join " " (c :: cs)))
       (fun sent =>
          bind (print (Report (fst sent) (snd sent))) (fun _ => ret None))
       st.
Proof.
  intros P V. unfold dispatch.
  destruct user_input as [|c0 s0]; [discriminate|].
  cbn [is_empty]. cbv zeta. rewrite P. take_item. rewrite V.
  literal_tests. take_item. reflexivity.
Qed.

Lemma dispatch_destroy_interrupted (visual_terminal_path : option string)
    (user_input verb name : string) (more : list string) (st : State W) :
  split user_input = verb :: name :: more ->
  lower verb = "destroy" ->
  interrupted st = true ->
  dispatch H visual_terminal_path user_input st =
  (Ret None,
   mkState (world st) (tl (stdin st)) (calls st)
           (screen st ++ [Prompt (PromptDestroy name); Blank])%list).
Proof.
  intros P V I. unfold dispatch.
  destruct user_input as [|c0 s0]; [discriminate|].
  cbn [is_empty]. cbv zeta. rewrite P. take_item. rewrite V.
  literal_tests. take_item.
  rewrite bind_run, (ask_interrupted _ (fun a => lower (strip a)) _ I).
  reflexivity.
Qed.

Lemma dispatch_new_interrupted (visual_terminal_path : option string)
    (user_input verb name : string) (more : list string)
    (sid : option string) (msg : string) (st : State W) :
  split user_input = verb :: name :: more ->
  lower verb = "new" ->
  List.length more <> 1%nat ->
  fst (create_micro_terminal H name (fst (backend_of more))
         (snd (backend_of more)) st) = Ret (true, sid, msg) ->
  interrupted st = true ->
  let created := snd (create_micro_terminal H name (fst (backend_of more))
                        (snd (backend_of more)) st) in
  dispatch H visual_terminal_path user_input st =
  (Ret None,
   mkState (world created) (tl (stdin created)) (calls created)
           (screen created
            ++ [Report true msg; Prompt (PromptOpen name); Blank])%list).
Proof.
  intros P V N C I created. unfold dispatch.
  destruct user_input as [|c0 s0]; [discriminate|].
  cbn [is_empty]. cbv zeta. rewrite P. take_item. rewrite V.
  literal_tests. take_item.
  assert (I1 : interrupted created = true).
  { unfold interrupted, created in *. now rewrite create_stdin. }
  assert (E : forall k : bool * option string * string -> M W (option string),
            bind (create_micro_terminal H name (fst (backend_of more))
                    (snd (backend_of more))) k st
            = k (true, sid, msg) created).
  { intros k. rewrite bind_run. unfold created.
    destruct (create_micro_terminal H name _ _ st) as [r st1].
    cbn [fst snd] in *. now subst r. }
  destruct more as [|kind [|target extra]]; [|now elim N|].
  - literal_tests. rewrite bind_run. unfold ret at 1. cbv iota beta.
    cbn [backend_of fst snd] in E. rewrite E. cbv iota beta.
    rewrite bind_run. unfold print at 1. rewrite bind_run.
    rewrite (ask_interrupted _ (fun a => lower (strip a))).
    + cbn [world stdin calls screen]. now rewrite <- app_assoc.
    + exact I1.
  - literal_tests. rewrite bind_run. take_item. take_item. unfold ret at 1.
    cbv iota beta.
    cbn [backend_of fst snd] in E. rewrite E. cbv iota beta.
    rewrite bind_run. unfold print at 1. rewrite bind_run.
    rewrite (ask_interrupted _ (fun a => lower (strip a))).
    + cbn [world stdin calls screen]. now rewrite <- app_assoc.
    + exact I1.
Qed.

Lemma interrupted_rest (st : State W) (rest : list InputEvent) :
  stdin st = rest ->
  rest = [] \/ (exists later, rest = Interrupt :: later) ->
  interrupted st = true.
Proof.
  unfold interrupted. intros -> [E | (later & E)]; now rewrite E.
Qed.

(** C8. When the operator aborts or the input ends at the command prompt,
    the round returns "quit" and so does the manager.  When that happens
    at the question that follows [destroy <name>], or at the question
    that follows a successful [new], the round ends without a result and
    the loop goes on with the next round: no session is killed and no
    window is opened. *)
Theorem interruption_quits_only_at_command_prompt
    (visual_terminal_path : option string) (st : State W) :
  (interrupted st = true ->
   fst (loop_body H visual_terminal_path st) = Ret (Some "quit")
   /\ forall fuel ai_model,
        fst (run_micro_terminal_manager H (S fuel) visual_terminal_path
               ai_model st) = Ret (Some "quit"))
  /\ (forall line rest verb name more,
        stdin st = Line line :: rest ->
        rest = [] \/ (exists later, rest = Interrupt :: later) ->
        split (strip line) = verb :: name :: more ->
        let round := loop_body H visual_terminal_path st in
        (lower verb = "destroy" ->
         fst round = Ret None
         /\ calls (snd round) = calls (at_prompt H st)
         /\ world (snd round) = world (at_prompt H st)
         /\ stdin (snd round) = tl rest
         /\ forall fuel,
              loop H (S fuel) visual_terminal_path st
              = loop H fuel visual_terminal_path (snd round))
        /\ (lower verb = "new" ->
            List.length more <> 1%nat ->
            forall sid msg,
              let creation :=
                create_micro_terminal H name (fst (backend_of more))
                  (snd (backend_of more)) (at_prompt H st) in
              fst creation = Ret (true, sid, msg) ->
              fst round = Ret None
              /\ calls (snd round) = calls (snd creation)
              /\ world (snd round) = world (snd creation)
              /\ stdin (snd round) = tl rest
              /\ forall fuel,
                   loop H (S fuel) visual_terminal_path st
                   = loop H fuel visual_terminal_path (snd round))).
Proof.
  split.
  - intros I. split; [now apply loop_body_interrupted|].
    intros fuel ai. unfold run_micro_terminal_manager.
    rewrite bind_run. unfold print at 1.
    apply loop_returns, loop_body_interrupted. exact I.
  - intros line rest verb name more S R P round.
    destruct (loop_body_line visual_terminal_path st line rest S) as [B S'].
    pose proof (interrupted_rest _ _ S' R) as I.
    split.
    + intros V.
      assert (E : round = dispatch H visual_terminal_path (strip line)
                            (at_prompt H st)) by exact B.
      rewrite (dispatch_destroy_interrupted _ _ _ _ _ _ P V I) in E.
      assert (F : fst round = Ret None) by now rewrite E.
      repeat split; try (now rewrite E).
      * rewrite E. cbn [snd stdin]. now rewrite S'.
      * intros fuel. now apply loop_continues.
    + intros V N sid msg creation C.
      assert (E : round = dispatch H visual_terminal_path (strip line)
                            (at_prompt H st)) by exact B.
      rewrite (dispatch_new_interrupted _ _ _ _ _ _ _ _ P V N C I) in E.
      assert (F : fst round = Ret None) by now rewrite E.
      repeat split; try (now rewrite E).
      * rewrite E. cbn [snd stdin]. now rewrite create_stdin, S'.
      * intros fuel. now apply loop_continues.
Qed.

(** C10. A line [send <name> <command...>] is cut into words at white
    space and the words of the command are joined again with one space
    each: this text, not the text of the line, goes to
    [send_to_micro_terminal] and from there to send-keys.  It has the
    words of the command and no white space but one space between two
    words. *)
Theorem send_command_is_rejoined (visual_terminal_path : option string)
    (line verb name c : string) (cs : list string)
    (rest : list InputEvent) (st : State W) :
  stdin st = Line line :: rest ->
  split line = verb :: name :: c :: cs ->
  lower verb = "send" ->
  let command := join " " (c :: cs) in
  loop_body H visual_terminal_path st
  = bind (send_to_micro_terminal H name command)
         (fun sent =>
            bind (print (Report (fst sent) (snd sent))) (fun _ => ret None))
         (at_prompt H st)
  /\ split command = c :: cs
  /\ single_spaced command = true
  /\ (forall tmux,
        located H (at_prompt H st) "tmux" = Some tmux ->
        calls (snd (loop_body H visual_terminal_path st))
        = (calls (at_prompt H st)
           ++ [Run (send_keys_argv tmux (toIdentifier name) command) 5])%list).
Proof.
  intros S P V command.
  destruct (loop_body_line visual_terminal_path st line rest S) as [B _].
  rewrite <- split_strip in P.
  rewrite (dispatch_send _ _ _ _ _ _ _ P V) in B. fold command in B.
  assert (F : Forall (fun w => is_word w = true) (c :: cs)).
  { pose proof (split_words (strip line)) as F. rewrite P in F.
    now inversion F as [|? ? _ [|? ? _ F']]. }
  split; [exact B|]. split; [now apply split_join|].
  split; [now apply single_spaced_join|].
  intros tmux L. rewrite B, bind_run, (send_eq _ _ _ _ _ L). reflexivity.
Qed.

End DispatcherFacts.

Section DispatcherOnTheReferenceHost.
Local Open Scope string_scope.

Lemma interruption_quits_only_at_command_prompt_witness :
  fst (run_micro_terminal_manager Tmux.host 1 Tmux.terminal None
         (Tmux.boot (Tmux.workstation []) [Interrupt; Line "back"]))
  = Ret (Some "quit")
  /\ (let st := Tmux.boot (Tmux.workstation ["aitx-micro-a"])
                  [Line "destroy a"; Interrupt; Line "back"] in
      fst (loop_body Tmux.host Tmux.terminal st) = Ret None
      /\ calls (snd (loop_body Tmux.host Tmux.terminal st))
         = [Run ["/usr/bin/tmux"; "list-sessions"; "-F"; "#{session_name}"] 5]
      /\ stdin (snd (loop_body Tmux.host Tmux.terminal st)) = [Line "back"])
  /\ (let st := Tmux.boot (Tmux.workstation []) [Line "new a"] in
      fst (loop_body Tmux.host Tmux.terminal st) = Ret None
      /\ stdin (snd (loop_body Tmux.host Tmux.terminal st)) = []).
Proof.
  split; [|split].
  - apply (proj1 (interruption_quits_only_at_command_prompt Tmux.host
                    Tmux.terminal
                    (Tmux.boot (Tmux.workstation [])
                       [Interrupt; Line "back"]))).
    reflexivity.
  - cbv zeta.
    destruct (proj2 (interruption_quits_only_at_command_prompt Tmux.host
                       Tmux.terminal
                       (Tmux.boot (Tmux.workstation ["aitx-micro-a"])
                          [Line "destroy a"; Interrupt; Line "back"]))
                "destroy a" [Interrupt; Line "back"] "destroy" "a" []
                eq_refl (or_intror (ex_intro _ [Line "back"] eq_refl))
                eq_refl) as [D _].
    destruct (D eq_refl) as (R & C & _ & S & _).
    split; [exact R|]. split; [exact C | exact S].
  - cbv zeta.
    destruct (proj2 (interruption_quits_only_at_command_prompt Tmux.host
                       Tmux.terminal
                       (Tmux.boot (Tmux.workstation []) [Line "new a"]))
                "new a" [] "new" "a" [] eq_refl (or_introl eq_refl) eq_refl)
      as [_ N].
    destruct (N eq_refl (fun E => O_S 0 E) (Some "aitx-micro-a")
                "Micro terminal 'a' created successfully." eq_refl)
      as (R & _ & _ & S & _).
    split; [exact R | exact S].
Defined.

Lemma send_command_is_rejoined_witness :
  let st := Tmux.boot (Tmux.workstation ["aitx-micro-a"])
              [Line ("  Send a echo   hi" ++ HT ++ " there ")] in
  calls (snd (loop_body Tmux.host Tmux.terminal st))
  = [Run ["/usr/bin/tmux"; "list-sessions"; "-F"; "#{session_name}"] 5;
     Run ["/usr/bin/tmux"; "send-keys"; "-t"; "aitx-micro-a:0.0";
          "echo hi there"; "C-m"] 5].
Proof.
  cbv zeta.
  destruct (send_command_is_rejoined Tmux.host Tmux.terminal
              ("  Send a echo   hi" ++ HT ++ " there ") "Send" "a" "echo"
              ["hi"; "there"] []
              (Tmux.boot (Tmux.workstation ["aitx-micro-a"])
                 [Line ("  Send a echo   hi" ++ HT ++ " there ")])
              eq_refl eq_refl eq_refl) as (_ & _ & _ & C).
  exact (C "/usr/bin/tmux" eq_refl).
Defined.

End DispatcherOnTheReferenceHost.

(* ===================================================================== *)
(** ** The manager returns *)
(* ===================================================================== *)

Section ManagerReturns.
Context {W : Type} (H : Host W).
Local Open Scope string_scope.

Lemma create_quiet (name vm_type : string) (vm_target : option string)
    (st : State W) :
  quiet (create_micro_terminal H name vm_type vm_target) st.
Proof.
  destruct (create_returns H name vm_type vm_target st) as (r & E & _).
  exists r. split; [exact E | apply create_stdin].
Qed.

Lemma destroy_quiet (name : string) (st : State W) :
  quiet (destroy_micro_terminal H name) st.
Proof.
  destruct (destroy_returns H name st) as (r & E & _).
  exists r. split; [exact E|].
  destruct (located H st "tmux") as [tmux|] eqn:L.
  - now rewrite (destroy_eq _ _ _ _ L).
  - now rewrite (destroy_no_tmux _ _ _ L).
Qed.

Lemma send_quiet (name command : string) (st : State W) :
  quiet (send_to_micro_terminal H name command) st.
Proof.
  destruct (send_returns H name command st) as (r & E & _).
  exists r. split; [exact E|].
  destruct (located H st "tmux") as [tmux|] eqn:L.
  - now rewrite (send_eq _ _ _ _ _ L).
  - now rewrite (send_no_tmux _ _ _ _ L).
Qed.

Lemma attach_quiet (name : string) (visual_terminal_path : option string)
    (st : State W) :
  quiet (attach_micro_terminal H name visual_terminal_path) st.
Proof.
  destruct (attach_returns H name visual_terminal_path st) as (r & E & _).
  exists r. split; [exact E|]. clear E.
  unfold attach_micro_terminal, _get_tmux_path.
  rewrite bind_run. unfold which at 1.
  destruct (lookup H (world st) "tmux") as [[|a tmux]|]; try reflexivity.
  destruct visual_terminal_path as [[|c terminal]|]; try reflexivity.
  cbv beta iota zeta. rewrite bind_run, session_exists_eq.
  destruct (outcome_of H st _ 3) as [r'| |f]; try reflexivity.
  destruct (returncode r' =? 0)%Z; [|reflexivity].
  cbn [negb]. cbv iota. rewrite try_run, bind_run.
  unfold subprocess_Popen.
  destruct (launch H _ _) as [[|[t|t]] w']; reflexivity.
Qed.

Lemma settles_ret (n : nat) (r : option string) (st : State W) :
  List.length (stdin st) <= n ->
  (forall v, r = Some v -> v = "quit" \/ v = "back") ->
  settles n (ret r) st.
Proof. intros L V. now exists r, st. Qed.

Lemma settles_print (n : nat) (o : Output) (k : M W (option string))
    (st : State W) :
  (forall st', List.length (stdin st') <= List.length (stdin st) ->
               settles n k st') ->
  settles n (bind (print o) (fun _ => k)) st.
Proof.
  intros K. unfold settles. rewrite bind_run. unfold print at 1.
  now apply K.
Qed.

Lemma settles_quiet {A} (n : nat) (c : M W A)
    (k : A -> M W (option string)) (st : State W) :
  quiet c st ->
  (forall r st', List.length (stdin st') <= List.length (stdin st) ->
                 settles n (k r) st') ->
  settles n (bind c k) st.
Proof.
  intros (r & E & S) K. unfold settles. rewrite bind_run.
  destruct (c st) as [r' st']. cbn [fst snd] in *. subst r'.
  apply K. now rewrite S.
Qed.

Lemma settles_ask (n : nat) (p : PromptKind) (f : string -> string)
    (k : option string -> M W (option string)) (st : State W) :
  (forall o st', List.length (stdin st') <= List.length (stdin st) ->
                 settles n (k o) st') ->
  settles n
    (bind (try_ (bind (input p) (fun answer => ret (Some (f answer))))
                [except_interrupt (bind (print Blank) (fun _ => ret None))])
          k) st.
Proof.
  intros K. unfold settles. rewrite bind_run.
  destruct (stdin st) as [|[line|] rest] eqn:S.
  - rewrite ask_interrupted by (unfold interrupted; now rewrite S).
    apply K. cbn. rewrite ?S. cbn. lia.
  - rewrite (ask_line p f st line rest S). apply K. cbn. rewrite ?S. cbn. lia.
  - rewrite ask_interrupted by (unfold interrupted; now rewrite S).
    apply K. cbn. rewrite ?S. cbn. lia.
Qed.

Lemma settles_item (n : nat) (parts : list string) (i : nat) (x : string)
    (k : string -> M W (option string)) (st : State W) :
  nth_error parts i = Some x ->
  settles n (k x) st ->
  settles n (bind (item parts i) k) st.
Proof.
  intros E K. unfold settles. rewrite bind_run. unfold item. now rewrite E.
Qed.

Lemma settles_bind_ret {A} (n : nat) (x : A)
    (k : A -> M W (option string)) (st : State W) :
  settles n (k x) st -> settles n (bind (ret x) k) st.
Proof. intros K. exact K. Qed.

Lemma settles_bind_bind {A B} (n : nat) (c : M W A) (g : A -> M W B)
    (k : B -> M W (option string)) (st : State W) :
  settles n (bind c (fun a => bind (g a) k)) st ->
  settles n (bind (bind c g) k) st.
Proof.
  unfold settles. rewrite !bind_run.
  destruct (c st) as [[a|e] st']; [|exact (fun K => K)].
  now rewrite bind_run.
Qed.

Ltac settle :=
  repeat first
    [ apply settles_ret; [lia | intros ? [= <-]; auto; fail]
    | apply settles_ret; [lia | intros ? [=]]
    | apply settles_print; intros
    | apply settles_ask; intros
    | apply settles_quiet;
        [first [apply create_quiet | apply destroy_quiet
               | apply send_quiet | apply attach_quiet] | intros]
    | eapply settles_item; [reflexivity|]
    | apply settles_bind_ret
    | apply settles_bind_bind
    | match goal with
      | |- settles _ (match ?x with _ => _ end) _ => destruct x
      | |- settles _ (if ?x then _ else _) _ => destruct x
      end ].

Lemma dispatch_settles (n : nat) (visual_terminal_path : option string)
    (user_input : string) (st : State W) :
  List.length (stdin st) <= n ->
  (is_empty user_input = false -> split user_input <> []) ->
  settles n (dispatch H visual_terminal_path user_input) st.
Proof.
  intros L P. unfold dispatch.
  destruct (is_empty user_input); [settle|].
  specialize (P eq_refl). cbv zeta.
  destruct (split user_input) as [|verb rest]; [now elim P|].
  eapply settles_item; [reflexivity|].
  destruct (mem (lower verb) ["quit"; "exit"]); [settle|].
  destruct (lower verb =? "back"); [settle|].
  destruct (lower verb =? "list"); [settle|].
  destruct (lower verb =? "new");
    [|destruct (lower verb =? "open");
      [|destruct (lower verb =? "send");
        [|destruct (lower verb =? "destroy")]]].
  - destruct rest as [|name [|kind [|target extra]]]; literal_tests; settle.
  - destruct rest as [|name more]; literal_tests; settle.
  - destruct rest as [|name [|c cs]]; literal_tests; settle.
  - destruct rest as [|name more]; literal_tests; settle.
  - settle.
Qed.

Lemma split_from_nil (cur s : string) :
  split_from cur s = [] -> is_empty cur = true /\ all_space s = true.
Proof.
  revert cur; induction s as [|c s IH]; intros cur; cbn [split_from].
  - destruct cur; [now split | discriminate].
  - cbn [all_space]. destruct (isspace c).
    + destruct cur; cbn [is_empty]; [|discriminate].
      intros E. now destruct (IH _ E).
    + intros E. destruct (IH _ E) as [E' _].
      now rewrite is_empty_append in E'.
Qed.

Lemma lstrip_all_space (s : string) :
  all_space s = true -> lstrip s = EmptyString.
Proof.
  induction s as [|c s IH]; [reflexivity|]. cbn [all_space lstrip].
  intros A. apply andb_true_iff in A as [S A]. now rewrite S, IH.
Qed.

(** A line that is not empty once stripped has a first word. *)
Lemma stripped_has_word (line : string) :
  is_empty (strip line) = false -> split (strip line) <> [].
Proof.
  intros E N. rewrite split_strip in N.
  apply split_from_nil in N as [_ A].
  unfold strip in E. now rewrite (lstrip_all_space _ A) in E.
Qed.

Lemma loop_body_settles (visual_terminal_path : option string)
    (st : State W) :
  exists r st',
    loop_body H visual_terminal_path st = (Ret r, st')
    /\ (forall v, r = Some v -> v = "quit" \/ v = "back")
    /\ (r = None -> List.length (stdin st') < List.length (stdin st)).
Proof.
  destruct (stdin st) as [|[line|] rest] eqn:S.
  - pose proof (loop_body_interrupted H visual_terminal_path st) as Q.
    unfold interrupted in Q. rewrite S in Q. specialize (Q eq_refl).
    destruct (loop_body H visual_terminal_path st) as [r st'].
    cbn [fst] in Q. subst r. exists (Some "quit"), st'.
    split; [reflexivity|]. split; [intros v [= <-]; now left | discriminate].
  - destruct (loop_body_line H visual_terminal_path st line rest S)
      as [B S'].
    destruct (dispatch_settles (List.length rest) visual_terminal_path
                (strip line) (at_prompt H st)) as (r & st' & E & L & V).
    + now rewrite S'.
    + apply stripped_has_word.
    + exists r, st'. rewrite B. split; [exact E|]. split; [exact V|].
      intros _. cbn [List.length]. lia.
  - pose proof (loop_body_interrupted H visual_terminal_path st) as Q.
    unfold interrupted in Q. rewrite S in Q. specialize (Q eq_refl).
    destruct (loop_body H visual_terminal_path st) as [r st'].
    cbn [fst] in Q. subst r. exists (Some "quit"), st'.
    split; [reflexivity|]. split; [intros v [= <-]; now left | discriminate].
Qed.

Lemma loop_settles (fuel : nat) (visual_terminal_path : option string)
    (st : State W) :
  List.length (stdin st) < fuel ->
  exists v st',
    loop H fuel visual_terminal_path st = (Ret (Some v), st')
    /\ (v = "quit" \/ v = "back").
Proof.
  revert st; induction fuel as [|fuel IH]; intros st L; [lia|].
  cbn [loop]. rewrite bind_run.
  destruct (loop_body_settles visual_terminal_path st)
    as ([v|] & st' & E & V & D); rewrite E.
  - exists v, st'. split; [reflexivity | now apply V].
  - apply IH. specialize (D eq_refl). lia.
Qed.

(** X19. With more rounds than answers of the operator, the manager
    returns, and what it returns is "quit" or "back": no exception
    leaves the loop, whatever the lines are and whatever the external
    processes do, and the loop ends. *)
Theorem manager_returns (fuel : nat) (visual_terminal_path : option string)
    (ai_model : option unit) (st : State W) :
  List.length (stdin st) < fuel ->
  exists v st',
    run_micro_terminal_manager H fuel visual_terminal_path ai_model st
    = (Ret (Some v), st')
    /\ (v = "quit" \/ v = "back").
Proof.
  intros L. unfold run_micro_terminal_manager. rewrite bind_run.
  unfold print at 1. now apply loop_settles.
Qed.

End ManagerReturns.

Example manager_session :
  fst (run_micro_terminal_manager Tmux.host 9 Tmux.terminal None
         (Tmux.boot (Tmux.workstation ["main"])
            [Line "new a"; Interrupt; Line "send a echo   hi";
             Line "destroy a"; Interrupt; Line "DESTROY a"; Line " Yes ";
             Line "back"]))
  = Ret (Some "back").
Proof. reflexivity. Qed.

(* ===================================================================== *)
(** ** More on the controller *)
(* ===================================================================== *)

Section MoreControllerFacts.
Context {W : Type} (H : Host W).
Local Open Scope string_scope.

Lemma attach_no_tmux (name : string) (visual_terminal_path : option string)
    (st : State W) :
  located H st "tmux" = None ->
  attach_micro_terminal H name visual_terminal_path st =
  (Ret (false, "tmux is not installed or not found in PATH."), st).
Proof.
  intros L. unfold attach_micro_terminal, _get_tmux_path, bind, which.
  destruct (located_none _ _ _ L) as [-> | ->]; reflexivity.
Qed.

Lemma attach_no_terminal (name tmux : string)
    (visual_terminal_path : option string) (st : State W) :
  located H st "tmux" = Some tmux ->
  truthy visual_terminal_path = false ->
  attach_micro_terminal H name visual_terminal_path st =
  (Ret (false, "No visual terminal application path provided."), st).
Proof.
  intros L T. apply located_some in L as [L ne].
  unfold attach_micro_terminal, _get_tmux_path.
  rewrite bind_run. unfold which at 1. rewrite L.
  destruct tmux as [|a tmux]; [now elim ne|].
  destruct visual_terminal_path as [[|c t]|]; try discriminate; reflexivity.
Qed.

Lemma attach_eq (name tmux terminal : string) (st : State W) :
  located H st "tmux" = Some tmux ->
  terminal <> EmptyString ->
  let st1 := ran H st (has_session_argv tmux (toIdentifier name)) 3 in
  let argv := attach_argv tmux terminal name in
  attach_micro_terminal H name (Some terminal) st =
  if session_live H st (toIdentifier name)
  then (Ret (match fst (launch H (world st1) argv) with
             | Launched =>
                 (true, "Opened micro terminal '" ++ name
                        ++ "' in a new window.")
             | NotLaunched (FileNotFound _) =>
                 (false, "Visual terminal '" ++ terminal ++ "' not found.")
             | NotLaunched (OtherFault text) =>
                 (false, "Failed to open micro terminal window: " ++ text)
             end),
        opened H st1 argv)
  else (Ret (false, "Micro terminal '" ++ name ++ "' not found."), st1).
Proof.
  intros L T. cbv zeta. rewrite (session_live_eq _ _ _ _ L).
  apply located_some in L as [L ne].
  unfold attach_micro_terminal, _get_tmux_path.
  rewrite bind_run. unfold which at 1. rewrite L.
  destruct tmux as [|a tmux]; [now elim ne|].
  destruct terminal as [|c terminal]; [now elim T|].
  cbv beta iota zeta. rewrite bind_run, session_exists_eq.
  unfold toIdentifier.
  destruct (outcome_of H st _ 3) as [r| |f]; try reflexivity.
  destruct (returncode r =? 0)%Z; [|reflexivity].
  cbn [negb]. cbv iota. rewrite try_run, bind_run.
  unfold subprocess_Popen, opened, attach_argv, toIdentifier.
  destruct (launch H _ _) as [[|[t|t]] w']; reflexivity.
Qed.

(** X1. When tmux is not on the search path, every operation that needs
    it stops at once: [create], [destroy], [send] and [attach] return
    their failure with the message that tmux is missing,
    [list_micro_terminals] returns the empty list, and the state is the
    one they were called in, so no process was started. *)
Theorem without_tmux_nothing_runs (name command vm_type : string)
    (vm_target visual_terminal_path : option string) (st : State W) :
  located H st "tmux" = None ->
  create_micro_terminal H name vm_type vm_target st
  = (Ret (false, None, "tmux is not installed or not found in PATH."), st)
  /\ destroy_micro_terminal H name st
     = (Ret (false, "tmux is not installed or not found in PATH."), st)
  /\ send_to_micro_terminal H name command st
     = (Ret (false, "tmux is not installed or not found in PATH."), st)
  /\ attach_micro_terminal H name visual_terminal_path st
     = (Ret (false, "tmux is not installed or not found in PATH."), st)
  /\ list_micro_terminals H st = (Ret [], st).
Proof.
  intros L. repeat apply conj.
  - now apply create_no_tmux.
  - now apply destroy_no_tmux.
  - now apply send_no_tmux.
  - now apply attach_no_tmux.
  - now apply list_no_tmux.
Qed.

(** X2. A [vm_type] other than "local", "docker" and "ssh", compared as
    it is written, is refused with a message that names it and the three
    choices, before the server is asked anything. *)
Theorem unknown_vm_type_is_refused (name vm_type tmux : string)
    (vm_target : option string) (st : State W) :
  located H st "tmux" = Some tmux ->
  ~ In vm_type VM_TYPES ->
  create_micro_terminal H name vm_type vm_target st
  = (Ret (false, None,
          "Unknown vm_type '" ++ vm_type
          ++ "'. Choose from: local, docker, ssh."), st).
Proof.
  intros L N. apply create_unknown_type with (tmux := tmux); [exact L|].
  destruct (mem vm_type VM_TYPES) eqn:K; [|reflexivity].
  now apply mem_In in K.
Qed.

(** X3. With a target given and the session not live, a container or a
    remote terminal whose tool (docker, ssh) is not on the search path is
    refused with the message that the tool is missing; the liveness query
    is the only process that ran. *)
Theorem missing_runtime_is_reported (name target tmux : string)
    (st : State W) :
  located H st "tmux" = Some tmux ->
  session_live H st (toIdentifier name) = false ->
  target <> EmptyString ->
  let st1 := ran H st (has_session_argv tmux (toIdentifier name)) 3 in
  (located H st1 "docker" = None ->
   create_micro_terminal H name "docker" (Some target) st
   = (Ret (false, None, "Docker is not installed or not found in PATH."),
      st1))
  /\ (located H st1 "ssh" = None ->
      create_micro_terminal H name "ssh" (Some target) st
      = (Ret (false, None,
              "SSH client is not installed or not found in PATH."), st1)).
Proof.
  intros L V T st1. destruct target as [|c target]; [now elim T|].
  split; intros D.
  - rewrite (create_absent _ _ "docker" _ _ _ L eq_refl V). cbv zeta.
    fold st1. unfold start_command. cbn [String.eqb Ascii.eqb Bool.eqb].
    now rewrite D.
  - rewrite (create_absent _ _ "ssh" _ _ _ L eq_refl V). cbv zeta.
    fold st1. unfold start_command. cbn [String.eqb Ascii.eqb Bool.eqb].
    now rewrite D.
Qed.

(** X4. When the session is not live and the tool of the back end is
    found, [create_micro_terminal] starts two processes, the liveness
    query and then new-session, detached and named by the identifier.
    The command of the session is: for a container, the docker path
    with [exec -it], the target and the shell line that prefers bash;
    for a remote host, the ssh path and the target; for a local
    terminal, the value of SHELL, or /bin/bash without one, whatever
    target was passed. *)
Theorem create_starts_backend_command (name target tmux : string)
    (vm_target : option string) (st : State W) :
  located H st "tmux" = Some tmux ->
  session_live H st (toIdentifier name) = false ->
  target <> EmptyString ->
  let query := Run [tmux; "has-session"; "-t"; toIdentifier name] 3 in
  let st1 := ran H st (has_session_argv tmux (toIdentifier name)) 3 in
  let new_session start_cmd :=
    Run [tmux; "new-session"; "-d"; "-s"; toIdentifier name; start_cmd] 10 in
  (forall docker,
     located H st1 "docker" = Some docker ->
     calls (snd (create_micro_terminal H name "docker" (Some target) st))
     = List.app (calls st)
         [query;
          new_session
            (docker ++ " exec -it " ++ target
             ++ " /bin/sh -c 'command -v bash >/dev/null 2>&1 && exec bash || exec sh'")])
  /\ (forall ssh,
        located H st1 "ssh" = Some ssh ->
        calls (snd (create_micro_terminal H name "ssh" (Some target) st))
        = List.app (calls st) [query; new_session (ssh ++ " " ++ target)])
  /\ calls (snd (create_micro_terminal H name "local" vm_target st))
     = List.app (calls st)
         [query;
          new_session (match environ H (world st1) "SHELL" with
                       | Some shell => shell
                       | None => "/bin/bash"
                       end)].
Proof.
  intros L V T query st1 new_session.
  destruct target as [|c target]; [now elim T|].
  repeat apply conj.
  - intros docker D.
    rewrite (create_absent _ _ "docker" _ _ _ L eq_refl V). cbv zeta.
    fold st1. unfold start_command. cbn [String.eqb Ascii.eqb Bool.eqb].
    rewrite D. subst st1 query new_session. cbn [snd ran calls].
    now rewrite <- app_assoc.
  - intros ssh D.
    rewrite (create_absent _ _ "ssh" _ _ _ L eq_refl V). cbv zeta.
    fold st1. unfold start_command. cbn [String.eqb Ascii.eqb Bool.eqb].
    rewrite D. subst st1 query new_session. cbn [snd ran calls].
    now rewrite <- app_assoc.
  - rewrite (create_absent _ _ "local" _ _ _ L eq_refl V). cbv zeta.
    fold st1. unfold start_command. cbn [String.eqb Ascii.eqb Bool.eqb].
    subst st1 query new_session. cbn [snd ran calls].
    now rewrite <- app_assoc.
Qed.

(** X5. [create_micro_terminal] reports success exactly when tmux is
    found, the kind of back end is one of the three, the liveness query
    does not find the session, a start command can be built, and
    new-session ends with status 0. *)
Theorem create_succeeds_iff (name vm_type : string)
    (vm_target : option string) (st : State W) :
  (exists sid msg,
     fst (create_micro_terminal H name vm_type vm_target st)
     = Ret (true, sid, msg))
  <-> (exists tmux start_cmd r,
         located H st "tmux" = Some tmux
         /\ In vm_type VM_TYPES
         /\ session_live H st (toIdentifier name) = false
         /\ let st1 := ran H st (has_session_argv tmux (toIdentifier name)) 3
            in
            start_command H st1 vm_type vm_target = inl start_cmd
            /\ outcome_of H st1
                 (new_session_argv tmux (toIdentifier name) start_cmd) 10
               = Exited r
            /\ returncode r = 0%Z).
Proof.
  split.
  - intros (sid & msg & E).
    destruct (located H st "tmux") as [tmux|] eqn:L;
      [destruct (mem vm_type VM_TYPES) eqn:K;
       [destruct (session_live H st (toIdentifier name)) eqn:V|]|].
    + now rewrite (create_live _ _ _ _ _ _ L K V) in E.
    + rewrite (create_absent _ _ _ _ _ _ L K V) in E. cbv zeta in E.
      destruct (start_command H _ vm_type vm_target) as [cmd|m] eqn:B;
        [|discriminate].
      cbn [fst] in E. unfold new_session_result in E.
      destruct (outcome_of H _ _ 10) as [r| |f] eqn:O; try discriminate.
      destruct (returncode r =? 0)%Z eqn:Z0; [|discriminate].
      exists tmux, cmd, r. apply mem_In in K. apply Z.eqb_eq in Z0.
      cbv zeta. now rewrite B.
    + now rewrite (create_unknown_type _ _ _ _ _ _ L K) in E.
    + now rewrite (create_no_tmux _ _ _ _ _ L) in E.
  - intros (tmux & cmd & r & L & K & V & B & O & Z0). apply mem_In in K.
    rewrite (create_absent _ _ _ _ _ _ L K V). cbv zeta. rewrite B.
    cbn [fst]. unfold new_session_result. rewrite O, Z0. cbn [Z.eqb].
    now eexists; eexists.
Qed.

(** X6. When new-session is started and does not end with status 0,
    [create_micro_terminal] fails without an identifier.  After a status
    other than 0 the message holds the error output of tmux, stripped,
    or the text of the exception when tmux printed nothing; after a
    timeout or a process that did not start, the message holds the text
    of that exception. *)
Theorem create_reports_new_session_failure (name vm_type tmux start_cmd
    : string) (vm_target : option string) (st : State W) :
  located H st "tmux" = Some tmux ->
  In vm_type VM_TYPES ->
  session_live H st (toIdentifier name) = false ->
  let st1 := ran H st (has_session_argv tmux (toIdentifier name)) 3 in
  let argv := new_session_argv tmux (toIdentifier name) start_cmd in
  start_command H st1 vm_type vm_target = inl start_cmd ->
  (forall r,
     outcome_of H st1 argv 10 = Exited r -> returncode r <> 0%Z ->
     fst (create_micro_terminal H name vm_type vm_target st)
     = Ret (false, None,
            "Failed to create micro terminal: "
            ++ (if is_empty (stderr r)
                then str_called_process_error H argv (returncode r)
                else strip (stderr r))))
  /\ (outcome_of H st1 argv 10 = TimedOut ->
      fst (create_micro_terminal H name vm_type vm_target st)
      = Ret (false, None,
             "Unexpected error creating micro terminal: "
             ++ str_timeout_expired H argv 10))
  /\ (forall f,
        outcome_of H st1 argv 10 = Failed f ->
        fst (create_micro_terminal H name vm_type vm_target st)
        = Ret (false, None,
               "Unexpected error creating micro terminal: "
               ++ str_exn H (LaunchError f))).
Proof.
  intros L K V st1 argv B. apply mem_In in K.
  rewrite (create_absent _ _ _ _ _ _ L K V). cbv zeta. fold st1.
  rewrite B. fold argv. cbn [fst]. unfold new_session_result.
  repeat apply conj.
  - intros r O NZ. rewrite O. apply Z.eqb_neq in NZ. rewrite NZ.
    unfold diagnostic. now destruct (is_empty (stderr r)).
  - now intros ->.
  - now intros f ->.
Qed.

Lemma only_runs_here (st : State W) : only_runs 0 st st.
Proof.
  repeat split. exists []. split; [now rewrite app_nil_r | reflexivity].
Qed.

Lemma only_runs_ran (k : nat) (st st' : State W) (argv : list string)
    (timeout : Z) :
  only_runs k st st' -> only_runs (S k) st (ran H st' argv timeout).
Proof.
  intros (I & O & started & C & B). repeat split; [exact I | exact O|].
  exists (started ++ [Run argv timeout])%list. cbn [ran calls].
  rewrite C, <- app_assoc, length_app. cbn [List.length]. split; [easy | lia].
Qed.

Lemma only_runs_opened (k : nat) (st st' : State W) (argv : list string) :
  only_runs k st st' -> only_runs (S k) st (opened H st' argv).
Proof.
  intros (I & O & started & C & B). repeat split; [exact I | exact O|].
  exists (started ++ [Popen argv])%list. cbn [opened calls].
  rewrite C, <- app_assoc, length_app. cbn [List.length]. split; [easy | lia].
Qed.

Lemma only_runs_more (k k' : nat) (st st' : State W) :
  k <= k' -> only_runs k st st' -> only_runs k' st st'.
Proof.
  intros B (I & O & started & C & B'). repeat split; [exact I | exact O|].
  exists started. split; [exact C | lia].
Qed.

(** X7. The operations of the controller start processes and do nothing
    else to the state: they read no answer of the operator and print
    nothing, and what they start is added after what was started before.
    [create_micro_terminal] and [attach_micro_terminal] start at most
    two processes; [destroy], [send], [list_micro_terminals] and
    [_session_exists] at most one. *)
Theorem controller_only_runs_processes (name command vm_type tmux id
    : string) (vm_target visual_terminal_path : option string)
    (st : State W) :
  only_runs 2 st
    (snd (create_micro_terminal H name vm_type vm_target st))
  /\ only_runs 1 st (snd (destroy_micro_terminal H name st))
  /\ only_runs 1 st (snd (send_to_micro_terminal H name command st))
  /\ only_runs 2 st
       (snd (attach_micro_terminal H name visual_terminal_path st))
  /\ only_runs 1 st (snd (list_micro_terminals H st))
  /\ only_runs 1 st (snd (_session_exists H tmux id st)).
Proof.
  split; [|split; [|split; [|split; [|split]]]].
  - destruct (located H st "tmux") as [p|] eqn:L;
      [destruct (mem vm_type VM_TYPES) eqn:K;
       [destruct (session_live H st (toIdentifier name)) eqn:V|]|].
    + rewrite (create_live _ _ _ _ _ _ L K V). cbn [snd].
      apply only_runs_more with (k := 1); [lia|].
      apply only_runs_ran, only_runs_here.
    + rewrite (create_absent _ _ _ _ _ _ L K V). cbv zeta.
      destruct (start_command H _ vm_type vm_target); cbn [snd].
      * apply only_runs_ran, only_runs_ran, only_runs_here.
      * apply only_runs_more with (k := 1); [lia|].
        apply only_runs_ran, only_runs_here.
    + rewrite (create_unknown_type _ _ _ _ _ _ L K). cbn [snd].
      apply only_runs_more with (k := 0); [lia | apply only_runs_here].
    + rewrite (create_no_tmux _ _ _ _ _ L). cbn [snd].
      apply only_runs_more with (k := 0); [lia | apply only_runs_here].
  - destruct (located H st "tmux") as [p|] eqn:L.
    + rewrite (destroy_eq _ _ _ _ L). cbn [snd]. apply only_runs_ran, only_runs_here.
    + rewrite (destroy_no_tmux _ _ _ L). cbn [snd].
      apply only_runs_more with (k := 0); [lia | apply only_runs_here].
  - destruct (located H st "tmux") as [p|] eqn:L.
    + rewrite (send_eq _ _ _ _ _ L). cbn [snd]. apply only_runs_ran, only_runs_here.
    + rewrite (send_no_tmux _ _ _ _ L). cbn [snd].
      apply only_runs_more with (k := 0); [lia | apply only_runs_here].
  - destruct (located H st "tmux") as [p|] eqn:L;
      [destruct (truthy visual_terminal_path) eqn:T|].
    + destruct visual_terminal_path as [[|c terminal]|]; try discriminate.
      rewrite (attach_eq _ _ (String c terminal) _ L); [|discriminate].
      cbv zeta. destruct (session_live H st (toIdentifier name)); cbn [snd].
      * apply only_runs_opened, only_runs_ran, only_runs_here.
      * apply only_runs_more with (k := 1); [lia|].
        apply only_runs_ran, only_runs_here.
    + rewrite (attach_no_terminal _ _ _ _ L T). cbn [snd].
      apply only_runs_more with (k := 0); [lia | apply only_runs_here].
    + rewrite (attach_no_tmux _ _ _ L). cbn [snd].
      apply only_runs_more with (k := 0); [lia | apply only_runs_here].
  - destruct (located H st "tmux") as [p|] eqn:L.
    + rewrite (list_eq _ _ _ L). cbn [snd]. apply only_runs_ran, only_runs_here.
    + rewrite (list_no_tmux _ _ L). cbn [snd].
      apply only_runs_more with (k := 0); [lia | apply only_runs_here].
  - rewrite session_exists_eq. cbn [snd]. apply only_runs_ran, only_runs_here.
Qed.

(** X8. With tmux found, [attach_micro_terminal] asks for a window only
    when a terminal application is given and the liveness query finds
    the session.  Without an application it fails before any process;
    for a session that is not live it fails with the message that the
    terminal was not found, the liveness query being the only process. *)
Theorem attach_needs_terminal_and_live_session (name tmux : string)
    (visual_terminal_path : option string) (st : State W) :
  located H st "tmux" = Some tmux ->
  (truthy visual_terminal_path = false ->
   attach_micro_terminal H name visual_terminal_path st
   = (Ret (false, "No visual terminal application path provided."), st))
  /\ (truthy visual_terminal_path = true ->
      session_live H st (toIdentifier name) = false ->
      attach_micro_terminal H name visual_terminal_path st
      = (Ret (false, "Micro terminal '" ++ name ++ "' not found."),
         ran H st (has_session_argv tmux (toIdentifier name)) 3))
  /\ (forall argv,
        In (Popen argv)
           (calls (snd (attach_micro_terminal H name visual_terminal_path
                          st))) ->
        ~ In (Popen argv) (calls st) ->
        truthy visual_terminal_path = true
        /\ session_live H st (toIdentifier name) = true).
Proof.
  intros L. repeat apply conj.
  - intros T. exact (attach_no_terminal _ _ _ _ L T).
  - intros T V.
    destruct visual_terminal_path as [[|c terminal]|]; try discriminate.
    rewrite (attach_eq _ _ (String c terminal) _ L); [|discriminate].
    cbv zeta. now rewrite V.
  - intros argv I N.
    destruct (truthy visual_terminal_path) eqn:T.
    + split; [reflexivity|].
      destruct visual_terminal_path as [[|c terminal]|]; try discriminate.
      rewrite (attach_eq _ _ (String c terminal) _ L) in I; [|discriminate].
      cbv zeta in I.
      destruct (session_live H st (toIdentifier name)); [reflexivity|].
      cbn [snd ran calls] in I. apply in_app_or in I as [I | [I | []]].
      * now elim N.
      * discriminate.
    + rewrite (attach_no_terminal _ _ _ _ L T) in I. now elim N.
Qed.

(** X9. For a live session and a terminal application,
    [attach_micro_terminal] starts the application, after the liveness
    query, with a title that holds the name and with a bash command
    that attaches to the session, tmux path and identifier quoted for
    the shell.  It reports success when the application starts, that the
    application was not found when the file is missing, and the text of
    any other fault. *)
Theorem attach_opens_window (name tmux terminal : string) (st : State W) :
  located H st "tmux" = Some tmux ->
  terminal <> EmptyString ->
  session_live H st (toIdentifier name) = true ->
  let st1 := ran H st (has_session_argv tmux (toIdentifier name)) 3 in
  let argv :=
    [terminal; "-T"; "Micro Terminal: " ++ name; "-e";
     "bash -c " ++ DQ ++ shlex_quote tmux ++ " attach-session -t "
     ++ shlex_quote (toIdentifier name) ++ DQ] in
  calls (snd (attach_micro_terminal H name (Some terminal) st))
  = List.app (calls st)
      [Run [tmux; "has-session"; "-t"; toIdentifier name] 3; Popen argv]
  /\ (fst (launch H (world st1) argv) = Launched ->
      fst (attach_micro_terminal H name (Some terminal) st)
      = Ret (true, "Opened micro terminal '" ++ name ++ "' in a new window."))
  /\ (forall text,
        fst (launch H (world st1) argv) = NotLaunched (FileNotFound text) ->
        fst (attach_micro_terminal H name (Some terminal) st)
        = Ret (false, "Visual terminal '" ++ terminal ++ "' not found."))
  /\ (forall text,
        fst (launch H (world st1) argv) = NotLaunched (OtherFault text) ->
        fst (attach_micro_terminal H name (Some terminal) st)
        = Ret (false, "Failed to open micro terminal window: " ++ text)).
Proof.
  intros L T V st1 argv.
  assert (A : attach_argv tmux terminal name = argv).
  { unfold attach_argv, argv. now rewrite !append_assoc. }
  rewrite (attach_eq _ _ _ _ L T). cbv zeta. rewrite V, A. fold st1.
  repeat apply conj.
  - cbn [snd opened calls]. subst st1. cbn [ran calls].
    now rewrite <- app_assoc.
  - now intros ->.
  - now intros text ->.
  - now intros text ->.
Qed.

(** X10. With tmux found, [send_to_micro_terminal] starts one process,
    send-keys for pane 0.0 of the session's identifier, with the command
    as one argument as it was passed and the key C-m after it.  It
    reports success exactly when the process ends with status 0; after
    a timeout it fails with the text of that exception. *)
Theorem send_passes_command_whole (name command tmux : string)
    (st : State W) :
  located H st "tmux" = Some tmux ->
  let argv :=
    [tmux; "send-keys"; "-t"; toIdentifier name ++ ":0.0"; command; "C-m"] in
  calls (snd (send_to_micro_terminal H name command st))
  = List.app (calls st) [Run argv 5]
  /\ (fst (send_to_micro_terminal H name command st)
      = Ret (true, "Command sent to micro terminal '" ++ name ++ "'.")
      <-> exists r, outcome_of H st argv 5 = Exited r /\ returncode r = 0%Z)
  /\ (outcome_of H st argv 5 = TimedOut ->
      fst (send_to_micro_terminal H name command st)
      = Ret (false, "Unexpected error sending command: "
                    ++ str_timeout_expired H argv 5)).
Proof.
  intros L argv. rewrite (send_eq _ _ _ _ _ L). cbv zeta.
  change (send_keys_argv tmux (toIdentifier name) command) with argv.
  repeat apply conj.
  - reflexivity.
  - cbn [fst]. destruct (outcome_of H st argv 5) as [r| |f].
    + destruct (returncode r =? 0)%Z eqn:Z0.
      * intros _. exists r. split; [reflexivity | now apply Z.eqb_eq].
      * destruct (says_no_session _); discriminate.
    + discriminate.
    + discriminate.
  - cbn [fst]. destruct (outcome_of H st argv 5) as [r| |f].
    + intros (r' & [= <-] & Z0). now rewrite Z0.
    + now intros (r' & E & _).
    + now intros (r' & E & _).
  - now intros ->.
Qed.

(** X11. With tmux found, [destroy_micro_terminal] starts one process,
    kill-session for the session's identifier.  It reports that the
    terminal was destroyed exactly when the process ends with status 0;
    after a timeout or a process that did not start it fails with the
    text of that exception. *)
Theorem destroy_kills_named_session (name tmux : string) (st : State W) :
  located H st "tmux" = Some tmux ->
  let argv := [tmux; "kill-session"; "-t"; toIdentifier name] in
  calls (snd (destroy_micro_terminal H name st))
  = List.app (calls st) [Run argv 5]
  /\ (fst (destroy_micro_terminal H name st)
      = Ret (true, "Micro terminal '" ++ name ++ "' destroyed.")
      <-> exists r, outcome_of H st argv 5 = Exited r /\ returncode r = 0%Z)
  /\ (outcome_of H st argv 5 = TimedOut ->
      fst (destroy_micro_terminal H name st)
      = Ret (false, "Unexpected error destroying micro terminal: "
                    ++ str_timeout_expired H argv 5))
  /\ (forall f,
        outcome_of H st argv 5 = Failed f ->
        fst (destroy_micro_terminal H name st)
        = Ret (false, "Unexpected error destroying micro terminal: "
                      ++ str_exn H (LaunchError f))).
Proof.
  intros L argv. rewrite (destroy_eq _ _ _ _ L). cbv zeta.
  change (kill_session_argv tmux (toIdentifier name)) with argv.
  repeat apply conj.
  - reflexivity.
  - cbn [fst]. destruct (outcome_of H st argv 5) as [r| |f].
    + destruct (returncode r =? 0)%Z eqn:Z0.
      * intros _. exists r. split; [reflexivity | now apply Z.eqb_eq].
      * destruct (says_no_session _); discriminate.
    + discriminate.
    + discriminate.
  - cbn [fst]. destruct (outcome_of H st argv 5) as [r| |f].
    + intros (r' & [= <-] & Z0). now rewrite Z0.
    + now intros (r' & E & _).
    + now intros (r' & E & _).
  - now intros ->.
  - now intros f ->.
Qed.

End MoreControllerFacts.

Section MoreControllerOnConcreteHosts.
Local Open Scope string_scope.

Lemma without_tmux_nothing_runs_witness :
  let st := Tmux.boot Tmux.bare [] in
  create_micro_terminal Tmux.host "a" "local" None st
  = (Ret (false, None, "tmux is not installed or not found in PATH."), st)
  /\ list_micro_terminals Tmux.host st = (Ret [], st).
Proof.
  cbv zeta.
  destruct (without_tmux_nothing_runs Tmux.host "a" "ls" "local" None
              Tmux.terminal (Tmux.boot Tmux.bare []) eq_refl)
    as (C & _ & _ & _ & L).
  split; [exact C | exact L].
Defined.

Lemma unknown_vm_type_is_refused_witness :
  let st := Tmux.boot (Tmux.workstation []) [] in
  create_micro_terminal Tmux.host "a" "Docker" (Some "c1") st
  = (Ret (false, None,
          "Unknown vm_type 'Docker'. Choose from: local, docker, ssh."), st).
Proof.
  cbv zeta.
  apply (unknown_vm_type_is_refused Tmux.host "a" "Docker" "/usr/bin/tmux"
           (Some "c1") (Tmux.boot (Tmux.workstation []) []) eq_refl).
  intros [E|[E|[E|[]]]]; discriminate E.
Defined.

Lemma missing_runtime_is_reported_witness :
  fst (create_micro_terminal Tmux.host "a" "docker" (Some "c1")
         (Tmux.boot (Tmux.workstation []) []))
  = Ret (false, None, "Docker is not installed or not found in PATH.")
  /\ fst (create_micro_terminal Tmux.host "a" "ssh" (Some "ops@build")
            (Tmux.boot (Tmux.container_host []) []))
     = Ret (false, None, "SSH client is not installed or not found in PATH.").
Proof.
  split.
  - destruct (missing_runtime_is_reported Tmux.host "a" "c1" "/usr/bin/tmux"
                (Tmux.boot (Tmux.workstation []) []) eq_refl eq_refl)
      as [D _]; [discriminate|].
    now rewrite (D eq_refl).
  - destruct (missing_runtime_is_reported Tmux.host "a" "ops@build"
                "/usr/bin/tmux" (Tmux.boot (Tmux.container_host []) [])
                eq_refl eq_refl) as [_ S]; [discriminate|].
    now rewrite (S eq_refl).
Defined.

Lemma create_starts_backend_command_witness :
  calls (snd (create_micro_terminal Tmux.host "a" "docker" (Some "c1")
                (Tmux.boot (Tmux.container_host []) [])))
  = [Run ["/usr/bin/tmux"; "has-session"; "-t"; "aitx-micro-a"] 3;
     Run ["/usr/bin/tmux"; "new-session"; "-d"; "-s"; "aitx-micro-a";
          "/usr/bin/docker exec -it c1 /bin/sh -c 'command -v bash >/dev/null 2>&1 && exec bash || exec sh'"]
         10]
  /\ calls (snd (create_micro_terminal Tmux.host "a" "ssh" (Some "ops@build")
                   (Tmux.boot (Tmux.workstation []) [])))
     = [Run ["/usr/bin/tmux"; "has-session"; "-t"; "aitx-micro-a"] 3;
        Run ["/usr/bin/tmux"; "new-session"; "-d"; "-s"; "aitx-micro-a";
             "/usr/bin/ssh ops@build"] 10]
  /\ calls (snd (create_micro_terminal Tmux.host "a" "local" (Some "c1")
                   (Tmux.boot (Tmux.container_host []) [])))
     = [Run ["/usr/bin/tmux"; "has-session"; "-t"; "aitx-micro-a"] 3;
        Run ["/usr/bin/tmux"; "new-session"; "-d"; "-s"; "aitx-micro-a";
             "/bin/bash"] 10].
Proof.
  repeat apply conj.
  - destruct (create_starts_backend_command Tmux.host "a" "c1"
                "/usr/bin/tmux" None (Tmux.boot (Tmux.container_host []) [])
                eq_refl eq_refl) as (D & _ & _); [discriminate|].
    exact (D "/usr/bin/docker" eq_refl).
  - destruct (create_starts_backend_command Tmux.host "a" "ops@build"
                "/usr/bin/tmux" None (Tmux.boot (Tmux.workstation []) [])
                eq_refl eq_refl) as (_ & S & _); [discriminate|].
    exact (S "/usr/bin/ssh" eq_refl).
  - destruct (create_starts_backend_command Tmux.host "a" "c1"
                "/usr/bin/tmux" (Some "c1")
                (Tmux.boot (Tmux.container_host []) [])
                eq_refl eq_refl) as (_ & _ & L); [discriminate|].
    exact L.
Defined.

Lemma create_succeeds_iff_witness :
  exists sid msg,
    fst (create_micro_terminal Tmux.host "a" "local" None
           (Tmux.boot (Tmux.workstation ["main"]) []))
    = Ret (true, sid, msg).
Proof.
  apply (proj2 (create_succeeds_iff Tmux.host "a" "local" None
                  (Tmux.boot (Tmux.workstation ["main"]) []))).
  exists "/usr/bin/tmux", "/bin/zsh", (Tmux.done EmptyString).
  repeat split. now left.
Defined.

Lemma create_reports_new_session_failure_witness :
  fst (create_micro_terminal Script.host "a" "local" None
         (Script.boot ["tmux"]
            [Exited (mkCompleted 1 EmptyString EmptyString);
             Exited (mkCompleted 1 EmptyString
                       (" duplicate session: aitx-micro-a" ++ LF))] []))
  = Ret (false, None,
         "Failed to create micro terminal: duplicate session: aitx-micro-a")
  /\ fst (create_micro_terminal Script.host "a" "local" None
            (Script.boot ["tmux"]
               [Exited (mkCompleted 1 EmptyString EmptyString)] []))
     = Ret (false, None,
            "Unexpected error creating micro terminal: Command timed out.").
Proof.
  split.
  - destruct (create_reports_new_session_failure Script.host "a" "local"
                "/usr/bin/tmux" "/bin/bash" None
                (Script.boot ["tmux"]
                   [Exited (mkCompleted 1 EmptyString EmptyString);
                    Exited (mkCompleted 1 EmptyString
                              (" duplicate session: aitx-micro-a" ++ LF))]
                   [])
                eq_refl (or_introl eq_refl) eq_refl eq_refl) as (F & _ & _).
    apply (F (mkCompleted 1 EmptyString
                (" duplicate session: aitx-micro-a" ++ LF)) eq_refl).
    discriminate.
  - destruct (create_reports_new_session_failure Script.host "a" "local"
                "/usr/bin/tmux" "/bin/bash" None
                (Script.boot ["tmux"]
                   [Exited (mkCompleted 1 EmptyString EmptyString)] [])
                eq_refl (or_introl eq_refl) eq_refl eq_refl) as (_ & T & _).
    exact (T eq_refl).
Defined.

Lemma attach_needs_terminal_and_live_session_witness :
  let st := Tmux.boot (Tmux.workstation ["main"]) [] in
  attach_micro_terminal Tmux.host "a" (Some EmptyString) st
  = (Ret (false, "No visual terminal application path provided."), st)
  /\ fst (attach_micro_terminal Tmux.host "a" Tmux.terminal st)
     = Ret (false, "Micro terminal 'a' not found.").
Proof.
  cbv zeta. split.
  - apply (proj1 (attach_needs_terminal_and_live_session Tmux.host "a"
                    "/usr/bin/tmux" (Some EmptyString)
                    (Tmux.boot (Tmux.workstation ["main"]) []) eq_refl)).
    reflexivity.
  - destruct (attach_needs_terminal_and_live_session Tmux.host "a"
                "/usr/bin/tmux" Tmux.terminal
                (Tmux.boot (Tmux.workstation ["main"]) []) eq_refl)
      as (_ & N & _).
    now rewrite (N eq_refl eq_refl).
Defined.

Lemma attach_opens_window_witness :
  let st := Tmux.boot (Tmux.workstation ["aitx-micro-a b"]) [] in
  calls (snd (attach_micro_terminal Tmux.host "a b" Tmux.terminal st))
  = [Run ["/usr/bin/tmux"; "has-session"; "-t"; "aitx-micro-a b"] 3;
     Popen ["/usr/bin/xfce4-terminal"; "-T"; "Micro Terminal: a b"; "-e";
            "bash -c " ++ DQ
            ++ "/usr/bin/tmux attach-session -t 'aitx-micro-a b'" ++ DQ]]
  /\ fst (attach_micro_terminal Tmux.host "a b" Tmux.terminal st)
     = Ret (true, "Opened micro terminal 'a b' in a new window.").
Proof.
  cbv zeta.
  destruct (attach_opens_window Tmux.host "a b" "/usr/bin/tmux"
              "/usr/bin/xfce4-terminal"
              (Tmux.boot (Tmux.workstation ["aitx-micro-a b"]) []) eq_refl)
    as (C & L & _); [discriminate | reflexivity |].
  split; [exact C | exact (L eq_refl)].
Defined.

Lemma send_passes_command_whole_witness :
  let st := Tmux.boot (Tmux.workstation ["aitx-micro-a"]) [] in
  calls (snd (send_to_micro_terminal Tmux.host "a" "echo  'hi   there'" st))
  = [Run ["/usr/bin/tmux"; "send-keys"; "-t"; "aitx-micro-a:0.0";
          "echo  'hi   there'"; "C-m"] 5]
  /\ fst (send_to_micro_terminal Tmux.host "a" "echo  'hi   there'" st)
     = Ret (true, "Command sent to micro terminal 'a'.").
Proof.
  cbv zeta.
  destruct (send_passes_command_whole Tmux.host "a" "echo  'hi   there'"
              "/usr/bin/tmux"
              (Tmux.boot (Tmux.workstation ["aitx-micro-a"]) []) eq_refl)
    as (C & S & _).
  split; [exact C|]. apply S. exists (Tmux.done EmptyString). now split.
Defined.

Lemma destroy_kills_named_session_witness :
  let st := Tmux.boot (Tmux.workstation ["aitx-micro-a"]) [] in
  calls (snd (destroy_micro_terminal Tmux.host "a" st))
  = [Run ["/usr/bin/tmux"; "kill-session"; "-t"; "aitx-micro-a"] 5]
  /\ fst (destroy_micro_terminal Tmux.host "a" st)
     = Ret (true, "Micro terminal 'a' destroyed.")
  /\ fst (destroy_micro_terminal Hung.host "a" (Hung.boot []))
     = Ret (false, "Unexpected error destroying micro terminal: Command timed out.").
Proof.
  cbv zeta.
  destruct (destroy_kills_named_session Tmux.host "a" "/usr/bin/tmux"
              (Tmux.boot (Tmux.workstation ["aitx-micro-a"]) []) eq_refl)
    as (C & S & _).
  destruct (destroy_kills_named_session Hung.host "a" "/usr/bin/tmux"
              (Hung.boot []) eq_refl) as (_ & _ & T & _).
  split; [exact C|]. split; [|exact (T eq_refl)].
  apply S. exists (Tmux.done EmptyString). now split.
Defined.

End MoreControllerOnConcreteHosts.

(* ===================================================================== *)
(** ** More on the dispatcher *)
(* ===================================================================== *)

Ltac enter_dispatch P :=
  unfold dispatch;
  match goal with
  | |- context [is_empty ?ui] =>
      destruct ui; [discriminate P|]
  end;
  cbn [is_empty]; cbv zeta; rewrite P; take_item.

Section MoreDispatcherFacts.
Context {W : Type} (H : Host W).
Local Open Scope string_scope.

Lemma dispatch_blank (visual_terminal_path : option string)
    (user_input : string) (st : State W) :
  is_empty user_input = true ->
  dispatch H visual_terminal_path user_input st = (Ret None, st).
Proof. intros E. unfold dispatch. now rewrite E. Qed.

Lemma dispatch_quit (visual_terminal_path : option string)
    (user_input verb : string) (more : list string) (st : State W) :
  split user_input = verb :: more ->
  In (lower verb) ["quit"; "exit"] ->
  dispatch H visual_terminal_path user_input st = (Ret (Some "quit"), st).
Proof.
  intros P V. enter_dispatch P. apply mem_In in V. now rewrite V.
Qed.

Lemma dispatch_back (visual_terminal_path : option string)
    (user_input verb : string) (more : list string) (st : State W) :
  split user_input = verb :: more ->
  lower verb = "back" ->
  dispatch H visual_terminal_path user_input st = (Ret (Some "back"), st).
Proof. intros P V. enter_dispatch P. now rewrite V. Qed.

Lemma dispatch_list (visual_terminal_path : option string)
    (user_input verb : string) (more : list string) (st : State W) :
  split user_input = verb :: more ->
  lower verb = "list" ->
  dispatch H visual_terminal_path user_input st = (Ret None, st).
Proof. intros P V. enter_dispatch P. now rewrite V. Qed.

Lemma dispatch_unknown (visual_terminal_path : option string)
    (user_input verb : string) (more : list string) (st : State W) :
  split user_input = verb :: more ->
  ~ In (lower verb) verbs ->
  dispatch H visual_terminal_path user_input st
  = (Ret None, printed (UnknownCommand (lower verb)) st).
Proof.
  intros P V. enter_dispatch P.
  assert (M : mem (lower verb) verbs = false).
  { destruct (mem (lower verb) verbs) eqn:M; [|reflexivity].
    now apply mem_In in M. }
  unfold verbs in M. cbn [mem existsb] in M.
  repeat (apply orb_false_iff in M as [? M]).
  cbn [mem existsb].
  repeat match goal with
         | E : (_ =? _) = false |- _ => rewrite E; clear E
         end.
  reflexivity.
Qed.

Lemma dispatch_usage (visual_terminal_path : option string)
    (user_input verb name kind : string) (st : State W) :
  (split user_input = [verb] -> lower verb = "new" ->
   dispatch H visual_terminal_path user_input st
   = (Ret None, printed UsageNew st))
  /\ (split user_input = [verb; name; kind] -> lower verb = "new" ->
      dispatch H visual_terminal_path user_input st
      = (Ret None, printed UsageNewTarget st))
  /\ (split user_input = [verb] -> lower verb = "open" ->
      dispatch H visual_terminal_path user_input st
      = (Ret None, printed UsageOpen st))
  /\ (split user_input = [verb] -> lower verb = "send" ->
      dispatch H visual_terminal_path user_input st
      = (Ret None, printed UsageSend st))
  /\ (split user_input = [verb; name] -> lower verb = "send" ->
      dispatch H visual_terminal_path user_input st
      = (Ret None, printed UsageSend st))
  /\ (split user_input = [verb] -> lower verb = "destroy" ->
      dispatch H visual_terminal_path user_input st
      = (Ret None, printed UsageDestroy st)).
Proof.
  repeat apply conj; intros P V; enter_dispatch P; rewrite V; reflexivity.
Qed.

Lemma answered_line (p : PromptKind) (st : State W) (answer : string)
    (rest : list InputEvent) :
  stdin st = Line answer :: rest ->
  mkState (world st) rest (calls st) (screen st ++ [Prompt p])%list
  = answered p st.
Proof. intros S. unfold answered. now rewrite S. Qed.

Lemma report (c : M W (bool * string)) (st : State W) (ok : bool)
    (msg : string) :
  fst (c st) = Ret (ok, msg) ->
  bind c (fun r => bind (print (Report (fst r) (snd r)))
                    (fun _ => ret (@None string)))
       st
  = (Ret None, printed (Report ok msg) (snd (c st))).
Proof.
  intros E. rewrite bind_run. destruct (c st) as [r st']. cbn [fst snd] in *.
  now subst r.
Qed.

Lemma dispatch_destroy_answer (visual_terminal_path : option string)
    (user_input verb name answer : string) (more : list string)
    (rest : list InputEvent) (st : State W) :
  split user_input = verb :: name :: more ->
  lower verb = "destroy" ->
  stdin st = Line answer :: rest ->
  let st2 := answered (PromptDestroy name) st in
  (is_yes answer = false ->
   dispatch H visual_terminal_path user_input st
   = (Ret None, printed Cancelled st2))
  /\ (is_yes answer = true ->
      forall ok msg,
        fst (destroy_micro_terminal H name st2) = Ret (ok, msg) ->
        dispatch H visual_terminal_path user_input st
        = (Ret None,
           printed (Report ok msg)
             (snd (destroy_micro_terminal H name st2)))).
Proof.
  intros P V S st2.
  split; intros Y; [|intros ok msg D]; enter_dispatch P; rewrite V;
    literal_tests; take_item;
    rewrite bind_run, (ask_line _ (fun a => lower (strip a)) _ _ _ S);
    rewrite (answered_line _ _ _ _ S); fold st2; cbv iota beta;
    unfold is_yes in Y; cbn [mem existsb] in Y; rewrite Y.
  - reflexivity.
  - now apply report.
Qed.

Lemma dispatch_open (visual_terminal_path : option string)
    (user_input verb name : string) (more : list string) (st : State W)
    (ok : bool) (msg : string) :
  split user_input = verb :: name :: more ->
  lower verb = "open" ->
  fst (attach_micro_terminal H name visual_terminal_path st) = Ret (ok, msg) ->
  dispatch H visual_terminal_path user_input st
  = (Ret None,
     printed (Report ok msg)
       (snd (attach_micro_terminal H name visual_terminal_path st))).
Proof.
  intros P V A. enter_dispatch P. rewrite V. literal_tests. take_item.
  now apply report.
Qed.

Lemma dispatch_new (visual_terminal_path : option string)
    (user_input verb name : string) (more : list string) (st : State W) :
  split user_input = verb :: name :: more ->
  lower verb = "new" ->
  List.length more <> 1%nat ->
  let creation :=
    create_micro_terminal H name (fst (backend_of more))
      (snd (backend_of more)) st in
  (forall sid msg,
     fst creation = Ret (false, sid, msg) ->
     dispatch H visual_terminal_path user_input st
     = (Ret None, printed (Report false msg) (snd creation)))
  /\ (forall sid msg answer rest,
        fst creation = Ret (true, sid, msg) ->
        stdin st = Line answer :: rest ->
        let st2 := answered (PromptOpen name)
                     (printed (Report true msg) (snd creation)) in
        (is_yes answer = false ->
         dispatch H visual_terminal_path user_input st = (Ret None, st2))
        /\ (is_yes answer = true ->
            forall ok m,
              fst (attach_micro_terminal H name visual_terminal_path st2)
              = Ret (ok, m) ->
              dispatch H visual_terminal_path user_input st
              = (Ret None,
                 printed (Report ok m)
                   (snd (attach_micro_terminal H name visual_terminal_path
                           st2))))).
Proof.
  intros P V N creation.
  assert (E : forall (r : bool * option string * string)
                (k : bool * option string * string -> M W (option string)),
            fst creation = Ret r ->
            bind (create_micro_terminal H name (fst (backend_of more))
                    (snd (backend_of more))) k st
            = k r (snd creation)).
  { intros r k C. rewrite bind_run. unfold creation in *.
    destruct (create_micro_terminal H name _ _ st) as [r' st1].
    cbn [fst snd] in *. now subst r'. }
  assert (D : dispatch H visual_terminal_path user_input st
              = bind (create_micro_terminal H name (fst (backend_of more))
                        (snd (backend_of more)))
                  (fun created =>
                     let '(success, _, msg) := created in
                     if success : bool
                     then
                       bind (print (Report true msg)) (fun _ =>
                       bind (try_
                               (bind (input (PromptOpen name))
                                  (fun answer =>
                                     ret (Some (lower (strip answer)))))
                               [except_interrupt
                                  (bind (print Blank) (fun _ => ret None))])
                         (fun asked =>
                            match asked with
                            | None => ret None
                            | Some open_choice =>
                                if mem open_choice ["y"; "yes"]
                                then
                                  bind (attach_micro_terminal H name
                                          visual_terminal_path)
                                    (fun opened =>
                                       bind (print (Report (fst opened)
                                                      (snd opened)))
                                         (fun _ => ret None))
                                else ret None
                            end))
                     else bind (print (Report false msg))
                            (fun _ => ret None)) st).
  { enter_dispatch P. rewrite V. literal_tests. take_item.
    destruct more as [|kind [|target extra]]; [|now elim N|];
      literal_tests; rewrite bind_run.
    - reflexivity.
    - take_item. take_item. reflexivity. }
  rewrite D. split.
  - intros sid msg C. rewrite (E _ _ C). reflexivity.
  - intros sid msg answer rest C S st2.
    assert (S2 : stdin (printed (Report true msg) (snd creation))
                 = Line answer :: rest).
    { cbn [printed stdin]. unfold creation. now rewrite create_stdin. }
    split; intros Y; [|intros ok m A]; rewrite (E _ _ C); cbv iota beta;
      rewrite bind_run; unfold print at 1;
      fold (printed (Report true msg) (snd creation));
      rewrite bind_run, (ask_line _ (fun a => lower (strip a)) _ _ _ S2);
      rewrite (answered_line _ _ _ _ S2); fold st2; cbv iota beta;
      unfold is_yes in Y; rewrite Y.
    + reflexivity.
    + now apply report.
Qed.

Lemma round_line (visual_terminal_path : option string) (st : State W)
    (line : string) (rest : list InputEvent) :
  stdin st = Line line :: rest ->
  loop_body H visual_terminal_path st
  = dispatch H visual_terminal_path (strip line) (at_prompt H st)
  /\ stdin (at_prompt H st) = rest
  /\ split (strip line) = split line.
Proof.
  intros S. destruct (loop_body_line H visual_terminal_path st line rest S).
  repeat split; try assumption. apply split_strip.
Qed.

(** X12. A line whose first word is quit or exit, in any case of letters,
    ends the round with "quit", and one whose first word is back ends it
    with "back", whatever follows the word.  Nothing happens after the
    line is read: the state is the one at the prompt.  The manager
    returns the same value. *)
Theorem quit_exit_and_back_leave_the_loop
    (visual_terminal_path : option string) (st : State W)
    (line verb : string) (more : list string) (rest : list InputEvent) :
  stdin st = Line line :: rest ->
  split line = verb :: more ->
  (In (lower verb) ["quit"; "exit"] ->
   loop_body H visual_terminal_path st
   = (Ret (Some "quit"), at_prompt H st)
   /\ forall fuel ai_model,
        fst (run_micro_terminal_manager H (S fuel) visual_terminal_path
               ai_model st) = Ret (Some "quit"))
  /\ (lower verb = "back" ->
      loop_body H visual_terminal_path st
      = (Ret (Some "back"), at_prompt H st)
      /\ forall fuel ai_model,
           fst (run_micro_terminal_manager H (S fuel) visual_terminal_path
                  ai_model st) = Ret (Some "back")).
Proof.
  intros I P.
  assert (B : forall o, stdin (printed o st) = Line line :: rest) by easy.
  assert (M : forall fuel ai v,
            (forall st', stdin st' = Line line :: rest ->
                         fst (loop_body H visual_terminal_path st')
                         = Ret (Some v)) ->
            fst (run_micro_terminal_manager H (S fuel) visual_terminal_path
                   ai st) = Ret (Some v)).
  { intros fuel ai v R. unfold run_micro_terminal_manager.
    rewrite bind_run. unfold print at 1.
    apply loop_returns, R. exact (B Banner). }
  assert (Q : forall st', stdin st' = Line line :: rest ->
              loop_body H visual_terminal_path st'
              = dispatch H visual_terminal_path (strip line)
                  (at_prompt H st')
              /\ split (strip line) = verb :: more).
  { intros st' S'.
    destruct (round_line visual_terminal_path st' line rest S')
      as (R & _ & E). split; [exact R | now rewrite E]. }
  split; intros V.
  - split.
    + destruct (Q st I) as [-> P'].
      exact (dispatch_quit _ _ _ _ _ P' V).
    + intros fuel ai. apply M. intros st' S'. destruct (Q st' S') as [-> P'].
      now rewrite (dispatch_quit _ _ _ _ _ P' V).
  - split.
    + destruct (Q st I) as [-> P'].
      exact (dispatch_back _ _ _ _ _ P' V).
    + intros fuel ai. apply M. intros st' S'. destruct (Q st' S') as [-> P'].
      now rewrite (dispatch_back _ _ _ _ _ P' V).
Qed.

(** X13. A line of white space only, a line whose first word is list,
    and a line whose first word is no verb of the dispatcher all end the
    round without a result, so the loop goes on.  The first two leave the
    state of the prompt as it is; the third prints that the command,
    in lower case, is unknown.  No process is started. *)
Theorem idle_lines_go_to_the_next_round
    (visual_terminal_path : option string) (st : State W)
    (line : string) (rest : list InputEvent) :
  stdin st = Line line :: rest ->
  (is_empty (strip line) = true ->
   loop_body H visual_terminal_path st = (Ret None, at_prompt H st))
  /\ (forall verb more,
        split line = verb :: more -> lower verb = "list" ->
        loop_body H visual_terminal_path st = (Ret None, at_prompt H st))
  /\ (forall verb more,
        split line = verb :: more -> ~ In (lower verb) verbs ->
        loop_body H visual_terminal_path st
        = (Ret None,
           printed (UnknownCommand (lower verb)) (at_prompt H st))).
Proof.
  intros S.
  destruct (round_line visual_terminal_path st line rest S) as (-> & _ & E).
  repeat apply conj.
  - now apply dispatch_blank.
  - intros verb more P V. rewrite <- E in P.
    exact (dispatch_list _ _ _ _ _ P V).
  - intros verb more P V. rewrite <- E in P.
    exact (dispatch_unknown _ _ _ _ _ P V).
Qed.

(** X14. A command that lacks a word is answered with its usage line and
    nothing else: [new], [open], [send] and [destroy] alone, [send] with
    a name and no command, and [new] with a name and a kind but no
    target.  The controller is not called, no question is asked, and
    the round ends without a result. *)
Theorem short_commands_get_usage (visual_terminal_path : option string)
    (st : State W) (line verb name kind : string)
    (rest : list InputEvent) :
  stdin st = Line line :: rest ->
  let usage o :=
    loop_body H visual_terminal_path st
    = (Ret None, printed o (at_prompt H st)) in
  (split line = [verb] -> lower verb = "new" -> usage UsageNew)
  /\ (split line = [verb; name; kind] -> lower verb = "new" ->
      usage UsageNewTarget)
  /\ (split line = [verb] -> lower verb = "open" -> usage UsageOpen)
  /\ (split line = [verb] -> lower verb = "send" -> usage UsageSend)
  /\ (split line = [verb; name] -> lower verb = "send" -> usage UsageSend)
  /\ (split line = [verb] -> lower verb = "destroy" -> usage UsageDestroy).
Proof.
  intros S usage. subst usage. cbv beta.
  destruct (round_line visual_terminal_path st line rest S) as (-> & _ & E).
  rewrite <- E.
  apply (dispatch_usage visual_terminal_path (strip line) verb name kind
           (at_prompt H st)).
Qed.

(** X15. [destroy <name>] asks before it acts.  When the answer,
    stripped and in lower case, is y or yes, [destroy_micro_terminal] is
    called for the name and its result is printed; any other answer
    prints that the action was cancelled and calls nothing.  Either way
    the round ends without a result. *)
Theorem destroy_asks_before_killing (visual_terminal_path : option string)
    (st : State W) (line verb name answer : string) (more : list string)
    (rest : list InputEvent) :
  stdin st = Line line :: Line answer :: rest ->
  split line = verb :: name :: more ->
  lower verb = "destroy" ->
  let st2 := answered (PromptDestroy name) (at_prompt H st) in
  stdin st2 = rest
  /\ (is_yes answer = false ->
      loop_body H visual_terminal_path st
      = (Ret None, printed Cancelled st2))
  /\ (is_yes answer = true ->
      forall ok msg,
        fst (destroy_micro_terminal H name st2) = Ret (ok, msg) ->
        loop_body H visual_terminal_path st
        = (Ret None,
           printed (Report ok msg)
             (snd (destroy_micro_terminal H name st2)))).
Proof.
  intros S P V st2.
  destruct (round_line visual_terminal_path st line _ S) as (-> & S' & E).
  rewrite <- E in P. split.
  - unfold st2. cbn [answered stdin]. now rewrite S'.
  - exact (dispatch_destroy_answer _ _ _ _ _ _ _ _ P V S').
Qed.

(** X16. After [new <name>] the kind of back end is the third word in
    lower case and the target the fourth, further words being left out;
    with a name alone the back end is local.  When
    [create_micro_terminal] fails, its message is printed and no
    question follows: the next answer of the operator is still to be
    read. *)
Theorem failed_new_asks_nothing (visual_terminal_path : option string)
    (st : State W) (line verb name : string) (more : list string)
    (rest : list InputEvent) (sid : option string) (msg : string) :
  stdin st = Line line :: rest ->
  split line = verb :: name :: more ->
  lower verb = "new" ->
  List.length more <> 1%nat ->
  let creation :=
    create_micro_terminal H name (fst (backend_of more))
      (snd (backend_of more)) (at_prompt H st) in
  fst creation = Ret (false, sid, msg) ->
  loop_body H visual_terminal_path st
  = (Ret None, printed (Report false msg) (snd creation))
  /\ stdin (snd (loop_body H visual_terminal_path st)) = rest.
Proof.
  intros S P V N creation C.
  destruct (round_line visual_terminal_path st line _ S) as (R & S' & E).
  rewrite <- E in P.
  destruct (dispatch_new visual_terminal_path _ _ _ _ (at_prompt H st) P V N)
    as [F _].
  rewrite R, (F sid msg C). split; [reflexivity|].
  cbn [snd printed stdin]. unfold creation. now rewrite create_stdin.
Qed.

(** X17. When [create_micro_terminal] succeeds after [new], its message
    is printed and the operator is asked whether to open a window.  On y
    or yes, stripped and in any case of letters,
    [attach_micro_terminal] is called with the name and the terminal
    application of the manager, and its result is printed; on any other
    answer nothing more happens. *)
Theorem new_offers_a_window (visual_terminal_path : option string)
    (st : State W) (line verb name answer : string) (more : list string)
    (rest : list InputEvent) (sid : option string) (msg : string) :
  stdin st = Line line :: Line answer :: rest ->
  split line = verb :: name :: more ->
  lower verb = "new" ->
  List.length more <> 1%nat ->
  let creation :=
    create_micro_terminal H name (fst (backend_of more))
      (snd (backend_of more)) (at_prompt H st) in
  fst creation = Ret (true, sid, msg) ->
  let st2 := answered (PromptOpen name)
               (printed (Report true msg) (snd creation)) in
  (is_yes answer = false ->
   loop_body H visual_terminal_path st = (Ret None, st2))
  /\ (is_yes answer = true ->
      forall ok m,
        fst (attach_micro_terminal H name visual_terminal_path st2)
        = Ret (ok, m) ->
        loop_body H visual_terminal_path st
        = (Ret None,
           printed (Report ok m)
             (snd (attach_micro_terminal H name visual_terminal_path st2)))).
Proof.
  intros S P V N creation C st2.
  destruct (round_line visual_terminal_path st line _ S) as (R & S' & E).
  rewrite <- E in P.
  destruct (dispatch_new visual_terminal_path _ _ _ _ (at_prompt H st) P V N)
    as [_ F].
  rewrite R. exact (F sid msg answer rest C S').
Qed.

(** X18. [open <name>] calls [attach_micro_terminal] with the name and
    the terminal application of the manager, prints its result, failure
    or success, and ends the round without a result; words after the
    name are left out. *)
Theorem open_reports_attach (visual_terminal_path : option string)
    (st : State W) (line verb name : string) (more : list string)
    (rest : list InputEvent) (ok : bool) (msg : string) :
  stdin st = Line line :: rest ->
  split line = verb :: name :: more ->
  lower verb = "open" ->
  fst (attach_micro_terminal H name visual_terminal_path (at_prompt H st))
  = Ret (ok, msg) ->
  loop_body H visual_terminal_path st
  = (Ret None,
     printed (Report ok msg)
       (snd (attach_micro_terminal H name visual_terminal_path
               (at_prompt H st)))).
Proof.
  intros S P V A.
  destruct (round_line visual_terminal_path st line _ S) as (-> & _ & E).
  rewrite <- E in P. exact (dispatch_open _ _ _ _ _ _ _ _ P V A).
Qed.

End MoreDispatcherFacts.

Section MoreDispatcherOnTheReferenceHost.
Local Open Scope string_scope.

Lemma quit_exit_and_back_leave_the_loop_witness :
  fst (loop_body Tmux.host Tmux.terminal
         (Tmux.boot (Tmux.workstation []) [Line "  QUIT now"; Line "back"]))
  = Ret (Some "quit")
  /\ fst (run_micro_terminal_manager Tmux.host 1 Tmux.terminal None
            (Tmux.boot (Tmux.workstation []) [Line "Back"]))
     = Ret (Some "back").
Proof.
  split.
  - destruct (quit_exit_and_back_leave_the_loop Tmux.host Tmux.terminal
                (Tmux.boot (Tmux.workstation [])
                   [Line "  QUIT now"; Line "back"])
                "  QUIT now" "QUIT" ["now"] [Line "back"] eq_refl eq_refl)
      as [Q _].
    destruct (Q (or_introl eq_refl)) as [R _]. now rewrite R.
  - destruct (quit_exit_and_back_leave_the_loop Tmux.host Tmux.terminal
                (Tmux.boot (Tmux.workstation []) [Line "Back"])
                "Back" "Back" [] [] eq_refl eq_refl) as [_ B].
    destruct (B eq_refl) as [_ M]. exact (M 0 None).
Defined.

Lemma idle_lines_go_to_the_next_round_witness :
  fst (loop_body Tmux.host Tmux.terminal
         (Tmux.boot (Tmux.workstation []) [Line ("  " ++ HT)]))
  = Ret None
  /\ fst (loop_body Tmux.host Tmux.terminal
            (Tmux.boot (Tmux.workstation []) [Line "LIST"]))
     = Ret None
  /\ screen (snd (loop_body Tmux.host Tmux.terminal
                    (Tmux.boot (Tmux.workstation []) [Line "Kill a"])))
     = [NoActive; Menu; Prompt PromptCommand; UnknownCommand "kill"].
Proof.
  repeat apply conj.
  - destruct (idle_lines_go_to_the_next_round Tmux.host Tmux.terminal
                (Tmux.boot (Tmux.workstation []) [Line ("  " ++ HT)])
                ("  " ++ HT) [] eq_refl) as (B & _ & _).
    now rewrite (B eq_refl).
  - destruct (idle_lines_go_to_the_next_round Tmux.host Tmux.terminal
                (Tmux.boot (Tmux.workstation []) [Line "LIST"])
                "LIST" [] eq_refl) as (_ & L & _).
    now rewrite (L "LIST" [] eq_refl eq_refl).
  - destruct (idle_lines_go_to_the_next_round Tmux.host Tmux.terminal
                (Tmux.boot (Tmux.workstation []) [Line "Kill a"])
                "Kill a" [] eq_refl) as (_ & _ & U).
    rewrite (U "Kill" ["a"] eq_refl); [reflexivity|].
    intros I. repeat (destruct I as [I|I]; [discriminate I|]). exact I.
Defined.

Lemma short_commands_get_usage_witness :
  screen (snd (loop_body Tmux.host Tmux.terminal
                 (Tmux.boot (Tmux.workstation []) [Line "new a docker"])))
  = [NoActive; Menu; Prompt PromptCommand; UsageNewTarget]
  /\ calls (snd (loop_body Tmux.host Tmux.terminal
                   (Tmux.boot (Tmux.workstation []) [Line "send a"])))
     = [Run ["/usr/bin/tmux"; "list-sessions"; "-F"; "#{session_name}"] 5].
Proof.
  split.
  - destruct (short_commands_get_usage Tmux.host Tmux.terminal
                (Tmux.boot (Tmux.workstation []) [Line "new a docker"])
                "new a docker" "new" "a" "docker" [] eq_refl)
      as (_ & T & _).
    now rewrite (T eq_refl eq_refl).
  - destruct (short_commands_get_usage Tmux.host Tmux.terminal
                (Tmux.boot (Tmux.workstation []) [Line "send a"])
                "send a" "send" "a" EmptyString [] eq_refl)
      as (_ & _ & _ & _ & S & _).
    now rewrite (S eq_refl eq_refl).
Defined.

Lemma destroy_asks_before_killing_witness :
  calls (snd (loop_body Tmux.host Tmux.terminal
                (Tmux.boot (Tmux.workstation ["aitx-micro-a"])
                   [Line "destroy a"; Line " YES "])))
  = [Run ["/usr/bin/tmux"; "list-sessions"; "-F"; "#{session_name}"] 5;
     Run ["/usr/bin/tmux"; "kill-session"; "-t"; "aitx-micro-a"] 5]
  /\ calls (snd (loop_body Tmux.host Tmux.terminal
                   (Tmux.boot (Tmux.workstation ["aitx-micro-a"])
                      [Line "destroy a"; Line "yes please"])))
     = [Run ["/usr/bin/tmux"; "list-sessions"; "-F"; "#{session_name}"] 5].
Proof.
  split.
  - destruct (destroy_asks_before_killing Tmux.host Tmux.terminal
                (Tmux.boot (Tmux.workstation ["aitx-micro-a"])
                   [Line "destroy a"; Line " YES "])
                "destroy a" "destroy" "a" " YES " [] [] eq_refl eq_refl
                eq_refl) as (_ & _ & Y).
    now rewrite (Y eq_refl true "Micro terminal 'a' destroyed." eq_refl).
  - destruct (destroy_asks_before_killing Tmux.host Tmux.terminal
                (Tmux.boot (Tmux.workstation ["aitx-micro-a"])
                   [Line "destroy a"; Line "yes please"])
                "destroy a" "destroy" "a" "yes please" [] [] eq_refl
                eq_refl eq_refl) as (_ & N & _).
    now rewrite (N eq_refl).
Defined.

Lemma failed_new_asks_nothing_witness :
  let st := Tmux.boot (Tmux.workstation [])
              [Line "new a DOCKER c1 more"; Line "y"] in
  stdin (snd (loop_body Tmux.host Tmux.terminal st)) = [Line "y"]
  /\ screen (snd (loop_body Tmux.host Tmux.terminal st))
     = [NoActive; Menu; Prompt PromptCommand;
        Report false "Docker is not installed or not found in PATH."].
Proof.
  cbv zeta.
  destruct (failed_new_asks_nothing Tmux.host Tmux.terminal
              (Tmux.boot (Tmux.workstation [])
                 [Line "new a DOCKER c1 more"; Line "y"])
              "new a DOCKER c1 more" "new" "a" ["DOCKER"; "c1"; "more"]
              [Line "y"] None
              "Docker is not installed or not found in PATH."
              eq_refl eq_refl eq_refl) as [R S];
    [discriminate | reflexivity |].
  split; [exact S | now rewrite R].
Defined.

Lemma new_offers_a_window_witness :
  calls (snd (loop_body Tmux.host Tmux.terminal
                (Tmux.boot (Tmux.workstation []) [Line "new a"; Line "Y"])))
  = [Run ["/usr/bin/tmux"; "list-sessions"; "-F"; "#{session_name}"] 5;
     Run ["/usr/bin/tmux"; "has-session"; "-t"; "aitx-micro-a"] 3;
     Run ["/usr/bin/tmux"; "new-session"; "-d"; "-s"; "aitx-micro-a";
          "/bin/zsh"] 10;
     Run ["/usr/bin/tmux"; "has-session"; "-t"; "aitx-micro-a"] 3;
     Popen ["/usr/bin/xfce4-terminal"; "-T"; "Micro Terminal: a"; "-e";
            "bash -c " ++ DQ
            ++ "/usr/bin/tmux attach-session -t aitx-micro-a" ++ DQ]].
Proof.
  destruct (new_offers_a_window Tmux.host Tmux.terminal
              (Tmux.boot (Tmux.workstation []) [Line "new a"; Line "Y"])
              "new a" "new" "a" "Y" [] [] (Some "aitx-micro-a")
              "Micro terminal 'a' created successfully."
              eq_refl eq_refl eq_refl) as [_ Y];
    [discriminate | reflexivity |].
  now rewrite (Y eq_refl true "Opened micro terminal 'a' in a new window."
                 eq_refl).
Defined.

Lemma open_reports_attach_witness :
  screen (snd (loop_body Tmux.host Tmux.terminal
                 (Tmux.boot (Tmux.workstation ["main"])
                    [Line "Open ghost now"])))
  = [NoActive; Menu; Prompt PromptCommand;
     Report false "Micro terminal 'ghost' not found."].
Proof.
  now rewrite (open_reports_attach Tmux.host Tmux.terminal
                 (Tmux.boot (Tmux.workstation ["main"])
                    [Line "Open ghost now"])
                 "Open ghost now" "Open" "ghost" ["now"] [] false
                 "Micro terminal 'ghost' not found."
                 eq_refl eq_refl eq_refl eq_refl).
Defined.

Lemma manager_returns_witness :
  exists v st',
    run_micro_terminal_manager Tmux.host 3 Tmux.terminal None
      (Tmux.boot (Tmux.workstation []) [Line "list"; Line "new a"])
    = (Ret (Some v), st')
    /\ (v = "quit" \/ v = "back").
Proof.
  apply (manager_returns Tmux.host 3 Tmux.terminal None
           (Tmux.boot (Tmux.workstation []) [Line "list"; Line "new a"])).
  cbn. lia.
Defined.

End MoreDispatcherOnTheReferenceHost.

(* ===================================================================== *)
(** ** The listing and the names of the server *)
(* ===================================================================== *)

Section ListingFacts.
Local Open Scope string_scope.

Lemma rstrip_keeps (s : string) :
  match last_char s with
  | Some c => isspace c = false
  | None => False
  end ->
  rstrip s = s.
Proof.
  induction s as [|d s IH]; [easy|]. cbn [last_char rstrip].
  destruct s as [|e s].
  - intros N. cbn [rstrip is_empty]. now rewrite N.
  - intros N. rewrite (IH N). cbn [is_empty]. now rewrite andb_false_r.
Qed.

Lemma rstrip_drops (s : string) (c : ascii) :
  isspace c = true -> rstrip (s ++ String c EmptyString) = rstrip s.
Proof.
  intros S. induction s as [|d s IH].
  - cbn [append rstrip is_empty]. now rewrite S.
  - cbn [append rstrip]. now rewrite IH.
Qed.

Lemma last_char_append (a b : string) :
  is_empty b = false -> last_char (a ++ b) = last_char b.
Proof.
  intros E. induction a as [|c a IH]; [reflexivity|].
  cbn [append last_char]. rewrite IH.
  destruct (a ++ b) eqn:A; [|reflexivity].
  destruct a; [cbn in A; now subst b | discriminate].
Qed.

Lemma splitlines_from_text (text cur rest : string) :
  no_linebreak text = true ->
  splitlines_from cur (text ++ rest) = splitlines_from (cur ++ text) rest.
Proof.
  revert cur; induction text as [|c text IH]; intros cur N.
  - now rewrite append_empty.
  - cbn [no_linebreak] in N. apply andb_true_iff in N as [B N].
    apply negb_true_iff in B. cbn [append splitlines_from]. rewrite B.
    now rewrite (IH _ N), append_assoc.
Qed.

Lemma splitlines_from_feed (cur rest : string) :
  splitlines_from cur (LF ++ rest) = cur :: splitlines_from EmptyString rest.
Proof.
  cbn [LF append splitlines_from].
  change (islinebreak (ascii_of_nat 10)) with true. cbv iota.
  destruct rest as [|d r]; [reflexivity|].
  change (code (ascii_of_nat 10) =? 13)%nat with false. reflexivity.
Qed.

(** A listing of trimmed names, stripped and cut into lines, gives the
    names back. *)
Lemma splitlines_strip_listing (ids : list string) :
  Forall (fun id => trimmed id = true) ids ->
  splitlines (strip (listing ids)) = ids.
Proof.
  intros F. destruct ids as [|id ids]; [reflexivity|].
  assert (J : listing (id :: ids) = join LF (id :: ids) ++ LF).
  { clear F. revert id; induction ids as [|id' ids IH]; intros id.
    - cbn [listing join]. now rewrite append_empty.
    - change (listing (id :: id' :: ids))
        with (id ++ LF ++ listing (id' :: ids)).
      change (join LF (id :: id' :: ids))
        with (id ++ LF ++ join LF (id' :: ids)).
      now rewrite IH, !append_assoc. }
  assert (E : match last_char (join LF (id :: ids)) with
              | Some c => isspace c = false
              | None => False
              end).
  { clear J. revert id F; induction ids as [|id' ids IH]; intros id F;
      inversion F as [|? ? T F']; subst.
    - cbn [join]. unfold trimmed in T.
      apply andb_true_iff in T as [T _]. apply andb_true_iff in T as [_ T].
      destruct (last_char id); [now apply negb_true_iff in T | discriminate].
    - change (join LF (id :: id' :: ids))
        with (id ++ (LF ++ join LF (id' :: ids))).
      rewrite last_char_append by reflexivity.
      change (LF ++ join LF (id' :: ids))
        with (String (ascii_of_nat 10) (join LF (id' :: ids))).
      specialize (IH id' F'). cbn [last_char].
      destruct (join LF (id' :: ids)); [easy | exact IH]. }
  assert (S : strip (listing (id :: ids)) = join LF (id :: ids)).
  { rewrite J. unfold strip.
    assert (L : lstrip (join LF (id :: ids) ++ LF)
                = join LF (id :: ids) ++ LF).
    { inversion F as [|? ? T _]; subst. unfold trimmed in T.
      apply andb_true_iff in T as [T _]. apply andb_true_iff in T as [T _].
      destruct id as [|c id]; [discriminate|].
      apply negb_true_iff in T.
      destruct ids; cbn [join append lstrip]; now rewrite T. }
    rewrite L. unfold LF at 2. rewrite rstrip_drops by reflexivity.
    now apply rstrip_keeps. }
  rewrite S. clear J E S. unfold splitlines.
  revert id F; induction ids as [|id' ids IH]; intros id F;
    inversion F as [|? ? T F']; subst;
    unfold trimmed in T; apply andb_true_iff in T as [T N].
  - cbn [join]. rewrite <- (append_empty id) at 1.
    rewrite (splitlines_from_text _ _ _ N). cbn [append splitlines_from].
    apply andb_true_iff in T as [T _].
    destruct id; [discriminate | reflexivity].
  - change (join LF (id :: id' :: ids))
      with (id ++ (LF ++ join LF (id' :: ids))).
    rewrite (splitlines_from_text _ _ _ N), splitlines_from_feed.
    cbn [append]. now rewrite (IH id' F').
Qed.

End ListingFacts.

Section ListingOfTheServer.
Context {W : Type} (H : Host W).
Local Open Scope string_scope.

(** X21. When tmux answers the query with status 0 and a listing of
    session names that are trimmed (not empty, no line boundary inside,
    no white space at either end), [list_micro_terminals] returns the
    names of exactly the sessions that carry the prefix, in the order of
    the server and with the prefix cut off; a session without the prefix
    gives no name. *)
Theorem list_is_exact_on_trimmed_names (tmux : string) (r : Completed)
    (ids : list string) (st : State W) :
  located H st "tmux" = Some tmux ->
  outcome_of H st (list_sessions_argv tmux) 5 = Exited r ->
  returncode r = 0%Z ->
  stdout r = listing ids ->
  Forall (fun id => trimmed id = true) ids ->
  exists names,
    fst (list_micro_terminals H st) = Ret names
    /\ map toIdentifier names = filter tagged ids
    /\ (forall n, In n names <-> In (toIdentifier n) ids)
    /\ (forallb (fun id => negb (tagged id)) ids = true -> names = []).
Proof.
  intros L O Z0 E F. rewrite (list_eq _ _ _ L), O, Z0, E. cbn [Z.eqb fst].
  rewrite (splitlines_strip_listing _ F). exists (comprehension ids).
  split; [reflexivity|]. split; [apply comprehension_filter|].
  split; [apply comprehension_in|].
  intros A. clear F E. induction ids as [|id ids IH]; [reflexivity|].
  cbn [forallb] in A. apply andb_true_iff in A as [T A].
  apply negb_true_iff in T. unfold tagged in T. cbn [comprehension].
  rewrite T. now apply IH.
Qed.

End ListingOfTheServer.

Section ListingOnTheReferenceHost.
Local Open Scope string_scope.

Lemma list_is_exact_on_trimmed_names_witness :
  exists names,
    fst (list_micro_terminals Tmux.host
           (Tmux.boot
              (Tmux.workstation ["main"; "aitx-micro-b c"; "x aitx-micro-";
                                 "aitx-micro-a"]) []))
    = Ret names
    /\ map toIdentifier names = ["aitx-micro-b c"; "aitx-micro-a"].
Proof.
  destruct (list_is_exact_on_trimmed_names Tmux.host "/usr/bin/tmux"
              (Tmux.done (listing ["main"; "aitx-micro-b c";
                                   "x aitx-micro-"; "aitx-micro-a"]))
              ["main"; "aitx-micro-b c"; "x aitx-micro-"; "aitx-micro-a"]
              (Tmux.boot (Tmux.workstation ["main"; "aitx-micro-b c";
                                            "x aitx-micro-"; "aitx-micro-a"])
                 [])
              eq_refl eq_refl eq_refl eq_refl)
    as (names & E & F & _).
  - repeat constructor.
  - exists names. split; [exact E | exact F].
Defined.

(** C4 fails on the code.  The output of list-sessions is stripped as a
    whole before it is cut into lines, so white space that begins the
    first session name or ends the last one is lost.  On a server whose
    sessions are " aitx-micro-z" and "main", neither of which starts
    with the prefix, [list_micro_terminals] reports the name "z", a
    terminal that the liveness query does not find; and the session
    "aitx-micro-a " is reported under the name "a", not "a ". *)
Theorem list_reports_session_without_prefix :
  let st := Tmux.boot (Tmux.workstation [" aitx-micro-z"; "main"]) [] in
  let st' := Tmux.boot (Tmux.workstation ["main"; "aitx-micro-a "]) [] in
  forallb (fun id => negb (tagged id)) (Tmux.sessions (world st)) = true
  /\ map stripNamespace (Tmux.sessions (world st)) = [None; None]
  /\ outcome_of Tmux.host st (list_sessions_argv "/usr/bin/tmux") 5
     = Exited (mkCompleted 0 (" aitx-micro-z" ++ LF ++ "main" ++ LF)
                 EmptyString)
  /\ fst (list_micro_terminals Tmux.host st) = Ret ["z"]
  /\ session_live Tmux.host st (toIdentifier "z") = false
  /\ map stripNamespace (Tmux.sessions (world st')) = [None; Some "a "]
  /\ fst (list_micro_terminals Tmux.host st') = Ret ["a"].
Proof. cbv zeta. repeat split. Qed.

End ListingOnTheReferenceHost.
